(** * pyforestplot: argument validation and example-data loading

    A shallow embedding of [pyforestplot/arg_validators.py] ([check_data])
    and [pyforestplot/dataframe_utils.py] ([load_data]), followed by the
    properties of the two functions.

    Modelling choices.
    - A Python [str] is a [string]; one [ascii] stands for one code point
      below 256.
    - A pandas [DataFrame] is an ordered list of named columns with unique
      names.  A column has dtype [float64] (binary64 cells, as Rocq's
      primitive floats), [int64] (cells in [-2^63, 2^63), wrap-around
      arithmetic), [bool] or [object] (cells are Python strings).
    - The frame is mutated in place and warnings go to a process-wide
      channel, so the code runs in a state monad over a [world] made of the
      frame and the warnings emitted so far; an exception ends the run and
      leaves the world as it was when raised.
    - Arithmetic on columns follows numpy: a float operand makes the result
      float, integers wrap around, and the difference of two boolean columns
      raises a [TypeError].
    - Python's built-in [float(str)] is not code of the repository: it is the
      section variable [py_float]. *)

From Stdlib Require Import String Ascii List ZArith Lia Bool PrimFloat Uint63.
Import ListNotations.
Set Warnings "-inexact-float".
Open Scope string_scope.

(** ** Python strings *)

Module PyStr.

(** The double quote character, code point 34. *)
Definition dquote : string :=
  String (Ascii false true false false false true false false) EmptyString.

Definition in_range (lo hi : N) (c : ascii) : bool :=
  (N.leb lo (N_of_ascii c) && N.leb (N_of_ascii c) hi)%bool.

(** [str.isspace] on one code point below 256: tab to carriage return,
    the four separators 28 to 31, space, NEL (133) and NBSP (160). *)
Definition isspace (c : ascii) : bool :=
  (in_range 9 13 c || in_range 28 32 c
   || N.eqb (N_of_ascii c) 133 || N.eqb (N_of_ascii c) 160)%bool.

(** Upper-case letters below 256: A to Z, and the Latin-1 capitals 192 to
    222 without the multiplication sign 215. *)
Definition isupper (c : ascii) : bool :=
  (in_range 65 90 c
   || (in_range 192 222 c && negb (N.eqb (N_of_ascii c) 215)))%bool.

Definition lower_char (c : ascii) : ascii :=
  if isupper c then ascii_of_N (N_of_ascii c + 32) else c.

(** [s.lower()] *)
Fixpoint lower (s : string) : string :=
  match s with
  | EmptyString => EmptyString
  | String c rest => String (lower_char c) (lower rest)
  end.

Fixpoint lstrip (s : string) : string :=
  match s with
  | EmptyString => EmptyString
  | String c rest => if isspace c then lstrip rest else s
  end.

Fixpoint rstrip (s : string) : string :=
  match s with
  | EmptyString => EmptyString
  | String c rest =>
      match rstrip rest with
      | EmptyString => if isspace c then EmptyString else String c EmptyString
      | kept => String c kept
      end
  end.

(** [s.strip()] *)
Definition strip (s : string) : string := rstrip (lstrip s).

(** [sep.join(xs)] *)
Fixpoint join (sep : string) (xs : list string) : string :=
  match xs with
  | [] => EmptyString
  | [x] => x
  | x :: rest => x ++ sep ++ join sep rest
  end.

(** [x in xs] for a list of strings *)
Fixpoint contains (xs : list string) (x : string) : bool :=
  match xs with
  | [] => false
  | y :: rest => (String.eqb x y || contains rest x)%bool
  end.

(** Every character of [s] is whitespace. *)
Fixpoint all_space (s : string) : bool :=
  match s with
  | EmptyString => true
  | String c rest => (isspace c && all_space rest)%bool
  end.

End PyStr.

(** ** Exceptions and the state monad of the embedding *)

Inductive exn : Type :=
| TypeError (msg : string)
| AssertionError (msg : string)
| KeyError (key : string).

(** The error kinds of the specification: [TypeError] is its TypeKind,
    [AssertionError] its ConstraintKind; a [KeyError] is neither. *)
Inductive error_kind : Type := TypeKind | ConstraintKind | RawKeyLookup.

Definition kind_of (e : exn) : error_kind :=
  match e with
  | TypeError _ => TypeKind
  | AssertionError _ => ConstraintKind
  | KeyError _ => RawKeyLookup
  end.

Inductive result (A : Type) : Type :=
| Ok (a : A)
| Raise (e : exn).
Arguments Ok {A} a.
Arguments Raise {A} e.

(** ** pandas columns and frames *)

Module Pandas.

Inductive column : Type :=
| Float64 (cells : list float)
| Int64 (cells : list Z)
| Bool (cells : list bool)
| Object (cells : list string).

Definition DataFrame : Type := list (string * column).

(** [dataframe.columns] *)
Definition columns (df : DataFrame) : list string := map fst df.

(** [dataframe[key]], [None] standing for the [KeyError] *)
Fixpoint getcol (df : DataFrame) (key : string) : option column :=
  match df with
  | [] => None
  | (k, c) :: rest => if String.eqb k key then Some c else getcol rest key
  end.

(** [dataframe[key] = c]: replaces the column in place when the name
    exists, appends it otherwise. *)
Fixpoint setcol (df : DataFrame) (key : string) (c : column) : DataFrame :=
  match df with
  | [] => [(key, c)]
  | (k, c0) :: rest =>
      if String.eqb k key then (k, c) :: rest
      else (k, c0) :: setcol rest key c
  end.

(** [pandas.api.types.is_numeric_dtype] *)
Definition is_numeric_dtype (c : column) : bool :=
  match c with
  | Float64 _ | Int64 _ | Bool _ => true
  | Object _ => false
  end.

Definition wrap64 (z : Z) : Z := ((z + 2 ^ 63) mod 2 ^ 64 - 2 ^ 63)%Z.

(** The cast of an [int64] cell to [float64], rounding to nearest. *)
Definition f64_of_int64 (z : Z) : float :=
  match z with
  | Z0 => 0%float
  | Zpos _ => of_uint63 (Uint63.of_Z z)
  | Zneg _ =>
      if Z.eqb z (- 2 ^ 63) then (- 9223372036854775808)%float
      else (- of_uint63 (Uint63.of_Z (- z)))%float
  end.

Fixpoint map2 {A B C : Type} (f : A -> B -> C) (xs : list A) (ys : list B)
  : list C :=
  match xs, ys with
  | x :: xs', y :: ys' => f x y :: map2 f xs' ys'
  | _, _ => []
  end.

(** The cast of a [bool] cell to [float64]. *)
Definition f64_of_bool (b : bool) : float := if b then 1%float else 0%float.

(** The cells of a numeric column promoted to [float64], and those of an
    integer or boolean column promoted to [int64]. *)
Definition to_float64 (c : column) : list float :=
  match c with
  | Float64 xs => xs
  | Int64 xs => map f64_of_int64 xs
  | Bool xs => map f64_of_bool xs
  | Object _ => []
  end.

Definition to_int64 (c : column) : list Z :=
  match c with
  | Int64 xs => xs
  | Bool xs => map Z.b2z xs
  | Float64 _ | Object _ => []
  end.

(** The [TypeError] numpy raises for the difference of two boolean
    arrays. *)
Definition msg_bool_subtract : string :=
  "numpy boolean subtract, the `-` operator, is not supported, use the bitwise_xor, the `^` operator, or the logical_xor function instead.".

(** Element-wise arithmetic of two columns of one frame (same row index),
    with numpy's promotion: a [float64] operand makes the result [float64],
    otherwise an [int64] operand makes it [int64]; two [bool] operands are
    combined by [fb], and raise when numpy has no such operation ([fb] is
    [None]).  On an [object] operand pandas applies the Python operator cell
    by cell; the embedding gives the [TypeError] that a string cell raises
    against a number.  [check_data] reaches the arithmetic with numeric
    operands only. *)
Definition series_binop (ff : float -> float -> float) (fz : Z -> Z -> Z)
           (fb : option (bool -> bool -> bool)) (a b : column)
  : result column :=
  match a, b with
  | Object _, _ | _, Object _ =>
      Raise (TypeError "unsupported operand type(s)")
  | Bool xs, Bool ys =>
      match fb with
      | Some f => Ok (Bool (map2 f xs ys))
      | None => Raise (TypeError msg_bool_subtract)
      end
  | Float64 _, _ | _, Float64 _ =>
      Ok (Float64 (map2 ff (to_float64 a) (to_float64 b)))
  | _, _ =>
      Ok (Int64 (map2 (fun x y => wrap64 (fz x y)) (to_int64 a) (to_int64 b)))
  end.

(** [a - b]: numpy has no difference of two boolean arrays. *)
Definition series_sub : column -> column -> result column :=
  series_binop PrimFloat.sub Z.sub None.

(** [a + b]: the sum of two boolean arrays is their disjunction. *)
Definition series_add : column -> column -> result column :=
  series_binop PrimFloat.add Z.add (Some orb).

Fixpoint parse_all (parse : string -> option float) (xs : list string)
  : option (list float) :=
  match xs with
  | [] => Some []
  | x :: rest =>
      match parse x, parse_all parse rest with
      | Some v, Some vs => Some (v :: vs)
      | _, _ => None
      end
  end.

(** [series.astype(float)], [None] standing for the [ValueError] of a
    cell that [float()] rejects. *)
Definition astype_float (parse : string -> option float) (c : column)
  : option column :=
  match c with
  | Float64 xs => Some (Float64 xs)
  | Int64 xs => Some (Float64 (map f64_of_int64 xs))
  | Bool xs => Some (Float64 (map f64_of_bool xs))
  | Object xs => option_map Float64 (parse_all parse xs)
  end.

End Pandas.
Import Pandas.

Record world : Type := World { frame : DataFrame; warned : list string }.

Definition py (A : Type) : Type := world -> result A * world.

Definition ret {A : Type} (a : A) : py A := fun w => (Ok a, w).

Definition bind {A B : Type} (m : py A) (k : A -> py B) : py B :=
  fun w =>
    match m w with
    | (Ok a, w') => k a w'
    | (Raise e, w') => (Raise e, w')
    end.

Definition raise {A : Type} (e : exn) : py A := fun w => (Raise e, w).

Declare Scope py_scope.
Delimit Scope py_scope with py.
Notation "x <- m ;; k" := (bind m (fun x => k))
  (at level 61, m at next level, right associativity) : py_scope.
Notation "m ;; k" := (bind m (fun _ => k))
  (at level 61, right associativity) : py_scope.
Open Scope py_scope.

(** [dataframe[key]] *)
Definition getitem (key : string) : py column :=
  fun w =>
    match getcol (frame w) key with
    | Some c => (Ok c, w)
    | None => (Raise (KeyError key), w)
    end.

(** [dataframe[key]] for an optional argument; [dataframe[None]] is a
    [KeyError]. *)
Definition getitem_opt (key : option string) : py column :=
  match key with
  | Some k => getitem k
  | None => raise (KeyError "None")
  end.

(** [dataframe[key] = c] *)
Definition setitem (key : string) (c : column) : py unit :=
  fun w => (Ok tt, World (setcol (frame w) key c) (warned w)).

(** [warnings.warn(msg)] *)
Definition warn (msg : string) : py unit :=
  fun w => (Ok tt, World (frame w) (warned w ++ [msg])).

(** Lifts the result of a column operation into the monad. *)
Definition lift {A : Type} (r : result A) : py A := fun w => (r, w).

(** [if cond: body] *)
Definition when (cond : bool) (body : py unit) : py unit :=
  if cond then body else ret tt.

(** [try: assert cond / except: raise e] *)
Definition assert_or (cond : bool) (e : exn) : py unit :=
  if cond then ret tt else raise e.

Definition is_none {A : Type} (o : option A) : bool :=
  match o with None => true | Some _ => false end.

Definition is_some {A : Type} (o : option A) : bool := negb (is_none o).

(** ** Annotation arguments

    [addannote], [annoteheaders], [rightannote] and [right_annoteheaders]
    are lists (or tuples) of strings; the one argument that is not list-like
    and still iterable is a bare string. *)

Inductive pyarg : Type :=
| PyList (items : list string)
| PyStr (s : string).

(** [pandas.api.types.is_list_like] *)
Definition is_list_like (a : pyarg) : bool :=
  match a with
  | PyList _ => true
  | PyStr _ => false
  end.

(** [len(a)] *)
Definition len (a : pyarg) : nat :=
  match a with
  | PyList xs => List.length xs
  | PyStr s => String.length s
  end.

(** The entries [for col in a] visits, in order. *)
Definition entries (a : pyarg) : list string :=
  match a with
  | PyList xs => xs
  | PyStr s => map (fun c => String c EmptyString) (list_ascii_of_string s)
  end.

(** [x in a]: membership in a list, substring test on a string. *)
Definition py_in (x : string) (a : pyarg) : bool :=
  match a with
  | PyList xs => PyStr.contains xs x
  | PyStr s => match index 0 x s with Some _ => true | None => false end
  end.

(** ** arg_validators.py *)

Module ArgValidators.

Import PyStr.

Definition msg_estimate : string := "Estimates should be float or int".
Definition msg_moerror : string :=
  "Margin of error values should be float or int".
Definition msg_ll : string := "CI lowerlimit values should be float or int".
Definition msg_hl : string := "CI higherlimit values should be float or int".

Definition msg_need_ll_hl : string :=
  Eval cbv in
    "If " ++ dquote ++ "moerror" ++ dquote ++ " is not provided, then "
    ++ dquote ++ "ll" ++ dquote ++ " and " ++ dquote ++ "hl" ++ dquote
    ++ " must be provided.".

Definition msg_need_moerror : string :=
  Eval cbv in
    "If " ++ dquote ++ "ll, hl" ++ dquote ++ " is not provided, then "
    ++ dquote ++ "moerror" ++ dquote ++ " must be provided.".

Definition msg_not_found (col : string) : string :=
  "the field " ++ col ++ " is not found in dataframe.".

Definition msg_already_printed (varlabel : string) : string :=
  varlabel ++ " is a variable is already printed.".

Definition msg_duplicate (varlabel arg : string) : string :=
  varlabel ++ " is a variable is already printed. Specifying " ++ varlabel
  ++ " in " ++ dquote ++ arg ++ dquote
  ++ " will lead to duplicate printing of " ++ varlabel ++ ".".

Definition acceptable_annotations : list string :=
  ["ci_range"; "est_ci"; "formatted_pval"].

(** What a caller passes as [dataframe]: the table of the world, or some
    Python value that is not a [DataFrame]. *)
Inductive pyobject : Type := TheFrame | NotAFrame.

Section CheckData.

(** Python's [float(s)] on a string cell; [None] is its [ValueError]. *)
Variable py_float : string -> option float.

(** Lines 54-58 and their three copies: look the column up, and cast it
    to float when its dtype is not numeric. *)
Definition ensure_numeric (key msg : string) : py unit :=
  c <- getitem key ;;
  if is_numeric_dtype c then ret tt
  else
    match astype_float py_float c with
    | Some c' => setitem key c'
    | None => raise (TypeError msg)
    end.

Definition ensure_numeric_opt (key : option string) (msg : string)
  : py unit :=
  match key with
  | Some k => ensure_numeric k msg
  | None => ret tt
  end.

(** Lines 54-79: check that numeric data are numeric. *)
Definition check_numeric (estimate : string) (moerror ll hl : option string)
  : py unit :=
  ensure_numeric estimate msg_estimate ;;
  ensure_numeric_opt moerror msg_moerror ;;
  ensure_numeric_opt ll msg_ll ;;
  ensure_numeric_opt hl msg_hl.

(** Lines 85-99: either moerror or ll, hl are specified. *)
Definition check_ci_source (moerror ll hl : option string) : py unit :=
  when (is_none moerror)
       (assert_or (is_some ll && is_some hl)
                  (AssertionError msg_need_ll_hl)) ;;
  when (is_none ll || is_none hl)
       (assert_or (is_some moerror) (AssertionError msg_need_moerror)).

(** Lines 101-109: create the missing data from what is available. *)
Definition derive (estimate : string) (moerror ll hl : option string)
  : py unit :=
  when (is_none moerror)
       (e <- getitem estimate ;;
        l <- getitem_opt ll ;;
        d <- lift (series_sub e l) ;;
        setitem "moerror" d) ;;
  when (is_none ll)
       (e <- getitem estimate ;;
        m <- getitem_opt moerror ;;
        d <- lift (series_sub e m) ;;
        setitem "ll" d) ;;
  when (is_none hl)
       (e <- getitem estimate ;;
        m <- getitem_opt moerror ;;
        d <- lift (series_add e m) ;;
        setitem "hl" d).

(** Lines 114-136, one argument. *)
Definition check_list_like (arg : option pyarg) (name : string) : py unit :=
  match arg with
  | Some a =>
      assert_or (is_list_like a) (TypeError (name ++ " should be list-like."))
  | None => ret tt
  end.

(** Lines 142-155, one pair. *)
Definition check_same_length (arg headers : option pyarg) (msg : string)
  : py unit :=
  match arg, headers with
  | Some a, Some h =>
      assert_or (Nat.eqb (len a) (len h)) (AssertionError msg)
  | _, _ => ret tt
  end.

(** [col in dataframe.columns or col in acceptable_annotations] *)
Definition found (df : DataFrame) (col : string) : bool :=
  (contains (columns df) col || contains acceptable_annotations col)%bool.

(** The loop body of lines 167-171 over the entries that remain. *)
Fixpoint check_fields (cols : list string) : py unit :=
  match cols with
  | [] => ret tt
  | col :: rest =>
      (fun w =>
         assert_or (found (frame w) col)
                   (AssertionError (msg_not_found col)) w) ;;
      check_fields rest
  end.

(** Lines 166-178, one argument. *)
Definition check_found (arg : option pyarg) : py unit :=
  match arg with
  | Some a => check_fields (entries a)
  | None => ret tt
  end.

(** Lines 184-194. *)
Definition emit_warnings (varlabel : string)
           (addannote rightannote : option pyarg) : py unit :=
  match addannote with
  | Some a =>
      when (py_in varlabel a) (warn (msg_duplicate varlabel "addannote"))
  | None => ret tt
  end ;;
  match rightannote with
  | Some a =>
      when (py_in varlabel a)
           (warn (msg_already_printed varlabel) ;;
            warn (msg_duplicate varlabel "rightannote"))
  | None => ret tt
  end.

(** [check_data(dataframe, estimate, varlabel, moerror, ll, hl,
    addannote, annoteheaders, rightannote, right_annoteheaders)] from line
    54 on; the [dataframe] argument is the frame of the world the call runs
    in, a [DataFrame] by its type, so the [isinstance] guard of line 51
    passes.  [check_data_on] below is the function from its first line. *)
Definition check_data (estimate varlabel : string)
           (moerror ll hl : option string)
           (addannote annoteheaders rightannote right_annoteheaders
            : option pyarg)
  : py DataFrame :=
  check_numeric estimate moerror ll hl ;;
  check_ci_source moerror ll hl ;;
  derive estimate moerror ll hl ;;
  check_list_like addannote "addannote" ;;
  check_list_like annoteheaders "annoteheaders" ;;
  check_list_like rightannote "rightannote" ;;
  check_list_like right_annoteheaders "right_annoteheaders" ;;
  check_same_length addannote annoteheaders
    "addannote and annoteheaders should have same length." ;;
  check_same_length rightannote right_annoteheaders
    "rightannote and right_annoteheaders should have same length." ;;
  check_found addannote ;;
  check_found rightannote ;;
  emit_warnings varlabel addannote rightannote ;;
  (fun w => (Ok (frame w), w)).

(** [check_data] from line 51 on, for any Python value passed as
    [dataframe]. *)
Definition check_data_on (dataframe : pyobject) (estimate varlabel : string)
           (moerror ll hl : option string)
           (addannote annoteheaders rightannote right_annoteheaders
            : option pyarg)
  : py DataFrame :=
  match dataframe with
  | NotAFrame => raise (TypeError "Expect data as Pandas DataFrame")
  | TheFrame =>
      check_data estimate varlabel moerror ll hl addannote annoteheaders
                 rightannote right_annoteheaders
  end.

End CheckData.

End ArgValidators.

(** ** dataframe_utils.py *)

Module DataframeUtils.

Import PyStr.

(** What a call of [load_data] does: it either hands [url] and the keyword
    arguments to [pd.read_csv] and returns what that returns, or raises
    without having called it. *)
Inductive outcome : Type :=
| ReadCsv (url : string) (param_dict : list (string * string))
| Fails (e : exn).

Definition available_data : list string := ["mortality"].

Definition data_url (name : string) : string :=
  "https://raw.githubusercontent.com/lsys/pyforestplot/main/examples/data/"
  ++ name ++ ".csv".

Definition msg_unknown (name : string) : string :=
  name ++ " not found. Should be one of '" ++ join ", " available_data ++ "'".

(** [name.lower().strip()] *)
Definition normalize (name : string) : string := strip (lower name).

Definition load_data (name : string) (param_dict : list (string * string))
  : outcome :=
  let name := normalize name in
  if contains available_data name then ReadCsv (data_url name) param_dict
  else Fails (AssertionError (msg_unknown name)).

End DataframeUtils.

(** * Vocabulary of the statements *)

Import PyStr ArgValidators DataframeUtils.

(** The column arguments that are supplied, in the order lines 54-79 treat
    them, each with the message of its [TypeError]. *)
Definition fields (estimate : string) (moerror ll hl : option string)
  : list (string * string) :=
  (estimate, msg_estimate)
    :: match moerror with Some k => [(k, msg_moerror)] | None => [] end
    ++ match ll with Some k => [(k, msg_ll)] | None => [] end
    ++ match hl with Some k => [(k, msg_hl)] | None => [] end.

(** The names [derive] assigns to: one for each absent argument. *)
Definition derived_names (moerror ll hl : option string) : list string :=
  (if is_none moerror then ["moerror"] else [])
    ++ (if is_none ll then ["ll"] else [])
    ++ (if is_none hl then ["hl"] else []).

(** The completeness condition on the interval arguments. *)
Definition ci_ok (moerror ll hl : option string) : bool :=
  (is_some moerror || (is_some ll && is_some hl))%bool.

(** An annotation entry is known when it names a column or is one of the
    acceptable annotations. *)
Definition known (cols : list string) (col : string) : bool :=
  (contains cols col || contains acceptable_annotations col)%bool.

Definition entries_opt (arg : option pyarg) : list string :=
  match arg with
  | Some a => entries a
  | None => []
  end.

(** The two shape conditions of lines 114-155: list-like arguments, and
    equal lengths within a supplied pair. *)
Definition list_like_opt (arg : option pyarg) : bool :=
  match arg with
  | Some a => is_list_like a
  | None => true
  end.

Definition same_length (arg headers : option pyarg) : bool :=
  match arg, headers with
  | Some a, Some h => Nat.eqb (len a) (len h)
  | _, _ => true
  end.

Definition shapes_ok (addannote annoteheaders rightannote right_annoteheaders
                      : option pyarg) : bool :=
  (list_like_opt addannote && list_like_opt annoteheaders
   && list_like_opt rightannote && list_like_opt right_annoteheaders
   && same_length addannote annoteheaders
   && same_length rightannote right_annoteheaders)%bool.

(** The annotation arguments pass every check of lines 114-178 against a
    frame whose columns are [cols]. *)
Definition annotations_ok (cols : list string)
           (addannote annoteheaders rightannote right_annoteheaders
            : option pyarg) : bool :=
  (shapes_ok addannote annoteheaders rightannote right_annoteheaders
   && forallb (known cols) (entries_opt addannote)
   && forallb (known cols) (entries_opt rightannote))%bool.

Definition py_in_opt (x : string) (arg : option pyarg) : bool :=
  match arg with
  | Some a => py_in x a
  | None => false
  end.

(** The warnings of lines 184-194, in the order they are emitted. *)
Definition warnings_for (varlabel : string) (addannote rightannote : option pyarg)
  : list string :=
  (if py_in_opt varlabel addannote
   then [msg_duplicate varlabel "addannote"] else [])
    ++ (if py_in_opt varlabel rightannote
        then [msg_already_printed varlabel;
              msg_duplicate varlabel "rightannote"]
        else []).

(** The column [k] exists and has a numeric dtype. *)
Definition has_numeric (df : DataFrame) (k : string) : Prop :=
  exists c, getcol df k = Some c /\ is_numeric_dtype c = true.

(** The names among [names] that are not yet columns of [df]. *)
Definition fresh_in (df : DataFrame) (names : list string) : list string :=
  filter (fun d => negb (contains (columns df) d)) names.

(** [df2] is [df] after lines 101-109: the absent fields are assigned, each
    from the columns it is computed from, and nothing else changes. *)
Definition derived_from (estimate : string) (moerror ll hl : option string)
           (df df2 : DataFrame) : Prop :=
  columns df2 = (columns df ++ fresh_in df (derived_names moerror ll hl))%list
  /\ (forall n, ~ In n (derived_names moerror ll hl) ->
                getcol df2 n = getcol df n)
  /\ (moerror = None ->
      exists lk E L D,
        ll = Some lk /\ getcol df estimate = Some E /\ getcol df lk = Some L
        /\ series_sub E L = Ok D /\ getcol df2 "moerror" = Some D)
  /\ (ll = None ->
      exists mk E M D,
        moerror = Some mk /\ getcol df estimate = Some E
        /\ getcol df mk = Some M
        /\ series_sub E M = Ok D /\ getcol df2 "ll" = Some D)
  /\ (hl = None ->
      (ll = None -> estimate <> "ll" /\ moerror <> Some "ll") ->
      exists mk E M D,
        moerror = Some mk /\ getcol df estimate = Some E
        /\ getcol df mk = Some M
        /\ series_add E M = Ok D /\ getcol df2 "hl" = Some D).

Section Coercion.

Variable py_float : string -> option float.

(** What lines 54-58 leave in a column: the column itself when numeric,
    its cast to float otherwise; [None] when a cell cannot be cast. *)
Definition coerce_column (c : column) : option column :=
  if is_numeric_dtype c then Some c else astype_float py_float c.

Definition coerced (c : column) : column :=
  match coerce_column c with
  | Some c' => c'
  | None => c
  end.

(** The column [key] exists and is numeric or can be cast. *)
Definition passes (df : DataFrame) (key : string) : bool :=
  match getcol df key with
  | Some c => is_some (coerce_column c)
  | None => false
  end.

(** Every supplied interval column of [df] passes. *)
Definition all_pass (df : DataFrame) (estimate : string)
           (moerror ll hl : option string) : bool :=
  forallb (fun f => passes df (fst f)) (fields estimate moerror ll hl).

(** Lines 54-79 as a function of the frame alone. *)
Fixpoint coerce_fields (fs : list (string * string)) (df : DataFrame)
  : result unit * DataFrame :=
  match fs with
  | [] => (Ok tt, df)
  | (k, msg) :: rest =>
      match getcol df k with
      | None => (Raise (KeyError k), df)
      | Some c =>
          match coerce_column c with
          | None => (Raise (TypeError msg), df)
          | Some c' => coerce_fields rest (setcol df k c')
          end
      end
  end.

(** [df1] is [df] after lines 54-79: same column names, and the columns
    named by [keys] replaced by their coerced form. *)
Definition coerced_from (keys : list string) (df df1 : DataFrame) : Prop :=
  columns df1 = columns df
  /\ forall n,
      getcol df1 n
      = option_map (fun c => if contains keys n then coerced c else c)
                   (getcol df n).

Fixpoint ensure_all (fs : list (string * string)) : py unit :=
  match fs with
  | [] => ret tt
  | (k, msg) :: rest => ensure_numeric py_float k msg ;; ensure_all rest
  end.

End Coercion.

(** The first error of lines 114-178 on a frame whose columns are [cols]. *)
Definition first_unknown (cols : list string) (xs : list string)
  : option string :=
  find (fun col => negb (known cols col)) xs.

Definition annotation_error (cols : list string)
           (addannote annoteheaders rightannote right_annoteheaders
            : option pyarg) : option exn :=
  if negb (list_like_opt addannote)
  then Some (TypeError "addannote should be list-like.")
  else if negb (list_like_opt annoteheaders)
  then Some (TypeError "annoteheaders should be list-like.")
  else if negb (list_like_opt rightannote)
  then Some (TypeError "rightannote should be list-like.")
  else if negb (list_like_opt right_annoteheaders)
  then Some (TypeError "right_annoteheaders should be list-like.")
  else if negb (same_length addannote annoteheaders)
  then Some (AssertionError
               "addannote and annoteheaders should have same length.")
  else if negb (same_length rightannote right_annoteheaders)
  then Some (AssertionError
               "rightannote and right_annoteheaders should have same length.")
  else
    match first_unknown cols (entries_opt addannote ++ entries_opt rightannote)
    with
    | Some col => Some (AssertionError (msg_not_found col))
    | None => None
    end.

(** The column list of the frame after lines 101-109. *)
Definition derived_columns (df : DataFrame) (moerror ll hl : option string)
  : list string :=
  (columns df ++ fresh_in df (derived_names moerror ll hl))%list.

(** An argument when supplied, the name [derive] assigns to otherwise. *)
Definition name_or (arg : option string) (default : string) : string :=
  match arg with
  | Some k => k
  | None => default
  end.

(** ** Cells

    The statements about derived columns speak of cells: the value a column
    holds on a row, and the difference and the sum of two cells as numpy
    computes them. *)

Inductive scalar : Type :=
| SFloat (x : float)
| SInt (z : Z)
| SBool (b : bool)
| SStr (s : string).

(** The cell of column [c] on row [i]. *)
Definition cell (c : column) (i : nat) : option scalar :=
  match c with
  | Float64 xs => option_map SFloat (nth_error xs i)
  | Int64 xs => option_map SInt (nth_error xs i)
  | Bool xs => option_map SBool (nth_error xs i)
  | Object xs => option_map SStr (nth_error xs i)
  end.

(** A numeric cell as a binary64 number, an integer or boolean cell as an
    integer. *)
Definition scalar_float (s : scalar) : float :=
  match s with
  | SFloat x => x
  | SInt z => f64_of_int64 z
  | SBool b => f64_of_bool b
  | SStr _ => nan
  end.

Definition scalar_int (s : scalar) : Z :=
  match s with
  | SInt z => z
  | SBool b => Z.b2z b
  | SFloat _ | SStr _ => 0%Z
  end.

(** [x - y] on two cells: the binary64 difference when one of them is a
    float, the difference modulo 2^64 of two integers (a boolean counting
    as 0 or 1), nothing for two booleans or for text. *)
Definition minus (x y : scalar) : option scalar :=
  match x, y with
  | SStr _, _ | _, SStr _ => None
  | SBool _, SBool _ => None
  | SFloat _, _ | _, SFloat _ =>
      Some (SFloat (scalar_float x - scalar_float y))
  | _, _ => Some (SInt (wrap64 (scalar_int x - scalar_int y)))
  end.

(** [x + y] on two cells: as [minus], except that the sum of two booleans
    is their disjunction. *)
Definition plus (x y : scalar) : option scalar :=
  match x, y with
  | SStr _, _ | _, SStr _ => None
  | SBool a, SBool b => Some (SBool (a || b))
  | SFloat _, _ | _, SFloat _ =>
      Some (SFloat (scalar_float x + scalar_float y))
  | _, _ => Some (SInt (wrap64 (scalar_int x + scalar_int y)))
  end.

(** Column [D] is [A op B] row by row: it has a cell exactly on the rows
    where [A] and [B] both have one, and that cell is [op] of theirs. *)
Definition rowwise (op : scalar -> scalar -> option scalar) (D A B : column)
  : Prop :=
  forall i,
    cell D i = match cell A i, cell B i with
               | Some a, Some b => op a b
               | _, _ => None
               end.

(** The three relations between the interval columns of a frame: lower
    limit = estimate - margin, upper limit = estimate + margin and
    margin = estimate - lower limit, on every row. *)
Definition ci_consistent (df : DataFrame) (estimate mo lo hi : string) : Prop :=
  exists E M L H,
    getcol df estimate = Some E /\ getcol df mo = Some M
    /\ getcol df lo = Some L /\ getcol df hi = Some H
    /\ rowwise minus L E M /\ rowwise plus H E M
    /\ rowwise minus M E L.

(** ** Boolean columns

    [is_numeric_dtype] accepts a boolean column, and numpy has no
    difference of two of them: the one subtraction of lines 101-109 raises
    when the estimate and the column taken from it are both boolean. *)

Definition is_bool (c : column) : bool :=
  match c with
  | Bool _ => true
  | Float64 _ | Int64 _ | Object _ => false
  end.

Definition bool_at (df : DataFrame) (k : string) : bool :=
  match getcol df k with
  | Some c => is_bool c
  | None => false
  end.

(** The column that lines 103 and 107 subtract from the estimate: [ll] when
    [moerror] is absent, [moerror] when [ll] is absent. *)
Definition subtrahend (moerror ll : option string) : option string :=
  match moerror, ll with
  | None, _ => ll
  | Some mk, None => Some mk
  | Some _, Some _ => None
  end.

(** The subtraction of lines 101-109, if there is one, is not that of two
    boolean columns.  A frame without boolean columns always qualifies. *)
Definition derivable (df : DataFrame) (estimate : string)
           (moerror ll : option string) : bool :=
  match subtrahend moerror ll with
  | Some k => negb (bool_at df estimate && bool_at df k)
  | None => true
  end.

(** No leading whitespace, no trailing whitespace. *)
Definition first_space (s : string) : bool :=
  match s with
  | EmptyString => false
  | String c _ => isspace c
  end.

Fixpoint last_space (s : string) : bool :=
  match s with
  | EmptyString => false
  | String c EmptyString => isspace c
  | String _ rest => last_space rest
  end.

(** The number of rows of a column. *)
Definition rows (c : column) : nat :=
  match c with
  | Float64 xs => List.length xs
  | Int64 xs => List.length xs
  | Bool xs => List.length xs
  | Object xs => List.length xs
  end.

(** Every column of [df] has [n] rows. *)
Definition uniform_rows (n : nat) (df : DataFrame) : bool :=
  forallb (fun kc => Nat.eqb (rows (snd kc)) n) df.

(** The four annotation arguments with the names their errors use, in the
    order lines 114-136 test them. *)
Definition annotation_args
           (addannote annoteheaders rightannote right_annoteheaders
            : option pyarg) : list (string * option pyarg) :=
  [("addannote", addannote); ("annoteheaders", annoteheaders);
   ("rightannote", rightannote); ("right_annoteheaders", right_annoteheaders)].

(** [triple I m Q]: run from a world that satisfies [I], the computation
    [m] leaves a world that satisfies [I], whatever its outcome, and a value
    that satisfies [Q] when it returns one. *)
Definition triple {A : Type} (I : world -> Prop) (m : py A) (Q : A -> Prop)
  : Prop :=
  forall w r w',
    m w = (r, w') -> I w -> I w' /\ (forall a, r = Ok a -> Q a).

(** The invariant of the row count: every column of the frame of [w] has
    [n] rows. *)
Definition uniform (n : nat) (w : world) : Prop :=
  uniform_rows n (frame w) = true.

(** The column [k] of [df] exists and is numeric. *)
Definition numeric_at (df : DataFrame) (k : string) : bool :=
  match getcol df k with
  | Some c => is_numeric_dtype c
  | None => false
  end.

(** * Sample data *)

(** [float()] on the cells the samples use. *)
Definition sample_float (s : string) : option float :=
  if String.eqb s "1.5" then Some 1.5%float
  else if String.eqb s "0.75" then Some 0.75%float
  else if String.eqb s "0.25" then Some 0.25%float
  else None.

(** Estimates with their margins of error. *)
Definition sample_margins : DataFrame :=
  [("var", Object ["age"; "sex"]);
   ("est", Float64 [1.5; 0.75]%float);
   ("moe", Float64 [0.5; 0.25]%float)].

(** Estimates with an interval that is not symmetric around them. *)
Definition sample_limits : DataFrame :=
  [("var", Object ["age"; "sex"]);
   ("est", Float64 [1.5; 0.75]%float);
   ("lo", Float64 [1; 0.5]%float);
   ("hi", Float64 [2.5; 1.25]%float)].

(** Estimates read as text, margins as integers. *)
Definition sample_text : DataFrame :=
  [("var", Object ["age"; "sex"]);
   ("est", Object ["1.5"; "0.75"]);
   ("moe", Int64 [1; 2]%Z)].

(** A frame whose lower limits are not numbers. *)
Definition sample_bad_limits : DataFrame :=
  [("var", Object ["age"; "sex"]);
   ("est", Float64 [1.5; 0.75]%float);
   ("lo", Object ["0.25"; "n/a"]);
   ("hi", Float64 [2.5; 1.25]%float)].

(** Estimates read as text, and lower limits that are not numbers. *)
Definition sample_text_bad : DataFrame :=
  [("var", Object ["age"; "sex"]);
   ("est", Object ["1.5"; "0.75"]);
   ("lo", Object ["0.25"; "n/a"]);
   ("hi", Float64 [2.5; 1.25]%float)].

(** Estimates and lower limits that both hold a cell that is no number. *)
Definition sample_two_bad : DataFrame :=
  [("var", Object ["age"; "sex"]);
   ("est", Object ["n/a"; "0.75"]);
   ("lo", Object ["0.25"; "n/a"]);
   ("hi", Float64 [2.5; 1.25]%float)].

(** Indicator columns: boolean estimates and limits. *)
Definition sample_flags : DataFrame :=
  [("var", Object ["age"; "sex"]);
   ("est", Bool [true; false]);
   ("lo", Bool [false; false]);
   ("hi", Bool [true; true])].

(** A table whose estimate column is named "ll". *)
Definition sample_named_ll : DataFrame :=
  [("var", Object ["age"; "sex"]);
   ("ll", Float64 [1.5; 0.75]%float);
   ("moe", Float64 [0.5; 0.25]%float)].

(** Integer estimates and lower limits, and upper limits read as text in a
    column named "moerror". *)
Definition sample_counts : DataFrame :=
  [("var", Object ["age"; "sex"]);
   ("est", Int64 [3; 5]%Z);
   ("lo", Int64 [1; 2]%Z);
   ("moerror", Object ["1.5"; "0.75"])].

(** [sample_margins] with its lower and upper limits. *)
Definition sample_complete : DataFrame :=
  (sample_margins
     ++ [("ll", Float64 [1; 0.5]%float); ("hl", Float64 [2; 1]%float)])%list.

(** * Properties *)

(** ** Facts about [lower] and [strip] *)

Lemma contains_In (xs : list string) (x : string) :
  contains xs x = true <-> In x xs.
Proof.
  induction xs as [|y ys IH]; simpl.
  - split; [discriminate | tauto].
  - rewrite orb_true_iff, IH, String.eqb_eq. intuition congruence.
Qed.

Lemma lower_app (a b : string) : lower (a ++ b) = lower a ++ lower b.
Proof. induction a as [|c a IH]; simpl; [reflexivity | now rewrite IH]. Qed.

Lemma isspace_not_upper (c : ascii) : isspace c = true -> lower_char c = c.
Proof.
  destruct c as [[] [] [] [] [] [] [] []]; vm_compute; intro H;
    first [reflexivity | discriminate H].
Qed.

Lemma lower_all_space (ws : string) : all_space ws = true -> lower ws = ws.
Proof.
  induction ws as [|c ws IH]; simpl; [reflexivity|].
  rewrite andb_true_iff. intros [Hc Hws].
  now rewrite (isspace_not_upper c Hc), (IH Hws).
Qed.

Lemma lstrip_app_space (ws t : string) :
  all_space ws = true -> lstrip (ws ++ t) = lstrip t.
Proof.
  induction ws as [|c ws IH]; simpl; [reflexivity|].
  rewrite andb_true_iff. intros [Hc Hws]. rewrite Hc. now apply IH.
Qed.

Lemma lstrip_all_space (ws : string) :
  all_space ws = true -> lstrip ws = EmptyString.
Proof.
  induction ws as [|c ws IH]; simpl; [reflexivity|].
  rewrite andb_true_iff. intros [Hc Hws]. rewrite Hc. now apply IH.
Qed.

Lemma rstrip_all_space (ws : string) :
  all_space ws = true -> rstrip ws = EmptyString.
Proof.
  induction ws as [|c ws IH]; simpl; [reflexivity|].
  rewrite andb_true_iff. intros [Hc Hws]. now rewrite (IH Hws), Hc.
Qed.

Lemma rstrip_app_space (t ws : string) :
  all_space ws = true -> rstrip (t ++ ws) = rstrip t.
Proof.
  intro Hws. induction t as [|c t IH]; simpl.
  - now apply rstrip_all_space.
  - now rewrite IH.
Qed.

(** Lower-casing and stripping undo surrounding whitespace and letter case
    around a word that is already normal. *)
Lemma normalize_padded (pre core post word : string) :
  all_space pre = true -> all_space post = true ->
  lower core = word -> strip word = word ->
  normalize (pre ++ core ++ post) = word.
Proof.
  intros Hpre Hpost Hcore Hword. unfold normalize, strip in *.
  rewrite !lower_app, Hcore, (lower_all_space _ Hpre), (lower_all_space _ Hpost).
  rewrite (lstrip_app_space _ _ Hpre).
  destruct word as [|c word].
  - simpl. now rewrite (lstrip_all_space _ Hpost).
  - simpl in *. destruct (isspace c) eqn:Hc.
    + (* a normal word does not start with whitespace *)
      exfalso.
      assert (Hlen : forall s, String.length (lstrip s) <= String.length s).
      { induction s as [|d s IHs]; simpl; [lia|].
        destruct (isspace d); simpl; lia. }
      assert (Hlen' : forall s, String.length (rstrip s) <= String.length s).
      { induction s as [|d s IHs]; simpl; [lia|].
        destruct (rstrip s); [destruct (isspace d)|]; simpl in *; lia. }
      specialize (Hlen word). specialize (Hlen' (lstrip word)).
      rewrite Hword in Hlen'. simpl in Hlen'. lia.
    + change (String c (word ++ post)) with (String c word ++ post).
      now rewrite (rstrip_app_space _ _ Hpost).
Qed.

Lemma isspace_lower_char (c : ascii) : isspace (lower_char c) = isspace c.
Proof. destruct c as [[] [] [] [] [] [] [] []]; reflexivity. Qed.

Lemma lower_char_idem (c : ascii) : lower_char (lower_char c) = lower_char c.
Proof. destruct c as [[] [] [] [] [] [] [] []]; reflexivity. Qed.

Lemma lower_idem (s : string) : lower (lower s) = lower s.
Proof.
  induction s as [|c s IH]; simpl; [reflexivity|].
  now rewrite lower_char_idem, IH.
Qed.

Lemma all_space_lower (s : string) : all_space (lower s) = all_space s.
Proof.
  induction s as [|c s IH]; simpl; [reflexivity|].
  now rewrite isspace_lower_char, IH.
Qed.

Lemma lower_lstrip (s : string) : lower (lstrip s) = lstrip (lower s).
Proof.
  induction s as [|c s IH]; simpl; [reflexivity|].
  rewrite isspace_lower_char. now destruct (isspace c).
Qed.

Lemma lower_rstrip (s : string) : lower (rstrip s) = rstrip (lower s).
Proof.
  induction s as [|c s IH]; simpl; [reflexivity|].
  rewrite <- IH, isspace_lower_char.
  destruct (rstrip s); simpl; [now destruct (isspace c) | reflexivity].
Qed.

Lemma lstrip_decompose (s : string) :
  exists pre, s = pre ++ lstrip s /\ all_space pre = true.
Proof.
  induction s as [|c s (pre & Hs & Hpre)]; simpl.
  - now exists EmptyString.
  - destruct (isspace c) eqn:Hc.
    + exists (String c pre). simpl. rewrite Hc, Hpre. split; [|reflexivity].
      now rewrite <- Hs.
    + now exists EmptyString.
Qed.

Lemma rstrip_decompose (s : string) :
  exists post, s = rstrip s ++ post /\ all_space post = true.
Proof.
  induction s as [|c s (post & Hs & Hpost)]; simpl.
  - now exists EmptyString.
  - destruct (rstrip s) as [|d kept] eqn:Hr.
    + simpl in Hs. subst post. destruct (isspace c) eqn:Hc.
      * exists (String c s). simpl. now rewrite Hc, Hpost.
      * exists s. now split.
    + exists post. split; [|exact Hpost]. simpl. f_equal. exact Hs.
Qed.

Lemma lower_split (s a b : string) :
  lower s = a ++ b ->
  exists a0 b0, s = a0 ++ b0 /\ lower a0 = a /\ lower b0 = b.
Proof.
  revert s. induction a as [|c a IH]; intros s Hs; simpl in Hs.
  - now exists EmptyString, s.
  - destruct s as [|d s]; simpl in Hs; [discriminate|].
    inversion Hs as [[Hc Hrest]].
    destruct (IH _ Hrest) as (a0 & b0 & Hs0 & Ha0 & Hb0).
    exists (String d a0), b0. simpl. now rewrite Hs0, Ha0.
Qed.

Lemma lstrip_rstrip_lstrip (s : string) :
  lstrip (rstrip (lstrip s)) = rstrip (lstrip s).
Proof.
  induction s as [|c s IH]; simpl; [reflexivity|].
  destruct (isspace c) eqn:Hc; [exact IH|].
  simpl. destruct (rstrip s); simpl; rewrite ?Hc; simpl; now rewrite ?Hc.
Qed.

Lemma rstrip_idem (s : string) : rstrip (rstrip s) = rstrip s.
Proof.
  induction s as [|c s IH]; simpl; [reflexivity|].
  destruct (rstrip s) as [|d kept] eqn:Hr.
  - destruct (isspace c) eqn:Hc; simpl; [reflexivity | now rewrite Hc].
  - simpl in *. rewrite IH. reflexivity.
Qed.

Lemma strip_idem (s : string) : strip (strip s) = strip s.
Proof.
  unfold strip. now rewrite lstrip_rstrip_lstrip, rstrip_idem.
Qed.

(** What [strip] leaves neither starts nor ends with whitespace. *)
Lemma first_space_lstrip (s : string) : first_space (lstrip s) = false.
Proof.
  induction s as [|c s IH]; simpl; [reflexivity|].
  destruct (isspace c) eqn:Hc; [exact IH | simpl; exact Hc].
Qed.

Lemma first_space_rstrip (s : string) :
  first_space s = false -> first_space (rstrip s) = false.
Proof.
  destruct s as [|c s]; simpl; [reflexivity|]. intro Hc.
  destruct (rstrip s); [rewrite Hc|]; simpl; exact Hc.
Qed.

Lemma last_space_rstrip (s : string) : last_space (rstrip s) = false.
Proof.
  induction s as [|c s IH]; simpl; [reflexivity|].
  destruct (rstrip s) as [|d kept] eqn:Hr.
  - destruct (isspace c) eqn:Hc; simpl; [reflexivity | exact Hc].
  - exact IH.
Qed.

(** The stripped string sits in the string it comes from, between
    whitespace. *)
Lemma strip_decompose (s : string) :
  exists pre post,
    s = pre ++ strip s ++ post
    /\ all_space pre = true /\ all_space post = true.
Proof.
  destruct (lstrip_decompose s) as (pre & Hpre & Hpre_ws).
  destruct (rstrip_decompose (lstrip s)) as (post & Hpost & Hpost_ws).
  exists pre, post. unfold strip. rewrite <- Hpost. now split.
Qed.

(** ** [load_data] *)

(** C9. [load_data] lower-cases and strips its [name] before looking it up.
    Every name made of whitespace, a word that lower-cases to "mortality",
    and whitespace again takes the fetch branch.  The name is rejected
    exactly when its lower-cased, stripped form is not "mortality", and the
    message of the [AssertionError] then reports that form, not the argument
    as passed: what is left of the lower-cased argument once its leading and
    trailing whitespace is taken away. *)
Theorem load_data_normalizes_name :
  forall (name : string) (param_dict : list (string * string)),
    (forall pre core post,
        name = pre ++ core ++ post ->
        all_space pre = true -> all_space post = true ->
        lower core = "mortality" ->
        load_data name param_dict
        = ReadCsv "https://raw.githubusercontent.com/lsys/pyforestplot/main/examples/data/mortality.csv"
                  param_dict)
    /\ (strip (lower name) = "mortality" ->
        load_data name param_dict
        = ReadCsv "https://raw.githubusercontent.com/lsys/pyforestplot/main/examples/data/mortality.csv"
                  param_dict)
    /\ (strip (lower name) <> "mortality" ->
        load_data name param_dict
        = Fails (AssertionError
                   (strip (lower name)
                    ++ " not found. Should be one of 'mortality'")))
    /\ (exists pre post,
           lower name = pre ++ strip (lower name) ++ post
           /\ all_space pre = true /\ all_space post = true
           /\ first_space (strip (lower name)) = false
           /\ last_space (strip (lower name)) = false).
Proof.
  intros name kw. split; [|split; [|split]].
  - intros pre core post -> Hpre Hpost Hcore. unfold load_data.
    rewrite (normalize_padded pre core post "mortality" Hpre Hpost Hcore eq_refl).
    reflexivity.
  - intro Hn. unfold load_data, normalize. rewrite Hn. reflexivity.
  - intro Hn. unfold load_data, normalize.
    destruct (contains available_data (strip (lower name))) eqn:Hin;
      [|reflexivity].
    apply contains_In in Hin. simpl in Hin. destruct Hin as [Hin | []].
    now elim Hn.
  - destruct (strip_decompose (lower name)) as (pre & post & Hs & Hpre & Hpost).
    exists pre, post. repeat (split; [assumption|]). split.
    + unfold strip. apply first_space_rstrip, first_space_lstrip.
    + unfold strip. apply last_space_rstrip.
Qed.

Lemma load_data_normalizes_name_witness :
  load_data "MORTALITY " []
  = ReadCsv "https://raw.githubusercontent.com/lsys/pyforestplot/main/examples/data/mortality.csv"
            []
  /\ load_data "  Heart Rate " []
     = Fails (AssertionError
                "heart rate not found. Should be one of 'mortality'").
Proof.
  split.
  - apply (proj1 (load_data_normalizes_name "MORTALITY " [])
                 EmptyString "MORTALITY" " ");
      reflexivity.
  - apply (proj1 (proj2 (proj2 (load_data_normalizes_name "  Heart Rate " [])))).
    vm_compute. discriminate.
Defined.

(** C8, as amended.  Every name whose normalized form (lower-cased, then
    stripped) is not "mortality" makes [load_data] raise an [AssertionError]
    that lists "mortality" as the only valid option, and [pd.read_csv] is
    not called; [load_data("unknown")] is such a call. *)
Theorem load_data_rejects_unrecognized :
  forall name param_dict,
    normalize name <> "mortality" ->
    load_data name param_dict
    = Fails (AssertionError
               (normalize name ++ " not found. Should be one of 'mortality'"))
    /\ load_data "unknown" param_dict
       = Fails (AssertionError
                  "unknown not found. Should be one of 'mortality'").
Proof.
  intros name kw Hname. split; [|reflexivity].
  unfold load_data.
  destruct (contains available_data (normalize name)) eqn:Hin; [|reflexivity].
  apply contains_In in Hin. simpl in Hin. destruct Hin as [Hin | []].
  now elim Hname.
Qed.

Lemma load_data_rejects_unrecognized_witness :
  load_data "Heart rate" []
  = Fails (AssertionError
             "heart rate not found. Should be one of 'mortality'").
Proof.
  apply (load_data_rejects_unrecognized "Heart rate" []). vm_compute.
  discriminate.
Defined.

(** C8, as stated, fails: "MORTALITY " is not an element of the recognized
    set, and yet [load_data] does not raise on it; it fetches. *)
Lemma load_data_rejects_every_name_outside_set_fails :
  ~ (forall name param_dict,
        ~ In name available_data ->
        exists msg, load_data name param_dict = Fails (AssertionError msg)).
Proof.
  intro H. destruct (H "MORTALITY " []) as [msg Hmsg].
  - simpl. intros [Heq | []]. discriminate Heq.
  - vm_compute in Hmsg. discriminate Hmsg.
Qed.

(** ** Frames *)

Lemma contains_false (xs : list string) (x : string) :
  contains xs x = false <-> ~ In x xs.
Proof.
  rewrite <- contains_In. destruct (contains xs x); intuition congruence.
Qed.

Lemma contains_app (xs ys : list string) (x : string) :
  contains (xs ++ ys)%list x = (contains xs x || contains ys x)%bool.
Proof.
  induction xs as [|y xs IH]; simpl; [reflexivity|].
  now rewrite IH, orb_assoc.
Qed.

Lemma getcol_setcol (df : DataFrame) (k n : string) (c : column) :
  getcol (setcol df k c) n = if String.eqb k n then Some c else getcol df n.
Proof.
  induction df as [|[k0 c0] df IH]; simpl.
  - reflexivity.
  - destruct (String.eqb k0 k) eqn:Hk; simpl.
    + apply String.eqb_eq in Hk. subst k0. now destruct (String.eqb k n).
    + rewrite IH. destruct (String.eqb k0 n) eqn:Hn; [|reflexivity].
      apply String.eqb_eq in Hn. subst k0.
      rewrite String.eqb_sym in Hk. now rewrite Hk.
Qed.

Lemma getcol_setcol_same (df : DataFrame) (k : string) (c : column) :
  getcol (setcol df k c) k = Some c.
Proof. now rewrite getcol_setcol, String.eqb_refl. Qed.

Lemma getcol_setcol_other (df : DataFrame) (k n : string) (c : column) :
  k <> n -> getcol (setcol df k c) n = getcol df n.
Proof.
  intro H. rewrite getcol_setcol.
  destruct (String.eqb k n) eqn:E; [|reflexivity].
  apply String.eqb_eq in E. contradiction.
Qed.

Lemma getcol_contains (df : DataFrame) (k : string) :
  contains (columns df) k = is_some (getcol df k).
Proof.
  induction df as [|[k0 c0] df IH]; simpl; [reflexivity|].
  rewrite (String.eqb_sym k k0). destruct (String.eqb k0 k); simpl;
    [reflexivity|].
  apply IH.
Qed.

Lemma getcol_In (df : DataFrame) (k : string) (c : column) :
  getcol df k = Some c -> In k (columns df).
Proof.
  intro H. apply contains_In. now rewrite getcol_contains, H.
Qed.

Lemma setcol_same (df : DataFrame) (k : string) (c : column) :
  getcol df k = Some c -> setcol df k c = df.
Proof.
  induction df as [|[k0 c0] df IH]; simpl; [discriminate|].
  destruct (String.eqb k0 k) eqn:Hk.
  - intro H. now inversion H.
  - intro H. now rewrite (IH H).
Qed.

Lemma columns_setcol (df : DataFrame) (k : string) (c : column) :
  columns (setcol df k c)
  = if contains (columns df) k then columns df
    else (columns df ++ [k])%list.
Proof.
  induction df as [|[k0 c0] df IH]; simpl; [reflexivity|].
  rewrite (String.eqb_sym k k0). destruct (String.eqb k0 k) eqn:Hk; simpl.
  - reflexivity.
  - fold (columns df). fold (columns (setcol df k c)). rewrite IH.
    now destruct (contains (columns df) k).
Qed.

Lemma columns_setcol_known (df : DataFrame) (k : string) (c c0 : column) :
  getcol df k = Some c0 -> columns (setcol df k c) = columns df.
Proof.
  intro H. rewrite columns_setcol, getcol_contains, H. reflexivity.
Qed.

(** ** The monad *)

Lemma bind_ok {A B : Type} (m : py A) (k : A -> py B) (w w1 : world) (a : A) :
  m w = (Ok a, w1) -> bind m k w = k a w1.
Proof. intro H. unfold bind. now rewrite H. Qed.

Lemma bind_ret_l {A B : Type} (a : A) (k : A -> py B) (w : world) :
  bind (ret a) k w = k a w.
Proof. reflexivity. Qed.

Lemma world_eta (w : world) : World (frame w) (warned w) = w.
Proof. now destruct w. Qed.

(** ** The steps of [check_data], one at a time *)

Section Steps.

Variable py_float : string -> option float.

Lemma coerce_column_numeric (c c' : column) :
  coerce_column py_float c = Some c' -> is_numeric_dtype c' = true.
Proof.
  unfold coerce_column. destruct c as [xs|xs|xs|xs]; simpl.
  - intro H. now inversion H.
  - intro H. now inversion H.
  - intro H. now inversion H.
  - destruct (parse_all py_float xs); simpl; [|discriminate].
    intro H. now inversion H.
Qed.

(** The numeric step neither makes nor unmakes a boolean column. *)
Lemma coerced_is_bool (c : column) : is_bool (coerced py_float c) = is_bool c.
Proof.
  unfold coerced, coerce_column. destruct c as [xs|xs|xs|xs]; simpl;
    try reflexivity.
  now destruct (parse_all py_float xs).
Qed.

Lemma coerce_column_fixed (c : column) :
  is_numeric_dtype c = true -> coerce_column py_float c = Some c.
Proof. unfold coerce_column. now intros ->. Qed.

Lemma coerced_numeric (c : column) :
  is_numeric_dtype c = true -> coerced py_float c = c.
Proof. intro H. unfold coerced. now rewrite coerce_column_fixed. Qed.

Lemma coerced_object (cells : list string) (vs : list float) :
  parse_all py_float cells = Some vs ->
  coerced py_float (Object cells) = Float64 vs.
Proof. intro H. unfold coerced, coerce_column. simpl. now rewrite H. Qed.

Lemma ensure_numeric_run (k msg : string) (w : world) :
  ensure_numeric py_float k msg w
  = match getcol (frame w) k with
    | None => (Raise (KeyError k), w)
    | Some c =>
        match coerce_column py_float c with
        | Some c' => (Ok tt, World (setcol (frame w) k c') (warned w))
        | None => (Raise (TypeError msg), w)
        end
    end.
Proof.
  unfold ensure_numeric, bind, getitem, coerce_column.
  destruct (getcol (frame w) k) as [c|] eqn:Hc; [|reflexivity].
  destruct (is_numeric_dtype c).
  - unfold ret. now rewrite (setcol_same _ _ _ Hc), world_eta.
  - now destruct (astype_float py_float c).
Qed.

Lemma ensure_all_run (fs : list (string * string)) (w : world) :
  ensure_all py_float fs w
  = (fst (coerce_fields py_float fs (frame w)),
     World (snd (coerce_fields py_float fs (frame w))) (warned w)).
Proof.
  revert w. induction fs as [|[k msg] fs IH]; intro w; simpl.
  - unfold ret. now rewrite world_eta.
  - unfold bind. rewrite ensure_numeric_run.
    destruct (getcol (frame w) k) as [c|]; simpl;
      [|now rewrite world_eta].
    destruct (coerce_column py_float c) as [c'|]; simpl;
      [|now rewrite world_eta].
    now rewrite IH.
Qed.

Lemma check_numeric_fields (estimate : string) (moerror ll hl : option string)
      (w : world) :
  check_numeric py_float estimate moerror ll hl w
  = ensure_all py_float (fields estimate moerror ll hl) w.
Proof.
  unfold check_numeric, fields, ensure_numeric_opt.
  destruct moerror as [m|], ll as [l|], hl as [h|]; simpl;
    unfold bind, ret;
    repeat match goal with
      | |- context [match ensure_numeric py_float ?k ?msg ?w0 with _ => _ end] =>
          destruct (ensure_numeric py_float k msg w0) as [[[]|?] ?]
      end; reflexivity.
Qed.

Lemma coerce_fields_app (fs gs : list (string * string)) (df : DataFrame) :
  coerce_fields py_float (fs ++ gs) df
  = match coerce_fields py_float fs df with
    | (Ok _, df1) => coerce_fields py_float gs df1
    | (Raise e, df1) => (Raise e, df1)
    end.
Proof.
  revert df. induction fs as [|[k msg] fs IH]; intro df; simpl.
  - reflexivity.
  - destruct (getcol df k) as [c|]; [|reflexivity].
    destruct (coerce_column py_float c); [apply IH | reflexivity].
Qed.

(** When every field passes, the step succeeds, keeps the column names and
    replaces exactly the named columns by their coerced form. *)
Lemma coerce_fields_passes (fs : list (string * string)) (df : DataFrame) :
  Forall (fun f => passes py_float df (fst f) = true) fs ->
  exists df1,
    coerce_fields py_float fs df = (Ok tt, df1)
    /\ coerced_from py_float (map fst fs) df df1.
Proof.
  unfold coerced_from.
  revert df. induction fs as [|[k msg] fs IH]; intros df Hall; simpl.
  - exists df. repeat split. intro n. now destruct (getcol df n).
  - inversion Hall as [|f fs' Hk Hrest]; subst. simpl in Hk.
    unfold passes in Hk. destruct (getcol df k) as [c|] eqn:Hc;
      [|discriminate].
    destruct (coerce_column py_float c) as [c'|] eqn:Hc'; [|discriminate].
    assert (Hnum : is_numeric_dtype c' = true)
      by exact (coerce_column_numeric _ _ Hc').
    destruct (IH (setcol df k c')) as (df1 & Hrun & Hcols & Hget).
    { apply Forall_forall. intros [k2 msg2] Hin. simpl.
      rewrite Forall_forall in Hrest. specialize (Hrest _ Hin). simpl in Hrest.
      unfold passes in *. rewrite getcol_setcol.
      destruct (String.eqb k k2); [|exact Hrest].
      now rewrite (coerce_column_fixed _ Hnum). }
    exists df1. split; [exact Hrun|]. split.
    + rewrite Hcols. exact (columns_setcol_known _ _ _ _ Hc).
    + intro n. rewrite Hget, getcol_setcol.
      rewrite (String.eqb_sym n k).
      destruct (String.eqb k n) eqn:Hkn; simpl.
      * apply String.eqb_eq in Hkn. subst n. rewrite Hc. simpl.
        unfold coerced at 2. rewrite Hc'.
        rewrite (coerced_numeric _ Hnum). now destruct (contains _ k).
      * reflexivity.
Qed.

Lemma coerce_fields_inv (fs : list (string * string)) (df df1 : DataFrame) :
  coerce_fields py_float fs df = (Ok tt, df1) ->
  Forall (fun f => passes py_float df (fst f) = true) fs.
Proof.
  revert df. induction fs as [|[k msg] fs IH]; intros df Hrun; simpl in *.
  - constructor.
  - destruct (getcol df k) as [c|] eqn:Hc; [|discriminate].
    destruct (coerce_column py_float c) as [c'|] eqn:Hc'; [|discriminate].
    assert (Hk : passes py_float df k = true)
      by (unfold passes; now rewrite Hc, Hc').
    constructor; [exact Hk|].
    specialize (IH _ Hrun). rewrite Forall_forall in *.
    intros [k2 msg2] Hin. specialize (IH _ Hin). simpl in *.
    unfold passes in IH. rewrite getcol_setcol in IH.
    destruct (String.eqb k k2) eqn:Hk2; [|exact IH].
    apply String.eqb_eq in Hk2. now subst k2.
Qed.

(** The first field that does not pass decides the error. *)
Lemma coerce_fields_stops (before after : list (string * string))
      (k msg : string) (df : DataFrame) :
  Forall (fun f => passes py_float df (fst f) = true) before ->
  passes py_float df k = false ->
  exists df1,
    coerce_fields py_float (before ++ (k, msg) :: after) df
    = (Raise (match getcol df k with
              | None => KeyError k
              | Some _ => TypeError msg
              end), df1).
Proof.
  intros Hbefore Hk.
  destruct (coerce_fields_passes _ _ Hbefore) as (df1 & Hrun & _ & Hget).
  simpl in Hget.
  exists df1. rewrite coerce_fields_app, Hrun. simpl. rewrite Hget.
  unfold passes in Hk. destruct (getcol df k) as [c|]; simpl; [|reflexivity].
  destruct (coerce_column py_float c) as [c'|] eqn:Hc; [discriminate|].
  assert (Hsame : (if contains (map fst before) k
                   then coerced py_float c else c) = c).
  { unfold coerced. rewrite Hc. now destruct (contains _ k). }
  now rewrite Hsame, Hc.
Qed.

(** Whatever its outcome, the step leaves numeric columns as they are. *)
Lemma coerce_fields_keeps_numeric (fs : list (string * string))
      (df df1 : DataFrame) (r : result unit) (k : string) (c : column) :
  coerce_fields py_float fs df = (r, df1) ->
  getcol df k = Some c -> is_numeric_dtype c = true ->
  getcol df1 k = Some c.
Proof.
  revert df. induction fs as [|[k0 msg] fs IH]; intros df Hrun Hc Hn;
    simpl in Hrun.
  - inversion Hrun. now subst.
  - destruct (getcol df k0) as [c0|] eqn:Hc0;
      [|inversion Hrun; now subst].
    destruct (coerce_column py_float c0) as [c0'|] eqn:Hc0';
      [|inversion Hrun; now subst].
    apply (IH _ Hrun); [|exact Hn].
    rewrite getcol_setcol. destruct (String.eqb k0 k) eqn:Hk; [|exact Hc].
    apply String.eqb_eq in Hk. subst k0. rewrite Hc in Hc0.
    inversion Hc0; subst c0. rewrite (coerce_column_fixed _ Hn) in Hc0'.
    now inversion Hc0'.
Qed.

(** Once the fields before it have passed, an object column whose cells
    all parse is cast, whatever happens to the fields after it. *)
Lemma coerce_fields_casts (before after : list (string * string))
      (k msg : string) (df df1 : DataFrame) (r : result unit)
      (cells : list string) (vs : list float) :
  Forall (fun f => passes py_float df (fst f) = true) before ->
  getcol df k = Some (Object cells) ->
  parse_all py_float cells = Some vs ->
  coerce_fields py_float (before ++ (k, msg) :: after) df = (r, df1) ->
  getcol df1 k = Some (Float64 vs).
Proof.
  intros Hbefore Hk Hvs Hrun.
  destruct (coerce_fields_passes _ _ Hbefore) as (dfb & Hb & _ & Hget).
  rewrite coerce_fields_app, Hb in Hrun. simpl in Hrun.
  assert (Hcast : forall c,
             getcol dfb k = Some c ->
             coerce_column py_float c = Some (Float64 vs)).
  { intros c Hc. rewrite Hget, Hk in Hc. simpl in Hc.
    rewrite (coerced_object _ _ Hvs) in Hc.
    destruct (contains (map fst before) k); inversion Hc; subst c.
    - reflexivity.
    - unfold coerce_column. simpl. now rewrite Hvs. }
  destruct (getcol dfb k) as [c|] eqn:Hc.
  - rewrite (Hcast c eq_refl) in Hrun.
    apply (coerce_fields_keeps_numeric _ _ _ _ _ _ Hrun);
      [apply getcol_setcol_same | reflexivity].
  - rewrite Hget, Hk in Hc. discriminate Hc.
Qed.

Lemma check_ci_source_run (moerror ll hl : option string) (w : world) :
  check_ci_source moerror ll hl w
  = if ci_ok moerror ll hl then (Ok tt, w)
    else (Raise (AssertionError msg_need_ll_hl), w).
Proof. now destruct moerror, ll, hl. Qed.

End Steps.

(** ** Annotation checks and warnings *)

Lemma check_list_like_run (arg : option pyarg) (name : string) (w : world) :
  check_list_like arg name w
  = if list_like_opt arg then (Ok tt, w)
    else (Raise (TypeError (name ++ " should be list-like.")), w).
Proof. destruct arg as [a|]; simpl; [|reflexivity]. now destruct (is_list_like a). Qed.

Lemma check_same_length_run (arg headers : option pyarg) (msg : string)
      (w : world) :
  check_same_length arg headers msg w
  = if same_length arg headers then (Ok tt, w)
    else (Raise (AssertionError msg), w).
Proof.
  destruct arg as [a|], headers as [h|]; simpl; try reflexivity.
  now destruct (Nat.eqb (len a) (len h)).
Qed.

Lemma check_fields_run (xs : list string) (w : world) :
  check_fields xs w
  = match first_unknown (columns (frame w)) xs with
    | Some col => (Raise (AssertionError (msg_not_found col)), w)
    | None => (Ok tt, w)
    end.
Proof.
  induction xs as [|x xs IH]; simpl; [reflexivity|].
  unfold bind, assert_or, found, known in *.
  destruct (contains (columns (frame w)) x || contains acceptable_annotations x)%bool;
    simpl; [exact IH | reflexivity].
Qed.

Lemma check_found_run (arg : option pyarg) (w : world) :
  check_found arg w
  = match first_unknown (columns (frame w)) (entries_opt arg) with
    | Some col => (Raise (AssertionError (msg_not_found col)), w)
    | None => (Ok tt, w)
    end.
Proof. destruct arg as [a|]; simpl; [apply check_fields_run | reflexivity]. Qed.

Lemma first_unknown_app (cols xs ys : list string) :
  first_unknown cols (xs ++ ys)
  = match first_unknown cols xs with
    | Some col => Some col
    | None => first_unknown cols ys
    end.
Proof.
  unfold first_unknown. induction xs as [|x xs IH]; simpl; [reflexivity|].
  now destruct (negb (known cols x)).
Qed.

Lemma first_unknown_none (cols xs : list string) :
  first_unknown cols xs = None <-> forallb (known cols) xs = true.
Proof.
  unfold first_unknown. induction xs as [|x xs IH]; simpl; [tauto|].
  destruct (known cols x); simpl; [exact IH|]. split; discriminate.
Qed.

(** Lines 114-178 leave the world as it is and stop at the first error. *)
Lemma annotation_steps_run {B : Type}
      (addannote annoteheaders rightannote right_annoteheaders : option pyarg)
      (k : py B) (w : world) :
  (check_list_like addannote "addannote" ;;
   check_list_like annoteheaders "annoteheaders" ;;
   check_list_like rightannote "rightannote" ;;
   check_list_like right_annoteheaders "right_annoteheaders" ;;
   check_same_length addannote annoteheaders
     "addannote and annoteheaders should have same length." ;;
   check_same_length rightannote right_annoteheaders
     "rightannote and right_annoteheaders should have same length." ;;
   check_found addannote ;;
   check_found rightannote ;;
   k) w
  = match annotation_error (columns (frame w)) addannote annoteheaders
                           rightannote right_annoteheaders with
    | Some e => (Raise e, w)
    | None => k w
    end.
Proof.
  unfold bind, annotation_error.
  rewrite check_list_like_run.
  destruct (list_like_opt addannote); simpl; [|reflexivity].
  rewrite check_list_like_run.
  destruct (list_like_opt annoteheaders); simpl; [|reflexivity].
  rewrite check_list_like_run.
  destruct (list_like_opt rightannote); simpl; [|reflexivity].
  rewrite check_list_like_run.
  destruct (list_like_opt right_annoteheaders); simpl; [|reflexivity].
  rewrite check_same_length_run.
  destruct (same_length addannote annoteheaders); simpl; [|reflexivity].
  rewrite check_same_length_run.
  destruct (same_length rightannote right_annoteheaders); simpl;
    [|reflexivity].
  rewrite check_found_run, first_unknown_app.
  destruct (first_unknown _ (entries_opt addannote)); [reflexivity|].
  rewrite check_found_run.
  now destruct (first_unknown _ (entries_opt rightannote)).
Qed.

Lemma annotation_error_none (cols : list string)
      (addannote annoteheaders rightannote right_annoteheaders : option pyarg) :
  annotation_error cols addannote annoteheaders rightannote
                   right_annoteheaders = None
  <-> annotations_ok cols addannote annoteheaders rightannote
                     right_annoteheaders = true.
Proof.
  unfold annotation_error, annotations_ok, shapes_ok.
  rewrite first_unknown_app.
  destruct (list_like_opt addannote), (list_like_opt annoteheaders),
    (list_like_opt rightannote), (list_like_opt right_annoteheaders),
    (same_length addannote annoteheaders),
    (same_length rightannote right_annoteheaders); simpl;
    try (split; discriminate).
  destruct (first_unknown cols (entries_opt addannote)) eqn:Ha.
  - split; [discriminate|]. intro H. apply andb_true_iff in H.
    destruct H as [H _]. apply first_unknown_none in H. congruence.
  - apply first_unknown_none in Ha. rewrite Ha. simpl.
    destruct (first_unknown cols (entries_opt rightannote)) eqn:Hr.
    + split; [discriminate|]. intro H. apply first_unknown_none in H.
      congruence.
    + apply first_unknown_none in Hr. now rewrite Hr.
Qed.

Lemma emit_warnings_run (varlabel : string) (addannote rightannote : option pyarg)
      (w : world) :
  emit_warnings varlabel addannote rightannote w
  = (Ok tt,
     World (frame w) (warned w ++ warnings_for varlabel addannote rightannote)).
Proof.
  unfold emit_warnings, warnings_for, bind, when, warn, ret.
  destruct addannote as [a|], rightannote as [r|]; simpl;
    repeat match goal with
      | |- context [py_in ?x ?y] => destruct (py_in x y)
      end; simpl;
    rewrite ?app_nil_r, <- ?app_assoc, ?world_eta; reflexivity.
Qed.

(** ** Derivation *)

(** [map2] works row by row. *)
Lemma map2_nth (A B C : Type) (f : A -> B -> C) (xs : list A)
      (ys : list B) (i : nat) :
  nth_error (map2 f xs ys) i
  = match nth_error xs i, nth_error ys i with
    | Some x, Some y => Some (f x y)
    | _, _ => None
    end.
Proof.
  revert ys i. induction xs as [|x xs IH]; intros [|y ys] [|i]; simpl;
    try reflexivity.
  - now destruct (nth_error xs i).
  - apply IH.
Qed.

(** The arithmetic of columns is the arithmetic of their cells, row by
    row. *)
Lemma series_sub_rowwise (a b d : column) :
  series_sub a b = Ok d -> rowwise minus d a b.
Proof.
  unfold series_sub, series_binop, rowwise.
  destruct a as [xs|xs|xs|xs], b as [ys|ys|ys|ys]; intro H;
    try discriminate H; inversion H; subst d; intro i; simpl;
    rewrite map2_nth, ?nth_error_map;
    destruct (nth_error xs i), (nth_error ys i); reflexivity.
Qed.

Lemma series_add_rowwise (a b d : column) :
  series_add a b = Ok d -> rowwise plus d a b.
Proof.
  unfold series_add, series_binop, rowwise.
  destruct a as [xs|xs|xs|xs], b as [ys|ys|ys|ys]; intro H;
    try discriminate H; inversion H; subst d; intro i; simpl;
    rewrite map2_nth, ?nth_error_map;
    destruct (nth_error xs i), (nth_error ys i); reflexivity.
Qed.

Lemma has_numeric_setcol (df : DataFrame) (name k : string) (d : column) :
  is_numeric_dtype d = true -> has_numeric df k ->
  has_numeric (setcol df name d) k.
Proof.
  intros Hd (c & Hc & Hn). unfold has_numeric. rewrite getcol_setcol.
  destruct (String.eqb name k); eauto.
Qed.

(** A difference of numeric columns exists unless both are boolean; a sum
    of numeric columns always does. *)
Lemma series_sub_numeric (a b : column) :
  is_numeric_dtype a = true -> is_numeric_dtype b = true ->
  (is_bool a && is_bool b)%bool = false ->
  exists d, series_sub a b = Ok d /\ is_numeric_dtype d = true.
Proof.
  destruct a, b; simpl; try discriminate; intros _ _ _; eexists; split;
    reflexivity.
Qed.

Lemma series_sub_bool (a b : column) :
  (is_bool a && is_bool b)%bool = true ->
  series_sub a b = Raise (TypeError msg_bool_subtract).
Proof. destruct a, b; simpl; try discriminate; reflexivity. Qed.

Lemma series_add_numeric (a b : column) :
  is_numeric_dtype a = true -> is_numeric_dtype b = true ->
  exists d, series_add a b = Ok d /\ is_numeric_dtype d = true.
Proof.
  destruct a, b; simpl; try discriminate; intros _ _; eexists; split;
    reflexivity.
Qed.

(** One assignment of lines 103-109. *)
Lemma derive_block_exact (op : column -> column -> result column)
      (name estimate k : string) (df : DataFrame) (ws : list string)
      (E K D : column) :
  getcol df estimate = Some E -> getcol df k = Some K -> op E K = Ok D ->
  (e <- getitem estimate ;;
   l <- getitem_opt (Some k) ;;
   d <- lift (op e l) ;;
   setitem name d) (World df ws)
  = (Ok tt, World (setcol df name D) ws).
Proof.
  intros HE HK HD. unfold bind, getitem_opt, getitem, lift, setitem. simpl.
  rewrite HE. simpl. rewrite HK. simpl. now rewrite HD.
Qed.

Lemma derive_block_raise (op : column -> column -> result column)
      (name estimate k : string) (df : DataFrame) (ws : list string)
      (E K : column) (e : exn) :
  getcol df estimate = Some E -> getcol df k = Some K -> op E K = Raise e ->
  (e <- getitem estimate ;;
   l <- getitem_opt (Some k) ;;
   d <- lift (op e l) ;;
   setitem name d) (World df ws)
  = (Raise e, World df ws).
Proof.
  intros HE HK HD. unfold bind, getitem_opt, getitem, lift, setitem. simpl.
  rewrite HE. simpl. rewrite HK. simpl. now rewrite HD.
Qed.

(** Conversely, an assignment that went through read two columns and
    stored the result of the operation. *)
Lemma derive_block_inv (op : column -> column -> result column)
      (name estimate : string) (k : option string) (w w2 : world) :
  (e <- getitem estimate ;;
   l <- getitem_opt k ;;
   d <- lift (op e l) ;;
   setitem name d) w
  = (Ok tt, w2) ->
  exists k0 E K D,
    k = Some k0 /\ getcol (frame w) estimate = Some E
    /\ getcol (frame w) k0 = Some K /\ op E K = Ok D
    /\ w2 = World (setcol (frame w) name D) (warned w).
Proof.
  unfold bind, getitem_opt, getitem, lift, setitem, raise.
  destruct (getcol (frame w) estimate) as [E|] eqn:HE; [|discriminate].
  destruct k as [k0|]; [|discriminate].
  destruct (getcol (frame w) k0) as [K|] eqn:HK; [|discriminate].
  destruct (op E K) as [D|e] eqn:HD; [|discriminate].
  intro H. inversion H. exists k0, E, K, D. repeat split; assumption.
Qed.

Lemma derive_block_run (op : column -> column -> result column)
      (name estimate k : string) (df : DataFrame) (ws : list string) :
  has_numeric df estimate -> has_numeric df k ->
  (forall E K,
      getcol df estimate = Some E -> getcol df k = Some K ->
      is_numeric_dtype E = true -> is_numeric_dtype K = true ->
      exists d, op E K = Ok d /\ is_numeric_dtype d = true) ->
  exists E K D,
    getcol df estimate = Some E /\ getcol df k = Some K
    /\ op E K = Ok D /\ is_numeric_dtype D = true
    /\ (e <- getitem estimate ;;
        l <- getitem_opt (Some k) ;;
        d <- lift (op e l) ;;
        setitem name d) (World df ws)
       = (Ok tt, World (setcol df name D) ws).
Proof.
  intros (E & HE & HEn) (K & HK & HKn) Hop.
  destruct (Hop E K HE HK HEn HKn) as (D & HD & HDn).
  exists E, K, D. repeat (split; [assumption|]).
  exact (derive_block_exact op name estimate k df ws E K D HE HK HD).
Qed.

Lemma derive_block_add (name estimate k : string) (df : DataFrame)
      (ws : list string) :
  has_numeric df estimate -> has_numeric df k ->
  exists E K D,
    getcol df estimate = Some E /\ getcol df k = Some K
    /\ series_add E K = Ok D /\ is_numeric_dtype D = true
    /\ (e <- getitem estimate ;;
        l <- getitem_opt (Some k) ;;
        d <- lift (series_add e l) ;;
        setitem name d) (World df ws)
       = (Ok tt, World (setcol df name D) ws).
Proof.
  intros He Hk. apply derive_block_run; try assumption.
  intros E K _ _. apply series_add_numeric.
Qed.

Lemma derive_block_sub (name estimate k : string) (df : DataFrame)
      (ws : list string) :
  has_numeric df estimate -> has_numeric df k ->
  (bool_at df estimate && bool_at df k)%bool = false ->
  exists E K D,
    getcol df estimate = Some E /\ getcol df k = Some K
    /\ series_sub E K = Ok D /\ is_numeric_dtype D = true
    /\ (e <- getitem estimate ;;
        l <- getitem_opt (Some k) ;;
        d <- lift (series_sub e l) ;;
        setitem name d) (World df ws)
       = (Ok tt, World (setcol df name D) ws).
Proof.
  intros He Hk Hb. apply derive_block_run; try assumption.
  intros E K HE HK HEn HKn. apply series_sub_numeric; try assumption.
  unfold bool_at in Hb. now rewrite HE, HK in Hb.
Qed.

(** What [derive] does to a frame whose interval columns are numeric, the
    subtraction not being one of two boolean columns. *)
Lemma derive_ok (estimate : string) (moerror ll hl : option string)
      (df : DataFrame) (ws : list string) :
  ci_ok moerror ll hl = true ->
  (forall k, In k (map fst (fields estimate moerror ll hl)) ->
             has_numeric df k) ->
  derivable df estimate moerror ll = true ->
  exists df2,
    derive estimate moerror ll hl (World df ws) = (Ok tt, World df2 ws)
    /\ derived_from estimate moerror ll hl df df2.
Proof.
  unfold derived_from.
  intros Hci Hnum Hder.
  assert (Hest : has_numeric df estimate) by (apply Hnum; simpl; tauto).
  destruct moerror as [mk|], ll as [lk|], hl as [hk|]; try discriminate Hci;
    unfold derivable in Hder; cbn [subtrahend] in Hder;
    try apply negb_true_iff in Hder;
    unfold derive, when, derived_names, fresh_in;
    cbn [is_none app filter].
  - (* all three supplied *)
    exists df. rewrite app_nil_r.
    repeat split; try discriminate; reflexivity.
  - (* hl derived *)
    assert (Hm : has_numeric df mk) by (apply Hnum; simpl; tauto).
    destruct (derive_block_add "hl" estimate mk df ws Hest Hm)
      as (E & M & D & HE & HM & HD & HDn & Hrun).
    exists (setcol df "hl" D).
    split; [exact Hrun|]. split.
    { rewrite columns_setcol.
      destruct (contains (columns df) "hl"); simpl;
        [now rewrite app_nil_r | reflexivity]. }
    split.
    { intros n Hn. apply getcol_setcol_other. simpl in Hn. tauto. }
    repeat split; try discriminate.
    intros _ _. exists mk, E, M, D. rewrite getcol_setcol_same. tauto.
  - (* ll derived *)
    assert (Hm : has_numeric df mk) by (apply Hnum; simpl; tauto).
    destruct (derive_block_sub "ll" estimate mk df ws Hest Hm Hder)
      as (E & M & D & HE & HM & HD & HDn & Hrun).
    exists (setcol df "ll" D).
    split; [rewrite bind_ret_l, (bind_ok _ _ _ _ _ Hrun); reflexivity|].
    split.
    { rewrite columns_setcol.
      destruct (contains (columns df) "ll"); simpl;
        [now rewrite app_nil_r | reflexivity]. }
    split.
    { intros n Hn. apply getcol_setcol_other. simpl in Hn. tauto. }
    repeat split; try discriminate.
    intros _. exists mk, E, M, D. rewrite getcol_setcol_same. tauto.
  - (* ll and hl derived *)
    assert (Hm : has_numeric df mk) by (apply Hnum; simpl; tauto).
    destruct (derive_block_sub "ll" estimate mk df ws Hest Hm Hder)
      as (E & M & D & HE & HM & HD & HDn & Hrun).
    destruct (derive_block_add "hl" estimate mk (setcol df "ll" D) ws
                               (has_numeric_setcol _ _ _ _ HDn Hest)
                               (has_numeric_setcol _ _ _ _ HDn Hm))
      as (E' & M' & D' & HE' & HM' & HD' & HDn' & Hrun').
    exists (setcol (setcol df "ll" D) "hl" D').
    split; [rewrite bind_ret_l, (bind_ok _ _ _ _ _ Hrun); exact Hrun'|].
    split.
    { rewrite !columns_setcol.
      destruct (contains (columns df) "ll"); simpl;
        [|rewrite contains_app; simpl; rewrite orb_false_r];
        destruct (contains (columns df) "hl"); simpl;
        rewrite ?app_nil_r, <- ?app_assoc; reflexivity. }
    split.
    { intros n Hn. simpl in Hn.
      rewrite !getcol_setcol_other by tauto. reflexivity. }
    repeat split; try discriminate.
    + intros _. exists mk, E, M, D.
      rewrite getcol_setcol_other by discriminate.
      rewrite getcol_setcol_same. tauto.
    + intros _ Hfresh. destruct (Hfresh eq_refl) as [Hne Hnm].
      exists mk, E, M, D'.
      rewrite getcol_setcol_other in HE', HM' by congruence.
      rewrite HE in HE'. rewrite HM in HM'.
      inversion HE'; inversion HM'; subst.
      rewrite getcol_setcol_same. tauto.
  - (* moerror derived *)
    assert (Hl : has_numeric df lk) by (apply Hnum; simpl; tauto).
    destruct (derive_block_sub "moerror" estimate lk df ws Hest Hl Hder)
      as (E & L & D & HE & HL & HD & HDn & Hrun).
    exists (setcol df "moerror" D).
    split; [rewrite (bind_ok _ _ _ _ _ Hrun); reflexivity|].
    split.
    { rewrite columns_setcol.
      destruct (contains (columns df) "moerror"); simpl;
        [now rewrite app_nil_r | reflexivity]. }
    split.
    { intros n Hn. apply getcol_setcol_other. simpl in Hn. tauto. }
    repeat split; try discriminate.
    intros _. exists lk, E, L, D. rewrite getcol_setcol_same. tauto.
Qed.

(** When the estimate and the column to take from it are both boolean, the
    subtraction raises numpy's [TypeError]; it is the first assignment, so
    the frame is as it was. *)
Lemma derive_refused (estimate : string) (moerror ll hl : option string)
      (df : DataFrame) (ws : list string) :
  ci_ok moerror ll hl = true ->
  derivable df estimate moerror ll = false ->
  derive estimate moerror ll hl (World df ws)
  = (Raise (TypeError msg_bool_subtract), World df ws).
Proof.
  intros Hci Hder. unfold derivable in Hder.
  assert (Hraise : forall name k,
             (bool_at df estimate && bool_at df k)%bool = true ->
             (e <- getitem estimate ;;
              l <- getitem_opt (Some k) ;;
              d <- lift (series_sub e l) ;;
              setitem name d) (World df ws)
             = (Raise (TypeError msg_bool_subtract), World df ws)).
  { intros name k Hb. unfold bool_at in Hb.
    destruct (getcol df estimate) as [E|] eqn:HE; [|discriminate].
    destruct (getcol df k) as [K|] eqn:HK;
      [|now rewrite andb_false_r in Hb].
    apply (derive_block_raise series_sub name estimate k df ws E K _ HE HK).
    now apply series_sub_bool. }
  destruct moerror as [mk|], ll as [lk|], hl as [hk|]; try discriminate Hci;
    cbn [subtrahend] in Hder; try discriminate Hder;
    apply negb_false_iff in Hder;
    unfold derive, when; cbn [is_none];
    rewrite ?bind_ret_l; unfold bind at 1; now rewrite (Hraise _ _ Hder).
Qed.

(** The steps of a derivation that went through, in the order of lines
    101-109: each absent argument has its column assigned, from the frame as
    the assignments before it left it. *)
Lemma derive_inv (estimate : string) (moerror ll hl : option string)
      (w w2 : world) :
  derive estimate moerror ll hl w = (Ok tt, w2) ->
  exists dfa dfb,
    (match moerror with
     | Some _ => dfa = frame w
     | None =>
         exists lk E L D,
           ll = Some lk /\ getcol (frame w) estimate = Some E
           /\ getcol (frame w) lk = Some L /\ series_sub E L = Ok D
           /\ dfa = setcol (frame w) "moerror" D
     end)
    /\ (match ll with
        | Some _ => dfb = dfa
        | None =>
            exists mk E M D,
              moerror = Some mk /\ getcol dfa estimate = Some E
              /\ getcol dfa mk = Some M /\ series_sub E M = Ok D
              /\ dfb = setcol dfa "ll" D
        end)
    /\ (match hl with
        | Some _ => frame w2 = dfb
        | None =>
            exists mk E M D,
              moerror = Some mk /\ getcol dfb estimate = Some E
              /\ getcol dfb mk = Some M /\ series_add E M = Ok D
              /\ frame w2 = setcol dfb "hl" D
        end)
    /\ warned w2 = warned w.
Proof.
  unfold derive. intro Hrun.
  unfold bind at 1 in Hrun.
  destruct (when (is_none moerror) _ w) as [[[]|e] wa] eqn:Ha;
    [|discriminate].
  unfold bind at 1 in Hrun.
  destruct (when (is_none ll) _ wa) as [[[]|e] wb] eqn:Hb; [|discriminate].
  exists (frame wa), (frame wb).
  assert (Hwa : warned wa = warned w /\
                match moerror with
                | Some _ => frame wa = frame w
                | None =>
                    exists lk E L D,
                      ll = Some lk /\ getcol (frame w) estimate = Some E
                      /\ getcol (frame w) lk = Some L /\ series_sub E L = Ok D
                      /\ frame wa = setcol (frame w) "moerror" D
                end).
  { destruct moerror as [mk|]; simpl in Ha.
    - inversion Ha. now split.
    - apply derive_block_inv in Ha.
      destruct Ha as (lk & E & L & D & Hl & HE & HL & HD & Hw).
      subst wa. split; [reflexivity|]. exists lk, E, L, D. now repeat split. }
  assert (Hwb : warned wb = warned wa /\
                match ll with
                | Some _ => frame wb = frame wa
                | None =>
                    exists mk E M D,
                      moerror = Some mk /\ getcol (frame wa) estimate = Some E
                      /\ getcol (frame wa) mk = Some M /\ series_sub E M = Ok D
                      /\ frame wb = setcol (frame wa) "ll" D
                end).
  { destruct ll as [lk|]; simpl in Hb.
    - inversion Hb. now split.
    - apply derive_block_inv in Hb.
      destruct Hb as (mk & E & M & D & Hm & HE & HM & HD & Hw).
      subst wb. split; [reflexivity|]. exists mk, E, M, D. now repeat split. }
  destruct Hwa as [Hwa1 Hwa2], Hwb as [Hwb1 Hwb2].
  split; [exact Hwa2|]. split; [exact Hwb2|].
  destruct hl as [hk|]; simpl in Hrun.
  - inversion Hrun; subst w2. split; [reflexivity | congruence].
  - apply derive_block_inv in Hrun.
    destruct Hrun as (mk & E & M & D & Hm & HE & HM & HD & Hw).
    subst w2. simpl. split; [|congruence]. exists mk, E, M, D.
    now repeat split.
Qed.

(** ** The whole of [check_data] *)

Section Whole.

Variable py_float : string -> option float.

Lemma check_data_eq (estimate varlabel : string) (moerror ll hl : option string)
      (addannote annoteheaders rightannote right_annoteheaders : option pyarg)
      (w : world) :
  check_data py_float estimate varlabel moerror ll hl addannote annoteheaders
             rightannote right_annoteheaders w
  = match coerce_fields py_float (fields estimate moerror ll hl) (frame w) with
    | (Raise e, df1) => (Raise e, World df1 (warned w))
    | (Ok _, df1) =>
        if ci_ok moerror ll hl then
          match derive estimate moerror ll hl (World df1 (warned w)) with
          | (Raise e, w2) => (Raise e, w2)
          | (Ok _, w2) =>
              match annotation_error (columns (frame w2)) addannote
                                     annoteheaders rightannote
                                     right_annoteheaders with
              | Some e => (Raise e, w2)
              | None =>
                  (Ok (frame w2),
                   World (frame w2)
                         (warned w2
                          ++ warnings_for varlabel addannote rightannote))
              end
          end
        else (Raise (AssertionError msg_need_ll_hl), World df1 (warned w))
    end.
Proof.
  unfold check_data. unfold bind at 1.
  rewrite check_numeric_fields, ensure_all_run.
  destruct (coerce_fields py_float (fields estimate moerror ll hl) (frame w))
    as [[[]|e] df1]; simpl; [|reflexivity].
  unfold bind at 1. rewrite check_ci_source_run.
  destruct (ci_ok moerror ll hl); [|reflexivity].
  unfold bind at 1.
  destruct (derive estimate moerror ll hl (World df1 (warned w)))
    as [[[]|e] w2]; [|reflexivity].
  rewrite annotation_steps_run.
  destruct (annotation_error _ _ _ _ _); [reflexivity|].
  unfold bind. now rewrite emit_warnings_run.
Qed.

Lemma coerced_has_numeric (fs : list (string * string)) (df df1 : DataFrame) :
  Forall (fun f => passes py_float df (fst f) = true) fs ->
  coerced_from py_float (map fst fs) df df1 ->
  forall k, In k (map fst fs) -> has_numeric df1 k.
Proof.
  intros Hall [_ Hget] k Hin. unfold has_numeric. rewrite Hget.
  assert (Hk : passes py_float df k = true).
  { apply in_map_iff in Hin. destruct Hin as ([k' msg] & <- & Hin).
    rewrite Forall_forall in Hall. exact (Hall _ Hin). }
  apply contains_In in Hin. rewrite Hin.
  unfold passes in Hk. destruct (getcol df k) as [c|]; [|discriminate].
  simpl. unfold coerced.
  destruct (coerce_column py_float c) as [c'|] eqn:Hc; [|discriminate].
  eauto using coerce_column_numeric.
Qed.

(** The numeric step leaves the boolean columns where they are, so the
    subtraction can be judged on the input frame. *)
Lemma coerced_from_bool_at (keys : list string) (df df1 : DataFrame)
      (k : string) :
  coerced_from py_float keys df df1 -> bool_at df1 k = bool_at df k.
Proof.
  intros [_ Hget]. unfold bool_at. rewrite Hget.
  destruct (getcol df k) as [c|]; simpl; [|reflexivity].
  destruct (contains keys k); [apply coerced_is_bool | reflexivity].
Qed.

(** A frame without boolean columns never has its subtraction refused. *)
Lemma derivable_no_bool (df : DataFrame) (estimate : string)
      (moerror ll : option string) :
  (forall k, bool_at df k = false) ->
  derivable df estimate moerror ll = true.
Proof.
  intro H. unfold derivable. destruct (subtrahend moerror ll); [|reflexivity].
  now rewrite (H estimate).
Qed.

Lemma coerced_from_derivable (keys : list string) (df df1 : DataFrame)
      (estimate : string) (moerror ll : option string) :
  coerced_from py_float keys df df1 ->
  derivable df1 estimate moerror ll = derivable df estimate moerror ll.
Proof.
  intro Hco. unfold derivable.
  destruct (subtrahend moerror ll); [|reflexivity].
  now rewrite !(coerced_from_bool_at _ _ _ _ Hco).
Qed.

(** Every run of [check_data] is one of five: it stops in the numeric step,
    at the completeness check, at the subtraction, at an annotation check,
    or it returns. *)
Lemma check_data_cases (estimate varlabel : string)
      (moerror ll hl : option string)
      (addannote annoteheaders rightannote right_annoteheaders : option pyarg)
      (w w' : world) (r : result DataFrame) :
  check_data py_float estimate varlabel moerror ll hl addannote annoteheaders
             rightannote right_annoteheaders w = (r, w') ->
  (exists e df1,
      coerce_fields py_float (fields estimate moerror ll hl) (frame w)
      = (Raise e, df1)
      /\ r = Raise e /\ w' = World df1 (warned w))
  \/ (exists df1,
         coerce_fields py_float (fields estimate moerror ll hl) (frame w)
         = (Ok tt, df1)
         /\ ci_ok moerror ll hl = false
         /\ r = Raise (AssertionError msg_need_ll_hl)
         /\ w' = World df1 (warned w))
  \/ (exists df1,
         coerce_fields py_float (fields estimate moerror ll hl) (frame w)
         = (Ok tt, df1)
         /\ ci_ok moerror ll hl = true
         /\ derivable (frame w) estimate moerror ll = false
         /\ r = Raise (TypeError msg_bool_subtract)
         /\ w' = World df1 (warned w))
  \/ (exists df1 df2,
         coerce_fields py_float (fields estimate moerror ll hl) (frame w)
         = (Ok tt, df1)
         /\ ci_ok moerror ll hl = true
         /\ derivable (frame w) estimate moerror ll = true
         /\ coerced_from py_float (map fst (fields estimate moerror ll hl))
                         (frame w) df1
         /\ derive estimate moerror ll hl (World df1 (warned w))
            = (Ok tt, World df2 (warned w))
         /\ derived_from estimate moerror ll hl df1 df2
         /\ ((exists e,
                 annotation_error (columns df2) addannote annoteheaders
                                  rightannote right_annoteheaders = Some e
                 /\ r = Raise e /\ w' = World df2 (warned w))
             \/ (annotation_error (columns df2) addannote annoteheaders
                                  rightannote right_annoteheaders = None
                 /\ r = Ok df2
                 /\ w' = World df2
                               (warned w
                                ++ warnings_for varlabel addannote
                                                rightannote)))).
Proof.
  rewrite check_data_eq.
  destruct (coerce_fields py_float (fields estimate moerror ll hl) (frame w))
    as [[[]|e] df1] eqn:Hco.
  - destruct (ci_ok moerror ll hl) eqn:Hci.
    + pose proof (coerce_fields_inv _ _ _ _ Hco) as Hall.
      destruct (coerce_fields_passes py_float _ _ Hall) as (df0 & Hrun & Hfrom).
      rewrite Hco in Hrun. inversion Hrun; subst df0.
      destruct (derivable (frame w) estimate moerror ll) eqn:Hd.
      * pose proof Hd as Hd1.
        rewrite <- (coerced_from_derivable _ _ _ _ _ _ Hfrom) in Hd1.
        destruct (derive_ok estimate moerror ll hl df1 (warned w) Hci
                            (coerced_has_numeric _ _ _ Hall Hfrom) Hd1)
          as (df2 & Hder & Hfacts).
        rewrite Hder. simpl. intro H. right. right. right. exists df1, df2.
        repeat (split; [assumption || reflexivity|]).
        destruct (annotation_error _ _ _ _ _) as [e|]; inversion H; subst.
        -- left. eauto.
        -- right. auto.
      * pose proof Hd as Hd1.
        rewrite <- (coerced_from_derivable _ _ _ _ _ _ Hfrom) in Hd1.
        rewrite (derive_refused _ _ _ _ _ _ Hci Hd1).
        intro H. inversion H; subst. right. right. left. exists df1. auto.
    + intro H. inversion H; subst. right. left. eauto.
  - intro H. inversion H; subst. left. eauto.
Qed.

(** A call whose interval columns pass, whose interval arguments are
    complete and whose subtraction is not one of two boolean columns reaches
    the annotation checks, on a frame that is the input coerced and then
    completed; the annotation checks decide the outcome. *)
Lemma check_data_prepared (estimate varlabel : string)
      (moerror ll hl : option string)
      (addannote annoteheaders rightannote right_annoteheaders : option pyarg)
      (w : world) :
  Forall (fun f => passes py_float (frame w) (fst f) = true)
         (fields estimate moerror ll hl) ->
  ci_ok moerror ll hl = true ->
  derivable (frame w) estimate moerror ll = true ->
  exists df1 df2,
    coerced_from py_float (map fst (fields estimate moerror ll hl))
                 (frame w) df1
    /\ derived_from estimate moerror ll hl df1 df2
    /\ check_data py_float estimate varlabel moerror ll hl addannote
                  annoteheaders rightannote right_annoteheaders w
       = match annotation_error (columns df2) addannote annoteheaders
                                rightannote right_annoteheaders with
         | Some e => (Raise e, World df2 (warned w))
         | None =>
             (Ok df2,
              World df2
                    (warned w ++ warnings_for varlabel addannote rightannote))
         end.
Proof.
  intros Hall Hci Hd.
  destruct (coerce_fields_passes py_float _ _ Hall) as (df1 & Hrun & Hco).
  rewrite <- (coerced_from_derivable _ _ _ _ _ _ Hco) in Hd.
  destruct (derive_ok estimate moerror ll hl df1 (warned w) Hci
                      (coerced_has_numeric _ _ _ Hall Hco) Hd)
    as (df2 & Hder & Hfacts).
  exists df1, df2. split; [exact Hco|]. split; [exact Hfacts|].
  now rewrite check_data_eq, Hrun, Hci, Hder.
Qed.

(** When the subtraction is one of two boolean columns the call stops
    there, with numpy's [TypeError], on the frame of the numeric step. *)
Lemma check_data_refused (estimate varlabel : string)
      (moerror ll hl : option string)
      (addannote annoteheaders rightannote right_annoteheaders : option pyarg)
      (w : world) :
  Forall (fun f => passes py_float (frame w) (fst f) = true)
         (fields estimate moerror ll hl) ->
  ci_ok moerror ll hl = true ->
  derivable (frame w) estimate moerror ll = false ->
  exists df1,
    coerced_from py_float (map fst (fields estimate moerror ll hl))
                 (frame w) df1
    /\ check_data py_float estimate varlabel moerror ll hl addannote
                  annoteheaders rightannote right_annoteheaders w
       = (Raise (TypeError msg_bool_subtract), World df1 (warned w)).
Proof.
  intros Hall Hci Hd.
  destruct (coerce_fields_passes py_float _ _ Hall) as (df1 & Hrun & Hco).
  rewrite <- (coerced_from_derivable _ _ _ _ _ _ Hco) in Hd.
  exists df1. split; [exact Hco|].
  now rewrite check_data_eq, Hrun, Hci, (derive_refused _ _ _ _ _ _ Hci Hd).
Qed.

(** Conversely, a call that returns went through all of that. *)
Lemma check_data_success_inv (estimate varlabel : string)
      (moerror ll hl : option string)
      (addannote annoteheaders rightannote right_annoteheaders : option pyarg)
      (w w' : world) (df' : DataFrame) :
  check_data py_float estimate varlabel moerror ll hl addannote annoteheaders
             rightannote right_annoteheaders w = (Ok df', w') ->
  Forall (fun f => passes py_float (frame w) (fst f) = true)
         (fields estimate moerror ll hl)
  /\ ci_ok moerror ll hl = true
  /\ derivable (frame w) estimate moerror ll = true
  /\ annotations_ok (columns df') addannote annoteheaders rightannote
                    right_annoteheaders = true
  /\ w' = World df' (warned w ++ warnings_for varlabel addannote rightannote)
  /\ exists df1,
      coerced_from py_float (map fst (fields estimate moerror ll hl))
                   (frame w) df1
      /\ derive estimate moerror ll hl (World df1 (warned w))
         = (Ok tt, World df' (warned w))
      /\ derived_from estimate moerror ll hl df1 df'.
Proof.
  intro Hrun.
  destruct (check_data_cases _ _ _ _ _ _ _ _ _ _ _ _ Hrun)
    as [(e & df1 & _ & He & _) | [(df1 & _ & _ & He & _)
       | [(df1 & _ & _ & _ & He & _)
       | (df1 & df2 & Hco & Hci & Hd & Hfrom & Hder & Hfacts
          & [(e & _ & He & _) | (Hann & He & Hw)])]]];
    try discriminate He.
  inversion He; subst df2.
  split; [exact (coerce_fields_inv _ _ _ _ Hco)|].
  apply annotation_error_none in Hann.
  repeat (split; [assumption|]). exists df1.
  split; [exact Hfrom|]. split; [exact Hder | exact Hfacts].
Qed.

(** Whatever the outcome of a call, the frame it leaves is the frame of
    the numeric step, or that frame completed by [derive]. *)
Lemma check_data_outcome (estimate varlabel : string)
      (moerror ll hl : option string)
      (addannote annoteheaders rightannote right_annoteheaders : option pyarg)
      (w w' : world) (r : result DataFrame) :
  check_data py_float estimate varlabel moerror ll hl addannote annoteheaders
             rightannote right_annoteheaders w = (r, w') ->
  exists r1 df1,
    coerce_fields py_float (fields estimate moerror ll hl) (frame w)
    = (r1, df1)
    /\ (frame w' = df1
        \/ derived_from estimate moerror ll hl df1 (frame w')).
Proof.
  intro Hrun.
  destruct (check_data_cases _ _ _ _ _ _ _ _ _ _ _ _ Hrun)
    as [(e & df1 & Hco & _ & Hw) | [(df1 & Hco & _ & _ & Hw)
       | [(df1 & Hco & _ & _ & _ & Hw)
       | (df1 & df2 & Hco & _ & _ & _ & _ & Hfacts
          & [(e & _ & _ & Hw) | (_ & _ & Hw)])]]];
    subst w'; eexists; exists df1; (split; [exact Hco|]); simpl; auto.
Qed.

End Whole.

(** * The claims about [check_data] *)

Section Claims.

Variable py_float : string -> option float.

Lemma all_pass_Forall (fs : list (string * string)) (df : DataFrame) :
  forallb (fun f => passes py_float df (fst f)) fs = true
  <-> Forall (fun f => passes py_float df (fst f) = true) fs.
Proof. rewrite forallb_forall, Forall_forall. tauto. Qed.

Lemma numeric_passes (df : DataFrame) (k : string) (c : column) :
  getcol df k = Some c -> is_numeric_dtype c = true ->
  passes py_float df k = true.
Proof.
  intros Hc Hn. unfold passes. now rewrite Hc, coerce_column_fixed.
Qed.

Lemma coerced_from_numeric (keys : list string) (df df1 : DataFrame)
      (n : string) (c : column) :
  coerced_from py_float keys df df1 ->
  getcol df n = Some c -> is_numeric_dtype c = true ->
  getcol df1 n = Some c.
Proof.
  intros [_ Hget] Hc Hn. rewrite Hget, Hc. simpl.
  rewrite (coerced_numeric _ _ Hn). now destruct (contains keys n).
Qed.

Lemma fresh_in_all (df df1 : DataFrame) (names : list string) :
  columns df1 = columns df ->
  forallb (fun d => negb (contains (columns df) d)) names = true ->
  fresh_in df1 names = names.
Proof.
  intros Hcols Hall. unfold fresh_in. rewrite Hcols.
  induction names as [|d names IH]; simpl in *; [reflexivity|].
  apply andb_true_iff in Hall. destruct Hall as [Hd Hall].
  rewrite Hd. now rewrite (IH Hall).
Qed.

Lemma annotation_checks_pass (cols : list string)
      (addannote annoteheaders rightannote right_annoteheaders : option pyarg)
      (varlabel : string) (df2 : DataFrame) (ws : list string) :
  columns df2 = cols ->
  annotations_ok cols addannote annoteheaders rightannote right_annoteheaders
  = true ->
  match annotation_error (columns df2) addannote annoteheaders rightannote
                         right_annoteheaders with
  | Some e => (Raise e, World df2 ws)
  | None =>
      (Ok df2,
       World df2 (ws ++ warnings_for varlabel addannote rightannote))
  end
  = (Ok df2, World df2 (ws ++ warnings_for varlabel addannote rightannote)).
Proof.
  intros -> Hok. apply annotation_error_none in Hok. now rewrite Hok.
Qed.

Lemma numeric_at_has (df : DataFrame) (k : string) :
  numeric_at df k = true -> has_numeric df k.
Proof.
  unfold numeric_at, has_numeric.
  destruct (getcol df k) as [c|]; [eauto | discriminate].
Qed.

(** On a frame whose fields are all numeric the numeric step changes
    nothing. *)
Lemma coerce_fields_numeric_id (fs : list (string * string)) (df : DataFrame) :
  (forall k, In k (map fst fs) -> has_numeric df k) ->
  coerce_fields py_float fs df = (Ok tt, df).
Proof.
  induction fs as [|[k msg] fs IH]; intro Hnum; simpl; [reflexivity|].
  destruct (Hnum k) as (c & Hc & Hn); [simpl; tauto|].
  rewrite Hc, (coerce_column_fixed _ _ Hn), (setcol_same _ _ _ Hc).
  apply IH. intros k2 Hin. apply Hnum. simpl. tauto.
Qed.

(** Assigning to a name that is not a column appends the column. *)
Lemma setcol_fresh (df : DataFrame) (k : string) (c : column) :
  contains (columns df) k = false -> setcol df k c = (df ++ [(k, c)])%list.
Proof.
  induction df as [|[k0 c0] df IH]; simpl; [reflexivity|].
  rewrite (String.eqb_sym k k0). destruct (String.eqb k0 k); simpl;
    [discriminate|].
  intro H. now rewrite (IH H).
Qed.

(** An error of the numeric step is a [KeyError] or a [TypeError]. *)
Lemma coerce_fields_raise_kind (fs : list (string * string))
      (df df1 : DataFrame) (e : exn) :
  coerce_fields py_float fs df = (Raise e, df1) ->
  kind_of e <> ConstraintKind.
Proof.
  revert df. induction fs as [|[k msg] fs IH]; intros df Hrun; simpl in Hrun.
  - discriminate Hrun.
  - destruct (getcol df k) as [c|].
    + destruct (coerce_column py_float c) as [c'|]; [exact (IH _ Hrun)|].
      inversion Hrun. discriminate.
    + inversion Hrun. discriminate.
Qed.

Lemma all_pass_false_raises (estimate : string) (moerror ll hl : option string)
      (df : DataFrame) :
  all_pass py_float df estimate moerror ll hl = false ->
  exists e df1,
    coerce_fields py_float (fields estimate moerror ll hl) df = (Raise e, df1).
Proof.
  intro Hfail.
  destruct (coerce_fields py_float (fields estimate moerror ll hl) df)
    as [[[]|e] df1] eqn:Hco; [|eauto].
  apply coerce_fields_inv, all_pass_Forall in Hco. unfold all_pass in Hfail.
  congruence.
Qed.

(** A list with an element that fails a test has a first such element. *)
Lemma first_failing {A : Type} (p : A -> bool) (l : list A) :
  forallb p l = false ->
  exists l1 x l2,
    l = (l1 ++ x :: l2)%list /\ forallb p l1 = true /\ p x = false.
Proof.
  induction l as [|a l IH]; simpl; [discriminate|].
  destruct (p a) eqn:Ha; simpl.
  - intro H. destruct (IH H) as (l1 & x & l2 & Hl & Hl1 & Hx).
    exists (a :: l1), x, l2. simpl. now rewrite Hl, Ha, Hl1.
  - intros _. now exists [], a, l.
Qed.

(** The numeric step stops at the first field that does not pass: when a
    field treated before [k] fails, the error of the call is that field's. *)
Lemma earlier_field_fails (estimate varlabel : string)
      (moerror ll hl : option string)
      (addannote annoteheaders rightannote right_annoteheaders : option pyarg)
      (w : world) (before after : list (string * string)) (k msg : string) :
  fields estimate moerror ll hl = (before ++ (k, msg) :: after)%list ->
  forallb (fun f => passes py_float (frame w) (fst f)) before = false ->
  exists k0 msg0 w',
    In (k0, msg0) before
    /\ passes py_float (frame w) k0 = false
    /\ check_numeric py_float estimate moerror ll hl w
       = (Raise (match getcol (frame w) k0 with
                 | None => KeyError k0
                 | Some _ => TypeError msg0
                 end), w')
    /\ check_data py_float estimate varlabel moerror ll hl addannote
                  annoteheaders rightannote right_annoteheaders w
       = (Raise (match getcol (frame w) k0 with
                 | None => KeyError k0
                 | Some _ => TypeError msg0
                 end), w').
Proof.
  intros Hfields Hbefore.
  destruct (first_failing _ _ Hbefore) as (l1 & [k0 msg0] & l2 & Hl & Hl1 & Hx).
  simpl in Hx. apply all_pass_Forall in Hl1.
  destruct (coerce_fields_stops py_float l1 (l2 ++ (k, msg) :: after) k0 msg0
                                (frame w) Hl1 Hx) as (df1 & Hstop).
  assert (Hfs : fields estimate moerror ll hl
                = (l1 ++ (k0, msg0) :: l2 ++ (k, msg) :: after)%list).
  { rewrite Hfields, Hl, <- app_assoc. reflexivity. }
  exists k0, msg0, (World df1 (warned w)).
  split; [rewrite Hl; apply in_or_app; right; simpl; tauto|].
  split; [exact Hx|].
  rewrite check_data_eq, check_numeric_fields, ensure_all_run, Hfs, Hstop.
  split; reflexivity.
Qed.

(** C1, as amended.  On a table whose estimate, ll, hl and moerror columns,
    where supplied, are numeric, the estimate and the column subtracted from
    it not being both boolean, and with annotation arguments that pass their
    checks: a call without [moerror] and with [ll] and [hl] returns the input
    table with the column "moerror" assigned (appended when the name is new),
    whose cell on every row is the estimate cell minus the ll cell, the hl
    column being as it was unless it is the column named "moerror"; a call
    with [moerror] and without [ll] and [hl] returns the input table with
    "ll" and then "hl" assigned (appended when new), the cells of "ll" being
    estimate minus moerror and those of "hl" estimate plus moerror (for
    "hl", when neither operand is the column named "ll" that has just been
    assigned). *)
Theorem check_data_derives_missing_columns :
  forall (w : world) (estimate varlabel : string)
         (addannote annoteheaders rightannote right_annoteheaders
          : option pyarg),
    (forall lk hk E L,
        getcol (frame w) estimate = Some E ->
        getcol (frame w) lk = Some L ->
        is_numeric_dtype E = true -> is_numeric_dtype L = true ->
        numeric_at (frame w) hk = true ->
        (is_bool E && is_bool L)%bool = false ->
        annotations_ok (derived_columns (frame w) None (Some lk) (Some hk))
                       addannote annoteheaders rightannote
                       right_annoteheaders = true ->
        exists D,
          check_data py_float estimate varlabel None (Some lk) (Some hk)
                     addannote annoteheaders rightannote right_annoteheaders w
          = (Ok (setcol (frame w) "moerror" D),
             World (setcol (frame w) "moerror" D)
                   (warned w ++ warnings_for varlabel addannote rightannote))
          /\ rowwise minus D E L
          /\ (contains (columns (frame w)) "moerror" = false ->
              setcol (frame w) "moerror" D
              = (frame w ++ [("moerror", D)])%list)
          /\ (hk <> "moerror" ->
              getcol (setcol (frame w) "moerror" D) hk
              = getcol (frame w) hk))
    /\ (forall mk E M,
           getcol (frame w) estimate = Some E ->
           getcol (frame w) mk = Some M ->
           is_numeric_dtype E = true -> is_numeric_dtype M = true ->
           (is_bool E && is_bool M)%bool = false ->
           annotations_ok (derived_columns (frame w) (Some mk) None None)
                          addannote annoteheaders rightannote
                          right_annoteheaders = true ->
           exists Dl Dh,
             check_data py_float estimate varlabel (Some mk) None None
                        addannote annoteheaders rightannote
                        right_annoteheaders w
             = (Ok (setcol (setcol (frame w) "ll" Dl) "hl" Dh),
                World (setcol (setcol (frame w) "ll" Dl) "hl" Dh)
                      (warned w
                       ++ warnings_for varlabel addannote rightannote))
             /\ rowwise minus Dl E M
             /\ (estimate <> "ll" -> mk <> "ll" -> rowwise plus Dh E M)
             /\ (contains (columns (frame w)) "ll" = false ->
                 contains (columns (frame w)) "hl" = false ->
                 setcol (setcol (frame w) "ll" Dl) "hl" Dh
                 = (frame w ++ [("ll", Dl); ("hl", Dh)])%list)).
Proof.
  intros w estimate varlabel a ah r rh. split.
  - intros lk hk E L HE HL HEn HLn Hhk Hb Hann.
    assert (Hnum : forall k,
               In k (map fst (fields estimate None (Some lk) (Some hk))) ->
               has_numeric (frame w) k).
    { simpl. intros k [<- | [<- | [<- | []]]];
        [exists E | exists L | apply numeric_at_has]; auto. }
    assert (Hci : ci_ok None (Some lk) (Some hk) = true) by reflexivity.
    assert (Hd : derivable (frame w) estimate None (Some lk) = true).
    { unfold derivable, bool_at. simpl. now rewrite HE, HL, Hb. }
    destruct (derive_ok estimate None (Some lk) (Some hk) (frame w) (warned w)
                        Hci Hnum Hd) as (df2 & Hder & Hcols & _).
    destruct (derive_inv _ _ _ _ _ _ Hder) as (dfa & dfb & Ha & Hb' & Hc & _).
    simpl in Ha, Hb', Hc.
    destruct Ha as (lk' & E' & L' & D & Hlk & HE' & HL' & HD & Hdfa).
    inversion Hlk; subst lk'. rewrite HE in HE'. rewrite HL in HL'.
    inversion HE'; inversion HL'; subst E' L' dfb dfa df2.
    exists D. split; [|split; [|split]].
    + rewrite check_data_eq, (coerce_fields_numeric_id _ _ Hnum), Hci, Hder.
      cbn [frame warned].
      exact (annotation_checks_pass _ _ _ _ _ _ _ _ Hcols Hann).
    + exact (series_sub_rowwise _ _ _ HD).
    + apply setcol_fresh.
    + intro Hne. apply getcol_setcol_other. congruence.
  - intros mk E M HE HM HEn HMn Hb Hann.
    assert (Hnum : forall k,
               In k (map fst (fields estimate (Some mk) None None)) ->
               has_numeric (frame w) k).
    { simpl. intros k [<- | [<- | []]]; [exists E | exists M]; auto. }
    assert (Hci : ci_ok (Some mk) None None = true) by reflexivity.
    assert (Hd : derivable (frame w) estimate (Some mk) None = true).
    { unfold derivable, bool_at. simpl. now rewrite HE, HM, Hb. }
    destruct (derive_ok estimate (Some mk) None None (frame w) (warned w)
                        Hci Hnum Hd) as (df2 & Hder & Hcols & _).
    destruct (derive_inv _ _ _ _ _ _ Hder) as (dfa & dfb & Ha & Hb' & Hc & _).
    simpl in Ha, Hb', Hc. subst dfa.
    destruct Hb' as (mk' & E' & M' & Dl & Hmk & HE' & HM' & HDl & Hdfb).
    destruct Hc as (mk2 & E2 & M2 & Dh & Hmk2 & HE2 & HM2 & HDh & Hdf2).
    inversion Hmk; inversion Hmk2; subst mk' mk2.
    rewrite HE in HE'. rewrite HM in HM'.
    inversion HE'; inversion HM'; subst E' M' dfb df2.
    exists Dl, Dh. split; [|split; [|split]].
    + rewrite check_data_eq, (coerce_fields_numeric_id _ _ Hnum), Hci, Hder.
      cbn [frame warned].
      exact (annotation_checks_pass _ _ _ _ _ _ _ _ Hcols Hann).
    + exact (series_sub_rowwise _ _ _ HDl).
    + intros Hne Hnm.
      rewrite getcol_setcol_other in HE2, HM2 by congruence.
      rewrite HE in HE2. rewrite HM in HM2.
      inversion HE2; inversion HM2; subst E2 M2.
      exact (series_add_rowwise _ _ _ HDh).
    + intros Hll Hhl. rewrite (setcol_fresh _ _ _ Hll).
      rewrite setcol_fresh.
      * now rewrite <- app_assoc.
      * unfold columns. rewrite map_app. fold (columns (frame w)).
        rewrite contains_app, Hhl. reflexivity.
Qed.

Lemma all_pass_prepared (estimate varlabel : string)
      (moerror ll hl : option string)
      (addannote annoteheaders rightannote right_annoteheaders : option pyarg)
      (w : world) :
  all_pass py_float (frame w) estimate moerror ll hl = true ->
  ci_ok moerror ll hl = true ->
  derivable (frame w) estimate moerror ll = true ->
  exists df2,
    columns df2 = derived_columns (frame w) moerror ll hl
    /\ check_data py_float estimate varlabel moerror ll hl addannote
                  annoteheaders rightannote right_annoteheaders w
       = match annotation_error (columns df2) addannote annoteheaders
                                rightannote right_annoteheaders with
         | Some e => (Raise e, World df2 (warned w))
         | None =>
             (Ok df2,
              World df2
                    (warned w ++ warnings_for varlabel addannote rightannote))
         end.
Proof.
  intros Hall Hci Hd. apply all_pass_Forall in Hall.
  destruct (check_data_prepared py_float estimate varlabel moerror ll hl
              addannote annoteheaders rightannote right_annoteheaders w
              Hall Hci Hd)
    as (df1 & df2 & Hco & Hder & Heq).
  exists df2. split; [|exact Heq].
  destruct Hder as (Hcols & _). rewrite Hcols.
  unfold derived_columns, fresh_in. now rewrite (proj1 Hco).
Qed.

(** A call returns exactly when its interval columns pass, its interval
    arguments are complete, its subtraction is not one of two boolean
    columns and its annotation arguments pass against the columns of the
    table after derivation. *)
Lemma check_data_succeeds_iff (estimate varlabel : string)
      (moerror ll hl : option string)
      (addannote annoteheaders rightannote right_annoteheaders : option pyarg)
      (w : world) :
  (exists df' w',
      check_data py_float estimate varlabel moerror ll hl addannote
                 annoteheaders rightannote right_annoteheaders w
      = (Ok df', w'))
  <-> (all_pass py_float (frame w) estimate moerror ll hl
       && ci_ok moerror ll hl
       && derivable (frame w) estimate moerror ll
       && annotations_ok (derived_columns (frame w) moerror ll hl) addannote
                         annoteheaders rightannote right_annoteheaders)%bool
      = true.
Proof.
  split.
  - intros (df' & w' & Hrun).
    destruct (check_data_success_inv py_float _ _ _ _ _ _ _ _ _ _ _ _ Hrun)
      as (Hall & Hci & Hd & Hann & _ & df1 & Hco & _ & Hcols & _).
    apply all_pass_Forall in Hall. unfold all_pass. rewrite Hall, Hci, Hd.
    simpl. unfold derived_columns, fresh_in. rewrite <- (proj1 Hco).
    unfold fresh_in in Hcols. now rewrite <- Hcols.
  - intro H.
    apply andb_true_iff in H. destruct H as [H Hann].
    apply andb_true_iff in H. destruct H as [H Hd].
    apply andb_true_iff in H. destruct H as [Hall Hci].
    destruct (all_pass_prepared estimate varlabel moerror ll hl addannote
                annoteheaders rightannote right_annoteheaders w Hall Hci Hd)
      as (df2 & Hcols & Heq).
    rewrite Heq, (annotation_checks_pass _ _ _ _ _ _ _ _ Hcols Hann). eauto.
Qed.

(** C2, as amended.  In the table a successful call returns, every column
    the call derived satisfies its defining relation on every row, as long
    as the columns it was computed from are not themselves assigned by the
    derivation: the derived margin of error is estimate - lower limit when
    neither of these two columns is named "moerror"; the derived lower limit
    is estimate - margin of error when neither is named "ll" or, [hl] being
    derived too, "hl"; the derived upper limit is estimate + margin of error
    when neither is named "hl".  Nothing relates the columns the caller
    supplied. *)
Theorem check_data_derived_relations :
  forall (w w' : world) (df' : DataFrame) (estimate varlabel : string)
         (moerror ll hl : option string)
         (addannote annoteheaders rightannote right_annoteheaders
          : option pyarg),
    check_data py_float estimate varlabel moerror ll hl addannote
               annoteheaders rightannote right_annoteheaders w = (Ok df', w') ->
    (moerror = None ->
     forall lk, ll = Some lk -> estimate <> "moerror" -> lk <> "moerror" ->
     exists E L M,
       getcol df' estimate = Some E /\ getcol df' lk = Some L
       /\ getcol df' "moerror" = Some M /\ rowwise minus M E L)
    /\ (ll = None ->
        forall mk, moerror = Some mk -> estimate <> "ll" -> mk <> "ll" ->
        (hl = None -> estimate <> "hl" /\ mk <> "hl") ->
        exists E M L,
          getcol df' estimate = Some E /\ getcol df' mk = Some M
          /\ getcol df' "ll" = Some L /\ rowwise minus L E M)
    /\ (hl = None ->
        forall mk, moerror = Some mk -> estimate <> "hl" -> mk <> "hl" ->
        exists E M H,
          getcol df' estimate = Some E /\ getcol df' mk = Some M
          /\ getcol df' "hl" = Some H /\ rowwise plus H E M).
Proof.
  intros w w' df' estimate varlabel moerror ll hl a ah r rh Hrun.
  destruct (check_data_success_inv py_float _ _ _ _ _ _ _ _ _ _ _ _ Hrun)
    as (_ & Hci & _ & _ & _ & df1 & _ & Hder & _).
  destruct (derive_inv _ _ _ _ _ _ Hder) as (dfa & dfb & Ha & Hb & Hc & _).
  cbn [frame] in Ha, Hb, Hc.
  split; [|split].
  - intros Hm lk Hl Hne Hnl. subst moerror ll.
    destruct hl as [hk|]; [|discriminate Hci].
    destruct Ha as (lk' & E & L & D & Hlk & HE & HL & HD & Hdfa).
    inversion Hlk; subst lk' dfb dfa df'.
    exists E, L, D.
    rewrite !getcol_setcol_other by congruence.
    rewrite getcol_setcol_same.
    repeat (split; [assumption || reflexivity|]).
    exact (series_sub_rowwise _ _ _ HD).
  - intros Hl mk Hm Hne Hnm Hhl. subst moerror ll. subst dfa.
    destruct Hb as (mk' & E & M & D & Hmk & HE & HM & HD & Hdfb).
    inversion Hmk; subst mk' dfb.
    exists E, M, D.
    assert (Hget : forall n, n <> "ll" -> (hl = None -> n <> "hl") ->
                             getcol df' n = getcol df1 n).
    { intros n Hn1 Hn2. destruct hl as [hk|].
      - subst df'. apply getcol_setcol_other. congruence.
      - destruct Hc as (? & ? & ? & ? & _ & _ & _ & _ & ->).
        rewrite !getcol_setcol_other; [reflexivity | congruence |].
        specialize (Hn2 eq_refl). congruence. }
    assert (Hll : getcol df' "ll" = Some D).
    { destruct hl as [hk|].
      - subst df'. apply getcol_setcol_same.
      - destruct Hc as (? & ? & ? & ? & _ & _ & _ & _ & ->).
        rewrite getcol_setcol_other by discriminate.
        apply getcol_setcol_same. }
    rewrite (Hget estimate Hne (fun H => proj1 (Hhl H))), HE.
    rewrite (Hget mk Hnm (fun H => proj2 (Hhl H))), HM.
    repeat (split; [assumption || reflexivity|]).
    exact (series_sub_rowwise _ _ _ HD).
  - intros Hh mk Hm Hne Hnm. subst moerror hl.
    destruct Hc as (mk' & E & M & D & Hmk & HE & HM & HD & Hdf').
    inversion Hmk; subst mk' df'.
    exists E, M, D.
    rewrite !getcol_setcol_other by congruence.
    rewrite getcol_setcol_same.
    repeat (split; [assumption || reflexivity|]).
    exact (series_add_rowwise _ _ _ HD).
Qed.

(** C3, as amended.  A call without [moerror] and without at least one of
    [ll], [hl] always fails: with the [AssertionError] 'If "moerror" is not
    provided, then "ll" and "hl" must be provided.' when its supplied
    interval columns pass the numeric step of lines 54-79, and otherwise
    with the error of that step, which is no [AssertionError].  The
    completeness check of lines 85-99 itself passes exactly when [moerror]
    is supplied or both [ll] and [hl] are, and raises that error otherwise.
    A call that supplies only [moerror] succeeds exactly when the other
    steps let it: its columns pass, the estimate and margin columns are not
    both boolean, and the annotation arguments pass. *)
Theorem check_data_requires_interval_source :
  (forall (w : world) (estimate varlabel : string) (moerror ll hl : option string)
          (addannote annoteheaders rightannote right_annoteheaders
           : option pyarg),
      moerror = None -> ll = None \/ hl = None ->
      (all_pass py_float (frame w) estimate moerror ll hl = true ->
       exists w',
         check_data py_float estimate varlabel moerror ll hl addannote
                    annoteheaders rightannote right_annoteheaders w
         = (Raise (AssertionError msg_need_ll_hl), w'))
      /\ (all_pass py_float (frame w) estimate moerror ll hl = false ->
          exists e w',
            check_data py_float estimate varlabel moerror ll hl addannote
                       annoteheaders rightannote right_annoteheaders w
            = (Raise e, w')
            /\ check_numeric py_float estimate moerror ll hl w = (Raise e, w')
            /\ kind_of e <> ConstraintKind))
  /\ (forall (moerror ll hl : option string) (w : world),
         (check_ci_source moerror ll hl w = (Ok tt, w)
          <-> moerror <> None \/ (ll <> None /\ hl <> None))
         /\ (check_ci_source moerror ll hl w = (Ok tt, w)
             \/ check_ci_source moerror ll hl w
                = (Raise (AssertionError msg_need_ll_hl), w)))
  /\ (forall (w : world) (estimate varlabel mk : string)
             (addannote annoteheaders rightannote right_annoteheaders
              : option pyarg),
         (exists df' w',
             check_data py_float estimate varlabel (Some mk) None None
                        addannote annoteheaders rightannote
                        right_annoteheaders w
             = (Ok df', w'))
         <-> (all_pass py_float (frame w) estimate (Some mk) None None
              && derivable (frame w) estimate (Some mk) None
              && annotations_ok (derived_columns (frame w) (Some mk) None None)
                                addannote annoteheaders rightannote
                                right_annoteheaders)%bool = true).
Proof.
  split; [|split].
  - intros w estimate varlabel moerror ll hl a ah r rh Hm Hlh.
    assert (Hci : ci_ok moerror ll hl = false).
    { subst moerror. destruct Hlh as [-> | ->]; [reflexivity | now destruct ll]. }
    split.
    + intro Hall. apply all_pass_Forall in Hall.
      destruct (coerce_fields_passes py_float _ _ Hall) as (df1 & Hrun & _).
      rewrite check_data_eq, Hci, Hrun. eauto.
    + intro Hall.
      destruct (all_pass_false_raises _ _ _ _ _ Hall) as (e & df1 & Hco).
      exists e, (World df1 (warned w)).
      rewrite check_data_eq, check_numeric_fields, ensure_all_run, Hco.
      repeat split. exact (coerce_fields_raise_kind _ _ _ _ Hco).
  - intros moerror ll hl w. rewrite check_ci_source_run. split.
    + destruct moerror as [m|], ll as [l|], hl as [h|]; simpl; split; intro H;
        try reflexivity; try discriminate H;
        try (left; discriminate); try (right; split; discriminate);
        destruct H as [H | [H1 H2]]; congruence.
    + destruct (ci_ok moerror ll hl); [left | right]; reflexivity.
  - intros w estimate varlabel mk a ah r rh.
    rewrite check_data_succeeds_iff. simpl. now rewrite andb_true_r.
Qed.

(** C4, as amended.  Take a supplied column argument whose column has
    dtype object, the columns of the arguments treated before it (in the
    order estimate, moerror, ll, hl) passing.  If some cell cannot be cast
    to float the call fails with the [TypeError] that names that argument
    ("Estimates", "Margin of error values", "CI lowerlimit values" or
    "CI higherlimit values ... should be float or int").  If every cell can,
    the column holds the floats the cells were cast to once the call is
    over, in the frame the call leaves and so in the table it returns
    (unless [derive] assigned to that very name).  When an argument treated
    before it does not pass, the call fails with the error of the first such
    argument instead. *)
Theorem check_data_coerces_or_rejects :
  forall (w : world) (estimate varlabel : string) (moerror ll hl : option string)
         (addannote annoteheaders rightannote right_annoteheaders
          : option pyarg)
         (before after : list (string * string)) (k msg : string)
         (cells : list string),
    fields estimate moerror ll hl = (before ++ (k, msg) :: after)%list ->
    getcol (frame w) k = Some (Object cells) ->
    (forallb (fun f => passes py_float (frame w) (fst f)) before = true ->
     (parse_all py_float cells = None ->
      exists w',
        check_data py_float estimate varlabel moerror ll hl addannote
                   annoteheaders rightannote right_annoteheaders w
        = (Raise (TypeError msg), w'))
     /\ (forall vs r w',
            parse_all py_float cells = Some vs ->
            check_data py_float estimate varlabel moerror ll hl addannote
                       annoteheaders rightannote right_annoteheaders w
            = (r, w') ->
            contains (derived_names moerror ll hl) k = false ->
            getcol (frame w') k = Some (Float64 vs)
            /\ forall df', r = Ok df' -> getcol df' k = Some (Float64 vs)))
    /\ (forallb (fun f => passes py_float (frame w) (fst f)) before = false ->
        exists k0 msg0 w',
          In (k0, msg0) before
          /\ passes py_float (frame w) k0 = false
          /\ check_data py_float estimate varlabel moerror ll hl addannote
                        annoteheaders rightannote right_annoteheaders w
             = (Raise (match getcol (frame w) k0 with
                       | None => KeyError k0
                       | Some _ => TypeError msg0
                       end), w')).
Proof.
  intros w estimate varlabel moerror ll hl a ah r rh before after k msg cells
         Hfields Hk.
  split.
  - intro Hbefore. apply all_pass_Forall in Hbefore. split.
    + intro Hbad.
      assert (Hfail : passes py_float (frame w) k = false).
      { unfold passes, coerce_column. rewrite Hk. simpl. now rewrite Hbad. }
      destruct (coerce_fields_stops py_float before after k msg (frame w)
                                    Hbefore Hfail) as (df1 & Hstop).
      rewrite Hk in Hstop.
      exists (World df1 (warned w)). now rewrite check_data_eq, Hfields, Hstop.
    + intros vs res w' Hvs Hrun Hnot.
      assert (Hleft : getcol (frame w') k = Some (Float64 vs)).
      { destruct (check_data_outcome py_float _ _ _ _ _ _ _ _ _ _ _ _ Hrun)
          as (r1 & df1 & Hco & Hframe).
        rewrite Hfields in Hco.
        pose proof (coerce_fields_casts py_float _ _ _ _ _ _ _ _ _
                                        Hbefore Hk Hvs Hco) as Hcast.
        destruct Hframe as [-> | (_ & Hkeep & _)]; [exact Hcast|].
        rewrite Hkeep; [exact Hcast | now apply contains_false]. }
      split; [exact Hleft|]. intros df' ->.
      destruct (check_data_success_inv py_float _ _ _ _ _ _ _ _ _ _ _ _ Hrun)
        as (_ & _ & _ & _ & Hw' & _).
      subst w'. exact Hleft.
  - intro Hbefore.
    destruct (earlier_field_fails estimate varlabel moerror ll hl a ah r rh w
                                  before after k msg Hfields Hbefore)
      as (k0 & msg0 & w' & Hin & Hfail & _ & Hrun).
    exists k0, msg0, w'. now repeat split.
Qed.

(** C10, as amended.  [check_data] never tests that the columns named by
    [estimate], [moerror], [ll] and [hl] exist.  A supplied name that is not
    a column makes the call fail inside the numeric step of lines 54-79, so
    before the completeness, derivation and annotation code runs.  The error
    is the [KeyError] of the lookup, neither a [TypeError] nor an
    [AssertionError], when the columns of the arguments treated before it
    pass (always, for [estimate]); otherwise it is the error of the first
    argument that does not pass: a [KeyError] too when that column is
    missing, the [TypeError] of that argument when it cannot be cast. *)
Theorem check_data_missing_column_key_error :
  forall (w : world) (estimate varlabel : string) (moerror ll hl : option string)
         (addannote annoteheaders rightannote right_annoteheaders
          : option pyarg)
         (before after : list (string * string)) (k msg : string),
    fields estimate moerror ll hl = (before ++ (k, msg) :: after)%list ->
    getcol (frame w) k = None ->
    (exists e w',
        check_numeric py_float estimate moerror ll hl w = (Raise e, w')
        /\ check_data py_float estimate varlabel moerror ll hl addannote
                      annoteheaders rightannote right_annoteheaders w
           = (Raise e, w'))
    /\ (forallb (fun f => passes py_float (frame w) (fst f)) before = true ->
        exists w',
          check_numeric py_float estimate moerror ll hl w
          = (Raise (KeyError k), w')
          /\ check_data py_float estimate varlabel moerror ll hl addannote
                        annoteheaders rightannote right_annoteheaders w
             = (Raise (KeyError k), w')
          /\ kind_of (KeyError k) = RawKeyLookup)
    /\ (forallb (fun f => passes py_float (frame w) (fst f)) before = false ->
        exists k0 msg0 w',
          In (k0, msg0) before
          /\ passes py_float (frame w) k0 = false
          /\ check_numeric py_float estimate moerror ll hl w
             = (Raise (match getcol (frame w) k0 with
                       | None => KeyError k0
                       | Some _ => TypeError msg0
                       end), w')
          /\ check_data py_float estimate varlabel moerror ll hl addannote
                        annoteheaders rightannote right_annoteheaders w
             = (Raise (match getcol (frame w) k0 with
                       | None => KeyError k0
                       | Some _ => TypeError msg0
                       end), w')).
Proof.
  intros w estimate varlabel moerror ll hl a ah r rh before after k msg
         Hfields Hk.
  assert (Hfail : passes py_float (frame w) k = false)
    by (unfold passes; now rewrite Hk).
  assert (Hin : In (k, msg) (fields estimate moerror ll hl)).
  { rewrite Hfields. apply in_or_app. right. simpl. tauto. }
  split; [|split].
  - rewrite check_data_eq, check_numeric_fields, ensure_all_run.
    destruct (coerce_fields py_float (fields estimate moerror ll hl) (frame w))
      as [[[]|e] df1] eqn:Hco.
    + apply coerce_fields_inv in Hco. rewrite Forall_forall in Hco.
      specialize (Hco (k, msg) Hin). simpl in Hco. congruence.
    + simpl. eauto.
  - intro Hbefore. apply all_pass_Forall in Hbefore.
    destruct (coerce_fields_stops py_float before after k msg (frame w)
                                  Hbefore Hfail) as (df1 & Hstop).
    rewrite Hk in Hstop. exists (World df1 (warned w)).
    rewrite check_data_eq, check_numeric_fields, ensure_all_run, Hfields, Hstop.
    repeat split.
  - exact (earlier_field_fails estimate varlabel moerror ll hl a ah r rh w
                               before after k msg Hfields).
Qed.




(** C6, as amended.  Every otherwise valid call succeeds, whatever it
    warns about, and emits, in this order: one warning if [varlabel] is an
    entry of [addannote], then two warnings if [varlabel] is an entry of
    [rightannote]; so one warning when [varlabel] is in [addannote] only,
    two when it is in [rightannote] only, three when it is in both and none
    otherwise.  A call is otherwise valid when its interval columns pass,
    its interval arguments are complete, its subtraction is not one of two
    boolean columns and its annotation arguments pass. *)
Theorem check_data_warnings :
  forall (w : world) (estimate varlabel : string) (moerror ll hl : option string)
         (addannote annoteheaders rightannote right_annoteheaders
          : option pyarg),
    all_pass py_float (frame w) estimate moerror ll hl = true ->
    ci_ok moerror ll hl = true ->
    derivable (frame w) estimate moerror ll = true ->
    annotations_ok (derived_columns (frame w) moerror ll hl) addannote
                   annoteheaders rightannote right_annoteheaders = true ->
    exists df' w',
      check_data py_float estimate varlabel moerror ll hl addannote
                 annoteheaders rightannote right_annoteheaders w
      = (Ok df', w')
      /\ warned w'
         = (warned w
              ++ (if py_in_opt varlabel addannote
                  then [msg_duplicate varlabel "addannote"] else [])
              ++ (if py_in_opt varlabel rightannote
                  then [msg_already_printed varlabel;
                        msg_duplicate varlabel "rightannote"]
                  else []))%list
      /\ List.length (warned w')
         = List.length (warned w)
           + (if py_in_opt varlabel addannote then 1 else 0)
           + (if py_in_opt varlabel rightannote then 2 else 0).
Proof.
  intros w estimate varlabel moerror ll hl a ah r rh Hall Hci Hd Hann.
  destruct (all_pass_prepared estimate varlabel moerror ll hl a ah r rh w
                              Hall Hci Hd)
    as (df2 & Hcols & Heq).
  rewrite Heq, (annotation_checks_pass _ _ _ _ _ _ _ _ Hcols Hann).
  eexists. eexists. split; [reflexivity|]. unfold warnings_for. simpl.
  split; [reflexivity|]. rewrite !length_app.
  destruct (py_in_opt varlabel a), (py_in_opt varlabel r); simpl; lia.
Qed.



End Claims.

(** * The claims on sample calls *)

Lemma check_data_derives_missing_columns_witness :
  (exists D,
      check_data sample_float "est" "var" None (Some "lo") (Some "hi")
                 None None None None (World sample_limits [])
      = (Ok (sample_limits ++ [("moerror", D)])%list,
         World (sample_limits ++ [("moerror", D)])%list [])
      /\ cell D 0 = Some (SFloat 0.5)
      /\ cell D 1 = Some (SFloat 0.25)
      /\ cell D 2 = None
      /\ getcol (sample_limits ++ [("moerror", D)])%list "hi"
         = Some (Float64 [2.5; 1.25]%float))
  /\ (exists Dl Dh,
         check_data sample_float "est" "var" (Some "moe") None None
                    None None None None (World sample_margins [])
         = (Ok (sample_margins ++ [("ll", Dl); ("hl", Dh)])%list,
            World (sample_margins ++ [("ll", Dl); ("hl", Dh)])%list [])
         /\ cell Dl 0 = Some (SFloat 1)
         /\ cell Dl 1 = Some (SFloat 0.5)
         /\ cell Dh 0 = Some (SFloat 2)
         /\ cell Dh 1 = Some (SFloat 1)).
Proof.
  split.
  - destruct (proj1 (check_data_derives_missing_columns
                       sample_float (World sample_limits []) "est" "var"
                       None None None None)
                    "lo" "hi" (Float64 [1.5; 0.75]%float)
                    (Float64 [1; 0.5]%float)
                    eq_refl eq_refl eq_refl eq_refl eq_refl eq_refl eq_refl)
      as (D & Hrun & Hrow & Hnew & Hhi).
    exists D. cbn [frame warned] in Hrun, Hnew, Hhi.
    rewrite (Hnew eq_refl) in Hrun, Hhi.
    split; [exact Hrun|].
    split; [rewrite (Hrow 0); reflexivity|].
    split; [rewrite (Hrow 1); reflexivity|].
    split; [rewrite (Hrow 2); reflexivity|].
    rewrite Hhi; [reflexivity | discriminate].
  - destruct (proj2 (check_data_derives_missing_columns
                       sample_float (World sample_margins []) "est" "var"
                       None None None None)
                    "moe" (Float64 [1.5; 0.75]%float)
                    (Float64 [0.5; 0.25]%float)
                    eq_refl eq_refl eq_refl eq_refl eq_refl eq_refl)
      as (Dl & Dh & Hrun & Hlo & Hhi & Hnew).
    exists Dl, Dh. cbn [frame warned] in Hrun, Hnew.
    rewrite (Hnew eq_refl eq_refl) in Hrun.
    assert (Hup : rowwise plus Dh (Float64 [1.5; 0.75]%float)
                          (Float64 [0.5; 0.25]%float))
      by (apply Hhi; discriminate).
    split; [exact Hrun|].
    split; [rewrite (Hlo 0); reflexivity|].
    split; [rewrite (Hlo 1); reflexivity|].
    split; [rewrite (Hup 0); reflexivity|].
    rewrite (Hup 1); reflexivity.
Defined.

(** C1, as stated, fails: boolean columns are numeric for
    [is_numeric_dtype], and on boolean estimates and lower limits the call
    without [moerror] does not succeed; line 103 raises numpy's
    [TypeError]. *)
Lemma check_data_boolean_columns_fail :
  ~ (forall (py_float : string -> option float) (w : world)
            (estimate varlabel lk hk : string),
        numeric_at (frame w) estimate = true ->
        numeric_at (frame w) lk = true ->
        numeric_at (frame w) hk = true ->
        exists df' w',
          check_data py_float estimate varlabel None (Some lk) (Some hk)
                     None None None None w
          = (Ok df', w')).
Proof.
  intro Hclaim.
  destruct (Hclaim sample_float (World sample_flags []) "est" "var" "lo" "hi"
                   eq_refl eq_refl eq_refl)
    as (df' & w' & Hrun).
  vm_compute in Hrun. discriminate Hrun.
Qed.

(** What that call does instead. *)
Lemma check_data_boolean_columns_raise :
  check_data sample_float "est" "var" None (Some "lo") (Some "hi")
             None None None None (World sample_flags [])
  = (Raise (TypeError msg_bool_subtract), World sample_flags []).
Proof. reflexivity. Qed.

(** Two float cells that differ are told apart by comparing both with the
    first one. *)
Ltac cells_differ H :=
  match type of H with
  | Some (SFloat ?x) = _ =>
      apply (f_equal (fun r => match r with
                               | Some (SFloat y) => PrimFloat.eqb y x
                               | _ => false
                               end)) in H;
      vm_compute in H; discriminate H
  end.

(** C2, as stated, fails: with [ll] and [hl] supplied, the call succeeds
    and derives the margins 0.5 and 0.25 from the estimates 1.5 and 0.75 and
    the lower limits 1 and 0.5, while the supplied upper limits stay 2.5
    and 1.25, not estimate + margin = 2 and 1. *)
Lemma check_data_interval_not_consistent :
  ~ (forall (py_float : string -> option float) (w w' : world)
            (df' : DataFrame) (estimate varlabel : string)
            (moerror ll hl : option string)
            (addannote annoteheaders rightannote right_annoteheaders
             : option pyarg),
        check_data py_float estimate varlabel moerror ll hl addannote
                   annoteheaders rightannote right_annoteheaders w
        = (Ok df', w') ->
        ci_consistent df' estimate (name_or moerror "moerror")
                      (name_or ll "ll") (name_or hl "hl")).
Proof.
  intro Hclaim.
  destruct (Hclaim sample_float (World sample_limits []) _ _ "est" "var"
                   None (Some "lo") (Some "hi") None None None None eq_refl)
    as (E & M & L & H & HE & HM & HL & HH & _ & Hadd & _).
  vm_compute in HE, HM, HH. inversion HE; inversion HM; inversion HH.
  subst E M H. specialize (Hadd 0). vm_compute in Hadd. cells_differ Hadd.
Qed.

(** The upper limit is not the only relation that can fail.  With only the
    margins 0.3 and 0.2 supplied for the estimates 1.2 and 0.8, the derived
    lower limits are 1.2 - 0.3 and 0.8 - 0.2 in binary64, and estimate minus
    such a lower limit is not the margin again. *)
Lemma derived_lower_limit_does_not_give_back_margin :
  exists df' w',
    check_data sample_float "est" "var" (Some "moerror") None None
               None None None None
               (World [("var", Object ["age"; "sex"]);
                       ("est", Float64 [1.2; 0.8]%float);
                       ("moerror", Float64 [0.3; 0.2]%float)] [])
    = (Ok df', w')
    /\ ~ ci_consistent df' "est" "moerror" "ll" "hl".
Proof.
  eexists. eexists. split; [reflexivity|].
  intros (E & M & L & H & HE & HM & HL & HH & _ & _ & Hsub).
  vm_compute in HE, HM, HL. inversion HE; inversion HM; inversion HL.
  subst E M L. specialize (Hsub 0). vm_compute in Hsub. cells_differ Hsub.
Qed.

(** A derived column need not satisfy its relation when one of the columns
    it is computed from is assigned by the derivation.  On a table whose
    estimates are in a column named "ll", the derived lower limits replace
    the estimates: "ll" is then not "ll" minus the margin; the upper limits,
    computed afterwards from the new "ll", are "ll" plus the margin, and not
    the estimates of the input plus the margin. *)
Lemma derived_relation_needs_its_operands :
  exists df' w' E M H,
    check_data sample_float "ll" "var" (Some "moe") None None
               None None None None (World sample_named_ll [])
    = (Ok df', w')
    /\ getcol df' "ll" = Some E /\ getcol df' "moe" = Some M
    /\ getcol df' "hl" = Some H
    /\ ~ rowwise minus E E M
    /\ rowwise plus H E M
    /\ ~ rowwise plus H (Float64 [1.5; 0.75]%float) M.
Proof.
  eexists. eexists. eexists. eexists. eexists.
  split; [reflexivity|].
  split; [reflexivity|]. split; [reflexivity|]. split; [reflexivity|].
  split; [|split].
  - intro Hsub. specialize (Hsub 0). vm_compute in Hsub. cells_differ Hsub.
  - intros [|[|i]]; try reflexivity.
    simpl. now destruct i.
  - intro Hadd. specialize (Hadd 0). vm_compute in Hadd. cells_differ Hadd.
Qed.

Lemma check_data_derived_relations_witness :
  rowwise minus (Float64 [1; 0.5]%float) (Float64 [1.5; 0.75]%float)
          (Float64 [0.5; 0.25]%float)
  /\ rowwise plus (Float64 [2; 1]%float) (Float64 [1.5; 0.75]%float)
             (Float64 [0.5; 0.25]%float).
Proof.
  destruct (check_data_derived_relations
              sample_float (World sample_margins [])
              (World sample_complete []) sample_complete
              "est" "var" (Some "moe") None None None None None None
              eq_refl)
    as (_ & Hlo & Hhi).
  split.
  - destruct (Hlo eq_refl "moe" eq_refl)
      as (E & M & L & HE & HM & HL & Hrel);
      [discriminate | discriminate | intros _; split; discriminate|].
    vm_compute in HE, HM, HL. inversion HE; inversion HM; inversion HL.
    subst E M L. exact Hrel.
  - destruct (Hhi eq_refl "moe" eq_refl)
      as (E & M & H & HE & HM & HH & Hrel); [discriminate | discriminate|].
    vm_compute in HE, HM, HH. inversion HE; inversion HM; inversion HH.
    subst E M H. exact Hrel.
Defined.

Lemma check_data_requires_interval_source_witness :
  (exists w',
      check_data sample_float "est" "var" None None (Some "hi")
                 None None None None (World sample_limits [])
      = (Raise (AssertionError msg_need_ll_hl), w'))
  /\ (exists e w',
         check_data sample_float "est" "var" None (Some "missing") None
                    None None None None (World sample_limits [])
         = (Raise e, w')
         /\ check_numeric sample_float "est" None (Some "missing") None
                          (World sample_limits [])
            = (Raise e, w')
         /\ kind_of e <> ConstraintKind)
  /\ (exists df' w',
         check_data sample_float "est" "var" (Some "moe") None None
                    None None None None (World sample_margins [])
         = (Ok df', w')).
Proof.
  split; [|split].
  - apply (proj1 (proj1 (check_data_requires_interval_source sample_float)
                        (World sample_limits []) "est" "var" None None
                        (Some "hi") None None None None
                        eq_refl (or_introl eq_refl))).
    reflexivity.
  - apply (proj2 (proj1 (check_data_requires_interval_source sample_float)
                        (World sample_limits []) "est" "var" None
                        (Some "missing") None None None None None
                        eq_refl (or_intror eq_refl))).
    reflexivity.
  - apply (proj2 (proj2 (check_data_requires_interval_source sample_float))
                 (World sample_margins []) "est" "var" "moe"
                 None None None None).
    reflexivity.
Defined.

(** C3, as stated, fails: with [moerror] and [hl] absent and [ll] naming
    a column the table does not have, the call fails in the numeric step,
    with the [KeyError] of the lookup and not with a ConstraintKind error. *)
Lemma check_data_incomplete_interval_key_error :
  ~ (forall (py_float : string -> option float) (w : world)
            (estimate varlabel : string) (moerror ll hl : option string)
            (addannote annoteheaders rightannote right_annoteheaders
             : option pyarg),
        moerror = None -> ll = None \/ hl = None ->
        exists e w',
          check_data py_float estimate varlabel moerror ll hl addannote
                     annoteheaders rightannote right_annoteheaders w
          = (Raise e, w')
          /\ kind_of e = ConstraintKind).
Proof.
  intro Hclaim.
  destruct (Hclaim sample_float (World sample_limits []) "est" "var"
                   None (Some "missing") None None None None None
                   eq_refl (or_intror eq_refl))
    as (e & w' & Hrun & Hkind).
  vm_compute in Hrun. inversion Hrun; subst e. discriminate Hkind.
Qed.

Lemma check_data_coerces_or_rejects_witness :
  (exists w',
      check_data sample_float "est" "var" None (Some "lo") (Some "hi")
                 None None None None (World sample_bad_limits [])
      = (Raise (TypeError "CI lowerlimit values should be float or int"), w'))
  /\ (exists df' w',
         check_data sample_float "est" "var" (Some "moe") None None
                    None None None None (World sample_text [])
         = (Ok df', w')
         /\ getcol df' "est" = Some (Float64 [1.5; 0.75]%float))
  /\ (exists k0 msg0 w',
         In (k0, msg0) [("est", msg_estimate)]
         /\ passes sample_float sample_two_bad k0 = false
         /\ check_data sample_float "est" "var" None (Some "lo") (Some "hi")
                       None None None None (World sample_two_bad [])
            = (Raise (match getcol sample_two_bad k0 with
                      | None => KeyError k0
                      | Some _ => TypeError msg0
                      end), w')).
Proof.
  split; [|split].
  - apply (proj1 (proj1 (check_data_coerces_or_rejects
                           sample_float (World sample_bad_limits []) "est"
                           "var" None (Some "lo") (Some "hi")
                           None None None None
                           [("est", msg_estimate)] [("hi", msg_hl)]
                           "lo" msg_ll ["0.25"; "n/a"] eq_refl eq_refl)
                        eq_refl)).
    reflexivity.
  - eexists. eexists. split; [reflexivity|].
    apply (proj2 (proj1 (check_data_coerces_or_rejects
                           sample_float (World sample_text []) "est" "var"
                           (Some "moe") None None None None None None
                           [] [("moe", msg_moerror)] "est" msg_estimate
                           ["1.5"; "0.75"] eq_refl eq_refl)
                        eq_refl)
                 [1.5; 0.75]%float _ _ eq_refl eq_refl eq_refl).
    reflexivity.
  - apply (proj2 (check_data_coerces_or_rejects
                    sample_float (World sample_two_bad []) "est" "var"
                    None (Some "lo") (Some "hi") None None None None
                    [("est", msg_estimate)] [("hi", msg_hl)]
                    "lo" msg_ll ["0.25"; "n/a"] eq_refl eq_refl)).
    reflexivity.
Defined.

(** C4, as stated, fails: when the estimates and the lower limits both
    hold a cell that is no number, the error names the estimates, which are
    treated first, and not the lower limits. *)
Lemma check_data_error_names_first_bad_field :
  ~ (forall (py_float : string -> option float) (w : world)
            (estimate varlabel : string) (moerror ll hl : option string)
            (addannote annoteheaders rightannote right_annoteheaders
             : option pyarg)
            (k msg : string) (cells : list string),
        In (k, msg) (fields estimate moerror ll hl) ->
        getcol (frame w) k = Some (Object cells) ->
        parse_all py_float cells = None ->
        exists w',
          check_data py_float estimate varlabel moerror ll hl addannote
                     annoteheaders rightannote right_annoteheaders w
          = (Raise (TypeError msg), w')).
Proof.
  intro Hclaim.
  destruct (Hclaim sample_float (World sample_two_bad []) "est" "var"
                   None (Some "lo") (Some "hi") None None None None
                   "lo" msg_ll ["0.25"; "n/a"])
    as (w' & Hrun).
  - simpl. tauto.
  - reflexivity.
  - reflexivity.
  - vm_compute in Hrun. discriminate Hrun.
Qed.

(** The reservation about [derive] is needed: upper limits read as text
    from a column named "moerror" are cast to 1.5 and 0.75, and then line
    103 assigns estimate - ll, the integers 2 and 3, to that name. *)
Lemma coerced_column_overwritten_by_derivation :
  exists df' w',
    check_data sample_float "est" "var" None (Some "lo") (Some "moerror")
               None None None None (World sample_counts [])
    = (Ok df', w')
    /\ getcol df' "moerror" = Some (Int64 [2; 3]%Z).
Proof. eexists. eexists. split; reflexivity. Qed.


(** C6, as stated, fails: a valid call with [varlabel] in both [addannote]
    and [rightannote] has [varlabel] as an entry of [addannote] and emits
    three warnings, not exactly one. *)
Lemma check_data_one_warning_fails :
  ~ (forall (py_float : string -> option float) (w : world)
            (estimate varlabel : string) (moerror ll hl : option string)
            (addannote annoteheaders rightannote right_annoteheaders
             : option pyarg),
        all_pass py_float (frame w) estimate moerror ll hl = true ->
        ci_ok moerror ll hl = true ->
        derivable (frame w) estimate moerror ll = true ->
        annotations_ok (derived_columns (frame w) moerror ll hl) addannote
                       annoteheaders rightannote right_annoteheaders = true ->
        py_in_opt varlabel addannote = true ->
        exists df' w',
          check_data py_float estimate varlabel moerror ll hl addannote
                     annoteheaders rightannote right_annoteheaders w
          = (Ok df', w')
          /\ List.length (warned w') = List.length (warned w) + 1).
Proof.
  intro Hclaim.
  destruct (Hclaim sample_float (World sample_margins []) "est" "var"
                   (Some "moe") None None
                   (Some (PyList ["var"])) None (Some (PyList ["var"])) None
                   eq_refl eq_refl eq_refl eq_refl eq_refl)
    as (df' & w' & Hrun & Hlen).
  vm_compute in Hrun. inversion Hrun; subst. simpl in Hlen. discriminate Hlen.
Qed.

Lemma check_data_warnings_witness :
  exists df' w',
    check_data sample_float "est" "var" (Some "moe") None None
               (Some (PyList ["var"])) None (Some (PyList ["var"])) None
               (World sample_margins [])
    = (Ok df', w')
    /\ warned w'
       = [msg_duplicate "var" "addannote";
          msg_already_printed "var";
          msg_duplicate "var" "rightannote"]
    /\ List.length (warned w') = 3.
Proof.
  apply (check_data_warnings
           sample_float (World sample_margins []) "est" "var"
           (Some "moe") None None
           (Some (PyList ["var"])) None (Some (PyList ["var"])) None);
    reflexivity.
Defined.


Lemma check_data_missing_column_key_error_witness :
  (exists w',
      check_numeric sample_float "est" (Some "moe") (Some "lower") None
                    (World sample_margins [])
      = (Raise (KeyError "lower"), w')
      /\ check_data sample_float "est" "var" (Some "moe") (Some "lower") None
                    None None None None (World sample_margins [])
         = (Raise (KeyError "lower"), w')
      /\ kind_of (KeyError "lower") = RawKeyLookup)
  /\ (exists k0 msg0 w',
         In (k0, msg0) [("est", msg_estimate)]
         /\ passes sample_float sample_two_bad k0 = false
         /\ check_numeric sample_float "est" (Some "missing") None None
                          (World sample_two_bad [])
            = (Raise (match getcol sample_two_bad k0 with
                      | None => KeyError k0
                      | Some _ => TypeError msg0
                      end), w')
         /\ check_data sample_float "est" "var" (Some "missing") None None
                       None None None None (World sample_two_bad [])
            = (Raise (match getcol sample_two_bad k0 with
                      | None => KeyError k0
                      | Some _ => TypeError msg0
                      end), w')).
Proof.
  split.
  - apply (proj1 (proj2 (check_data_missing_column_key_error
                           sample_float (World sample_margins []) "est" "var"
                           (Some "moe") (Some "lower") None
                           None None None None
                           [("est", msg_estimate); ("moe", msg_moerror)] []
                           "lower" msg_ll eq_refl eq_refl))).
    reflexivity.
  - apply (proj2 (proj2 (check_data_missing_column_key_error
                           sample_float (World sample_two_bad []) "est" "var"
                           (Some "missing") None None None None None None
                           [("est", msg_estimate)] []
                           "missing" msg_moerror eq_refl eq_refl))).
    reflexivity.
Defined.

(** C10, as stated, fails: when the estimates hold a cell that is no number
    and [moerror] names a column the table does not have, the call fails
    with the [TypeError] of the estimates, raised first, and not with a
    key-lookup error. *)
Lemma check_data_type_error_before_key_error :
  ~ (forall (py_float : string -> option float) (w : world)
            (estimate varlabel : string) (moerror ll hl : option string)
            (addannote annoteheaders rightannote right_annoteheaders
             : option pyarg) (k : string),
        In k (map fst (fields estimate moerror ll hl)) ->
        getcol (frame w) k = None ->
        exists e w',
          check_data py_float estimate varlabel moerror ll hl addannote
                     annoteheaders rightannote right_annoteheaders w
          = (Raise e, w')
          /\ kind_of e = RawKeyLookup).
Proof.
  intro Hclaim.
  destruct (Hclaim sample_float (World sample_two_bad []) "est" "var"
                   (Some "missing") None None None None None None "missing")
    as (e & w' & Hrun & Hkind).
  - simpl. tauto.
  - reflexivity.
  - vm_compute in Hrun. inversion Hrun; subst e. discriminate Hkind.
Qed.

(** * Further properties of [check_data] *)

Section Outcomes.

Variable py_float : string -> option float.

(** The numeric step never adds, removes or reorders columns, whatever its
    outcome. *)
Lemma coerce_fields_columns (fs : list (string * string)) (df df1 : DataFrame)
      (r : result unit) :
  coerce_fields py_float fs df = (r, df1) -> columns df1 = columns df.
Proof.
  revert df. induction fs as [|[k msg] fs IH]; intros df Hrun; simpl in Hrun.
  - now inversion Hrun.
  - destruct (getcol df k) as [c|] eqn:Hc; [|now inversion Hrun].
    destruct (coerce_column py_float c) as [c'|]; [|now inversion Hrun].
    rewrite (IH _ Hrun). exact (columns_setcol_known _ _ _ _ Hc).
Qed.

(** It leaves the columns it is not asked about as they are. *)
Lemma coerce_fields_untouched (fs : list (string * string))
      (df df1 : DataFrame) (r : result unit) (n : string) :
  coerce_fields py_float fs df = (r, df1) ->
  ~ In n (map fst fs) -> getcol df1 n = getcol df n.
Proof.
  revert df. induction fs as [|[k msg] fs IH]; intros df Hrun Hn;
    simpl in Hrun.
  - now inversion Hrun.
  - simpl in Hn. destruct (getcol df k) as [c|]; [|now inversion Hrun].
    destruct (coerce_column py_float c) as [c'|]; [|now inversion Hrun].
    rewrite (IH _ Hrun) by tauto. apply getcol_setcol_other. tauto.
Qed.

(** A failure of the numeric step has a cause in the input frame: a field
    whose column is missing, or is an object column with a cell that does
    not parse, every field before it passing. *)
Lemma coerce_fields_raise_inv (fs : list (string * string))
      (df df1 : DataFrame) (e : exn) :
  coerce_fields py_float fs df = (Raise e, df1) ->
  exists before k msg after,
    fs = (before ++ (k, msg) :: after)%list
    /\ Forall (fun f => passes py_float df (fst f) = true) before
    /\ ((getcol df k = None /\ e = KeyError k)
        \/ (exists cells,
               getcol df k = Some (Object cells)
               /\ parse_all py_float cells = None /\ e = TypeError msg)).
Proof.
  revert df. induction fs as [|[k msg] fs IH]; intros df Hrun; simpl in Hrun.
  - discriminate Hrun.
  - destruct (getcol df k) as [c|] eqn:Hc.
    + destruct (coerce_column py_float c) as [c'|] eqn:Hc'.
      * destruct (IH _ Hrun) as (before & k2 & msg2 & after & Hfs & Hpass & Hcause).
        assert (Hnum : is_numeric_dtype c' = true)
          by exact (coerce_column_numeric _ _ _ Hc').
        exists ((k, msg) :: before), k2, msg2, after.
        split; [now rewrite Hfs|]. split.
        { constructor.
          - simpl. unfold passes. now rewrite Hc, Hc'.
          - rewrite Forall_forall in *. intros [k3 msg3] Hin.
            specialize (Hpass _ Hin). simpl in *. unfold passes in *.
            rewrite getcol_setcol in Hpass.
            destruct (String.eqb k k3) eqn:Hk3; [|exact Hpass].
            apply String.eqb_eq in Hk3. subst k3. now rewrite Hc, Hc'. }
        rewrite getcol_setcol in Hcause.
        destruct (String.eqb k k2) eqn:Hk2; [|exact Hcause].
        destruct Hcause as [[Habs _] | (cells & Hobj & _)];
          [discriminate Habs|].
        inversion Hobj; subst c'. discriminate Hnum.
      * inversion Hrun; subst. exists [], k, msg, fs.
        split; [reflexivity|]. split; [constructor|]. right.
        unfold coerce_column in Hc'. destruct c as [xs|xs|xs|xs];
          try discriminate Hc'.
        simpl in Hc'. exists xs. split; [exact Hc|].
        destruct (parse_all py_float xs); [discriminate Hc' | tauto].
    + inversion Hrun; subst. exists [], k, msg, fs.
      split; [reflexivity|]. split; [constructor|]. left. tauto.
Qed.

(** An error of lines 114-178 has its cause in the arguments. *)
Lemma annotation_error_inv (cols : list string)
      (addannote annoteheaders rightannote right_annoteheaders : option pyarg)
      (e : exn) :
  annotation_error cols addannote annoteheaders rightannote
                   right_annoteheaders = Some e ->
  (exists name arg,
      In (name, arg) (annotation_args addannote annoteheaders rightannote
                                      right_annoteheaders)
      /\ list_like_opt arg = false
      /\ e = TypeError (name ++ " should be list-like."))
  \/ (same_length addannote annoteheaders = false
      /\ e = AssertionError
               "addannote and annoteheaders should have same length.")
  \/ (same_length rightannote right_annoteheaders = false
      /\ e = AssertionError
               "rightannote and right_annoteheaders should have same length.")
  \/ (exists col,
         In col (entries_opt addannote ++ entries_opt rightannote)
         /\ known cols col = false
         /\ e = AssertionError (msg_not_found col)).
Proof.
  unfold annotation_error, annotation_args.
  destruct (list_like_opt addannote) eqn:H1; simpl.
  2:{ intro H. inversion H. left. exists "addannote", addannote.
      simpl. tauto. }
  destruct (list_like_opt annoteheaders) eqn:H2; simpl.
  2:{ intro H. inversion H. left. exists "annoteheaders", annoteheaders.
      simpl. tauto. }
  destruct (list_like_opt rightannote) eqn:H3; simpl.
  2:{ intro H. inversion H. left. exists "rightannote", rightannote.
      simpl. tauto. }
  destruct (list_like_opt right_annoteheaders) eqn:H4; simpl.
  2:{ intro H. inversion H. left.
      exists "right_annoteheaders", right_annoteheaders. simpl. tauto. }
  destruct (same_length addannote annoteheaders) eqn:H5; simpl.
  2:{ intro H. inversion H. right. left. tauto. }
  destruct (same_length rightannote right_annoteheaders) eqn:H6; simpl.
  2:{ intro H. inversion H. right. right. left. tauto. }
  destruct (first_unknown cols _) as [col|] eqn:Hf; [|discriminate].
  intro H. inversion H. right. right. right. exists col.
  unfold first_unknown in Hf. apply find_some in Hf. destruct Hf as [Hin Hk].
  apply negb_true_iff in Hk. tauto.
Qed.

Lemma same_length_false (arg headers : option pyarg) :
  same_length arg headers = false ->
  exists a h, arg = Some a /\ headers = Some h /\ len a <> len h.
Proof.
  destruct arg as [a|], headers as [h|]; simpl; try discriminate.
  intro H. exists a, h. repeat split. now apply Nat.eqb_neq.
Qed.

(** The two boolean columns behind a refused subtraction. *)
Lemma derivable_false (df : DataFrame) (estimate : string)
      (moerror ll : option string) :
  derivable df estimate moerror ll = false ->
  exists k,
    subtrahend moerror ll = Some k
    /\ bool_at df estimate = true /\ bool_at df k = true.
Proof.
  unfold derivable. destruct (subtrahend moerror ll) as [k|]; [|discriminate].
  intro H. apply negb_false_iff, andb_true_iff in H. exists k. tauto.
Qed.

(** X1. A [KeyError] of [check_data] always has its cause in the call: its
    key is one of the supplied column arguments, the input table has no
    column of that name, and the error comes out of the numeric step. *)
Theorem check_data_key_error_cause :
  forall (w w' : world) (estimate varlabel : string)
         (moerror ll hl : option string)
         (addannote annoteheaders rightannote right_annoteheaders
          : option pyarg) (k : string),
    check_data py_float estimate varlabel moerror ll hl addannote
               annoteheaders rightannote right_annoteheaders w
    = (Raise (KeyError k), w') ->
    In k (map fst (fields estimate moerror ll hl))
    /\ getcol (frame w) k = None
    /\ check_numeric py_float estimate moerror ll hl w
       = (Raise (KeyError k), w').
Proof.
  intros w w' estimate varlabel moerror ll hl a ah r rh k Hrun.
  destruct (check_data_cases _ _ _ _ _ _ _ _ _ _ _ _ _ Hrun)
    as [(e & df1 & Hco & He & Hw) | [(df1 & _ & _ & He & _)
       | [(df1 & _ & _ & _ & He & _)
       | (df1 & df2 & _ & _ & _ & _ & _ & _
          & [(e & Hann & He & _) | (_ & He & _)])]]];
    try discriminate He.
  - inversion He; subst e.
    destruct (coerce_fields_raise_inv _ _ _ _ Hco)
      as (before & k2 & msg & after & Hfs & _ & [[Habs Hk] | (cells & _ & _ & Hk)]);
      [|discriminate Hk].
    inversion Hk; subst k2. split; [|split].
    + rewrite Hfs, map_app. apply in_or_app. right. simpl. tauto.
    + exact Habs.
    + rewrite check_numeric_fields, ensure_all_run, Hco, Hw. reflexivity.
  - inversion He; subst e. apply annotation_error_inv in Hann.
    destruct Hann as [(? & ? & _ & _ & H) | [[_ H] | [[_ H] | (? & _ & _ & H)]]];
      discriminate H.
Qed.

(** X2. A [TypeError] of [check_data], called on any Python value as
    [dataframe], has one of four causes: the value is not a DataFrame
    (line 52); a supplied column argument has a column of dtype object with
    a cell that [float] rejects, the message being that argument's; the
    estimate and the column that lines 103 or 107 subtract from it are both
    boolean, the error being numpy's; or a supplied annotation argument is
    not list-like, the message naming it. *)
Theorem check_data_type_error_cause :
  forall (dataframe : pyobject) (w w' : world) (estimate varlabel : string)
         (moerror ll hl : option string)
         (addannote annoteheaders rightannote right_annoteheaders
          : option pyarg) (msg : string),
    check_data_on py_float dataframe estimate varlabel moerror ll hl
                  addannote annoteheaders rightannote right_annoteheaders w
    = (Raise (TypeError msg), w') ->
    (dataframe = NotAFrame /\ msg = "Expect data as Pandas DataFrame")
    \/ (dataframe = TheFrame
        /\ exists k cells,
            In (k, msg) (fields estimate moerror ll hl)
            /\ getcol (frame w) k = Some (Object cells)
            /\ parse_all py_float cells = None)
    \/ (dataframe = TheFrame
        /\ msg = msg_bool_subtract
        /\ exists k,
            subtrahend moerror ll = Some k
            /\ bool_at (frame w) estimate = true
            /\ bool_at (frame w) k = true)
    \/ (dataframe = TheFrame
        /\ exists name arg,
            In (name, Some arg)
               (annotation_args addannote annoteheaders rightannote
                                right_annoteheaders)
            /\ is_list_like arg = false
            /\ msg = name ++ " should be list-like.").
Proof.
  intros dataframe w w' estimate varlabel moerror ll hl a ah r rh msg Hrun.
  destruct dataframe; simpl in Hrun.
  2:{ left. inversion Hrun. now split. }
  right.
  destruct (check_data_cases _ _ _ _ _ _ _ _ _ _ _ _ _ Hrun)
    as [(e & df1 & Hco & He & Hw) | [(df1 & _ & _ & He & _)
       | [(df1 & _ & _ & Hd & He & _)
       | (df1 & df2 & _ & _ & _ & _ & _ & _
          & [(e & Hann & He & _) | (_ & He & _)])]]];
    try discriminate He.
  - inversion He; subst e. left. split; [reflexivity|].
    destruct (coerce_fields_raise_inv _ _ _ _ Hco)
      as (before & k & msg2 & after & Hfs & _ & [[_ Hk] | (cells & Hobj & Hbad & Hk)]);
      [discriminate Hk|].
    inversion Hk; subst msg2. exists k, cells. split; [|tauto].
    rewrite Hfs. apply in_or_app. right. simpl. tauto.
  - inversion He. right. left. split; [reflexivity|]. split; [reflexivity|].
    exact (derivable_false _ _ _ _ Hd).
  - inversion He; subst e. apply annotation_error_inv in Hann. right. right.
    split; [reflexivity|].
    destruct Hann as [(name & arg & Hin & Hll & H) | [[_ H] | [[_ H] | (? & _ & _ & H)]]];
      try discriminate H.
    inversion H. destruct arg as [arg|]; [|discriminate Hll].
    exists name, arg. tauto.
Qed.

(** X3. An [AssertionError] of [check_data] has one of four causes:
    [moerror] is absent together with [ll] or [hl]; [addannote] and
    [annoteheaders] are both supplied with different lengths; so are
    [rightannote] and [right_annoteheaders]; or an entry of [addannote] or
    [rightannote] is neither a column of the table after derivation nor an
    acceptable annotation, the message naming that entry. *)
Theorem check_data_assertion_error_cause :
  forall (w w' : world) (estimate varlabel : string)
         (moerror ll hl : option string)
         (addannote annoteheaders rightannote right_annoteheaders
          : option pyarg) (msg : string),
    check_data py_float estimate varlabel moerror ll hl addannote
               annoteheaders rightannote right_annoteheaders w
    = (Raise (AssertionError msg), w') ->
    (msg = msg_need_ll_hl /\ moerror = None /\ (ll = None \/ hl = None))
    \/ (msg = "addannote and annoteheaders should have same length."
        /\ exists a h,
            addannote = Some a /\ annoteheaders = Some h /\ len a <> len h)
    \/ (msg = "rightannote and right_annoteheaders should have same length."
        /\ exists a h,
            rightannote = Some a /\ right_annoteheaders = Some h
            /\ len a <> len h)
    \/ (exists col,
           In col (entries_opt addannote ++ entries_opt rightannote)
           /\ known (derived_columns (frame w) moerror ll hl) col = false
           /\ msg = "the field " ++ col ++ " is not found in dataframe.").
Proof.
  intros w w' estimate varlabel moerror ll hl a ah r rh msg Hrun.
  destruct (check_data_cases _ _ _ _ _ _ _ _ _ _ _ _ _ Hrun)
    as [(e & df1 & Hco & He & Hw) | [(df1 & _ & Hci & He & _)
       | [(df1 & _ & _ & _ & He & _)
       | (df1 & df2 & _ & _ & _ & Hfrom & _ & Hder
          & [(e & Hann & He & _) | (_ & He & _)])]]];
    try discriminate He.
  - inversion He; subst e.
    destruct (coerce_fields_raise_inv _ _ _ _ Hco)
      as (? & ? & ? & ? & _ & _ & [[_ Hk] | (? & _ & _ & Hk)]);
      discriminate Hk.
  - inversion He. left. split; [reflexivity|].
    destruct moerror, ll, hl; try discriminate Hci; tauto.
  - inversion He; subst e. apply annotation_error_inv in Hann.
    destruct Hann as [(? & ? & _ & _ & H) | [[Hlen H] | [[Hlen H] | (col & Hin & Hk & H)]]];
      try discriminate H; inversion H.
    + right. left. split; [reflexivity|]. now apply same_length_false.
    + right. right. left. split; [reflexivity|]. now apply same_length_false.
    + right. right. right. exists col. split; [exact Hin|].
      split; [|reflexivity].
      destruct Hder as (Hcols & _). rewrite Hcols in Hk.
      unfold derived_columns, fresh_in. unfold fresh_in in Hk.
      now rewrite (proj1 Hfrom) in Hk.
Qed.

(** X4. The second test of the interval arguments, lines 93-99, is dead:
    no [AssertionError] of [check_data] ever carries its message 'If "ll,
    hl" is not provided, then "moerror" must be provided.', because whenever
    that test could fail the test of lines 85-91 has already raised. *)
Theorem check_data_never_asks_for_moerror :
  forall (w w' : world) (estimate varlabel : string)
         (moerror ll hl : option string)
         (addannote annoteheaders rightannote right_annoteheaders
          : option pyarg) (msg : string),
    check_data py_float estimate varlabel moerror ll hl addannote
               annoteheaders rightannote right_annoteheaders w
    = (Raise (AssertionError msg), w') ->
    msg <> msg_need_moerror.
Proof.
  intros w w' estimate varlabel moerror ll hl a ah r rh msg Hrun Hmsg.
  subst msg.
  destruct (check_data_cases _ _ _ _ _ _ _ _ _ _ _ _ _ Hrun)
    as [(e & df1 & Hco & He & Hw) | [(df1 & _ & Hci & He & _)
       | [(df1 & _ & _ & _ & He & _)
       | (df1 & df2 & _ & _ & _ & _ & _ & _
          & [(e & Hann & He & _) | (_ & He & _)])]]];
    try discriminate He.
  - inversion He; subst e.
    destruct (coerce_fields_raise_inv _ _ _ _ Hco)
      as (? & ? & ? & ? & _ & _ & [[_ Hk] | (? & _ & _ & Hk)]);
      discriminate Hk.
  - inversion He; subst e. apply annotation_error_inv in Hann.
    destruct Hann as [(? & ? & _ & _ & H) | [[_ H] | [[_ H] | (? & _ & _ & H)]]];
      discriminate H.
Qed.

(** X5. A call that fails emits no warning, and no call drops a warning
    that was emitted before it: the warnings of lines 184-194 are the last
    thing a call does. *)
Theorem check_data_failure_is_silent :
  forall (w w' : world) (r : result DataFrame) (estimate varlabel : string)
         (moerror ll hl : option string)
         (addannote annoteheaders rightannote right_annoteheaders
          : option pyarg),
    check_data py_float estimate varlabel moerror ll hl addannote
               annoteheaders rightannote right_annoteheaders w = (r, w') ->
    (exists emitted, warned w' = (warned w ++ emitted)%list)
    /\ (forall e, r = Raise e -> warned w' = warned w).
Proof.
  intros w w' res estimate varlabel moerror ll hl a ah r rh Hrun.
  destruct (check_data_cases _ _ _ _ _ _ _ _ _ _ _ _ _ Hrun)
    as [(e & df1 & _ & He & Hw) | [(df1 & _ & _ & He & Hw)
       | [(df1 & _ & _ & _ & He & Hw)
       | (df1 & df2 & _ & _ & _ & _ & _ & _
          & [(e & _ & He & Hw) | (_ & He & Hw)])]]];
    subst w' res; simpl; split;
    try (exists []; now rewrite app_nil_r); try reflexivity; try discriminate;
    eauto.
Qed.

(** X6. Whatever its outcome, a call removes and reorders no column: the
    column names it leaves are those of the input followed by names among
    "moerror", "ll", "hl" of absent arguments; and a column other than
    those three names is left exactly as it was when it is already numeric
    or is not named by a column argument (so integer columns stay integer
    and text columns that are not interval columns stay text). *)
Theorem check_data_keeps_columns :
  forall (w w' : world) (r : result DataFrame) (estimate varlabel : string)
         (moerror ll hl : option string)
         (addannote annoteheaders rightannote right_annoteheaders
          : option pyarg),
    check_data py_float estimate varlabel moerror ll hl addannote
               annoteheaders rightannote right_annoteheaders w = (r, w') ->
    (exists added,
        columns (frame w') = (columns (frame w) ++ added)%list
        /\ incl added (derived_names moerror ll hl))
    /\ (forall n c,
           getcol (frame w) n = Some c ->
           ~ In n (derived_names moerror ll hl) ->
           ~ In n (map fst (fields estimate moerror ll hl))
           \/ is_numeric_dtype c = true ->
           getcol (frame w') n = Some c).
Proof.
  intros w w' res estimate varlabel moerror ll hl a ah r rh Hrun.
  assert (Hearly : forall r1 df1 n c,
             coerce_fields py_float (fields estimate moerror ll hl) (frame w)
             = (r1, df1) ->
             getcol (frame w) n = Some c ->
             ~ In n (map fst (fields estimate moerror ll hl))
             \/ is_numeric_dtype c = true ->
             getcol df1 n = Some c).
  { intros r1 df1 n c Hco Hc [Hn | Hnum].
    - now rewrite (coerce_fields_untouched _ _ _ _ _ Hco Hn).
    - exact (coerce_fields_keeps_numeric py_float _ _ _ _ _ _ Hco Hc Hnum). }
  assert (Hsame : forall r1 df1,
             coerce_fields py_float (fields estimate moerror ll hl) (frame w)
             = (r1, df1) ->
             w' = World df1 (warned w) ->
             (exists added,
                 columns (frame w') = (columns (frame w) ++ added)%list
                 /\ incl added (derived_names moerror ll hl))
             /\ (forall n c,
                    getcol (frame w) n = Some c ->
                    ~ In n (derived_names moerror ll hl) ->
                    ~ In n (map fst (fields estimate moerror ll hl))
                    \/ is_numeric_dtype c = true ->
                    getcol (frame w') n = Some c)).
  { intros r1 df1 Hco ->. simpl. split; [|eauto].
    exists []. rewrite app_nil_r. split.
    - exact (coerce_fields_columns _ _ _ _ Hco).
    - intros x []. }
  destruct (check_data_cases _ _ _ _ _ _ _ _ _ _ _ _ _ Hrun)
    as [(e & df1 & Hco & _ & Hw) | [(df1 & Hco & _ & _ & Hw)
       | [(df1 & Hco & _ & _ & _ & Hw)
       | (df1 & df2 & Hco & _ & _ & _ & _ & Hder & Hend)]]];
    eauto.
  assert (Hframe : frame w' = df2)
    by (destruct Hend as [(e & _ & _ & Hw) | (_ & _ & Hw)]; now subst w').
  rewrite Hframe. destruct Hder as (Hcols & Hkeep & _). split.
  - exists (fresh_in df1 (derived_names moerror ll hl)).
    rewrite Hcols, (coerce_fields_columns _ _ _ _ Hco). split; [reflexivity|].
    unfold fresh_in. intros x Hx. apply filter_In in Hx. tauto.
  - intros n c Hc Hd Hwhy. rewrite (Hkeep n Hd). eauto.
Qed.

(** X7. Nothing is rolled back.  A call that fails before lines 101-109
    (a column argument does not pass, or the interval arguments are
    incomplete) leaves the column names of the input; a call that fails in
    the annotation checks of lines 114-178, which it reaches when the
    derivation raised nothing, leaves the table with the derived columns
    already in it. *)
Theorem check_data_failure_leaves :
  forall (w : world) (estimate varlabel : string) (moerror ll hl : option string)
         (addannote annoteheaders rightannote right_annoteheaders
          : option pyarg),
    ((all_pass py_float (frame w) estimate moerror ll hl
      && ci_ok moerror ll hl)%bool = false ->
     exists e w',
       check_data py_float estimate varlabel moerror ll hl addannote
                  annoteheaders rightannote right_annoteheaders w
       = (Raise e, w')
       /\ columns (frame w') = columns (frame w))
    /\ (all_pass py_float (frame w) estimate moerror ll hl = true ->
        ci_ok moerror ll hl = true ->
        derivable (frame w) estimate moerror ll = true ->
        annotations_ok (derived_columns (frame w) moerror ll hl) addannote
                       annoteheaders rightannote right_annoteheaders = false ->
        exists e w',
          check_data py_float estimate varlabel moerror ll hl addannote
                     annoteheaders rightannote right_annoteheaders w
          = (Raise e, w')
          /\ columns (frame w') = derived_columns (frame w) moerror ll hl).
Proof.
  intros w estimate varlabel moerror ll hl a ah r rh. split.
  - intro Hbad. rewrite check_data_eq.
    destruct (all_pass py_float (frame w) estimate moerror ll hl) eqn:Hall.
    + simpl in Hbad. apply all_pass_Forall in Hall.
      destruct (coerce_fields_passes py_float _ _ Hall) as (df1 & Hrun & Hco).
      rewrite Hrun, Hbad. eexists. eexists. split; [reflexivity|].
      exact (proj1 Hco).
    + destruct (all_pass_false_raises _ _ _ _ _ _ Hall) as (e & df1 & Hco).
      rewrite Hco. eexists. eexists. split; [reflexivity|].
      exact (coerce_fields_columns _ _ _ _ Hco).
  - intros Hall Hci Hd Hann.
    destruct (all_pass_prepared py_float estimate varlabel moerror ll hl
                                a ah r rh w Hall Hci Hd)
      as (df2 & Hcols & Heq).
    rewrite Heq.
    destruct (annotation_error (columns df2) a ah r rh) as [e|] eqn:He.
    + eexists. eexists. split; [reflexivity|]. exact Hcols.
    + rewrite Hcols in He. apply annotation_error_none in He. congruence.
Qed.

(** X8. When the numeric step stops at a column argument, the columns of
    the arguments treated before it have been cast and stay cast; the
    column it stopped at, and every column not named before it, are as they
    were. *)
Theorem check_data_numeric_failure_state :
  forall (w : world) (estimate varlabel : string) (moerror ll hl : option string)
         (addannote annoteheaders rightannote right_annoteheaders
          : option pyarg)
         (before after : list (string * string)) (k msg : string),
    fields estimate moerror ll hl = (before ++ (k, msg) :: after)%list ->
    forallb (fun f => passes py_float (frame w) (fst f)) before = true ->
    passes py_float (frame w) k = false ->
    exists e w',
      check_data py_float estimate varlabel moerror ll hl addannote
                 annoteheaders rightannote right_annoteheaders w
      = (Raise e, w')
      /\ columns (frame w') = columns (frame w)
      /\ forall n,
          getcol (frame w') n
          = option_map (fun c => if contains (map fst before) n
                                 then coerced py_float c else c)
                       (getcol (frame w) n).
Proof.
  intros w estimate varlabel moerror ll hl a ah r rh before after k msg
         Hfields Hbefore Hk.
  apply all_pass_Forall in Hbefore.
  destruct (coerce_fields_passes py_float _ _ Hbefore)
    as (dfb & Hrun & Hcols & Hget).
  assert (Hstop : exists e,
             coerce_fields py_float ((k, msg) :: after) dfb = (Raise e, dfb)).
  { simpl. rewrite Hget. unfold passes in Hk.
    destruct (getcol (frame w) k) as [c|]; simpl; [|eauto].
    destruct (coerce_column py_float c) as [c'|] eqn:Hc; [discriminate|].
    assert (Hsame : (if contains (map fst before) k
                     then coerced py_float c else c) = c).
    { unfold coerced. rewrite Hc. now destruct (contains _ k). }
    rewrite Hsame, Hc. eauto. }
  destruct Hstop as (e & Hstop).
  exists e, (World dfb (warned w)).
  rewrite check_data_eq, Hfields, coerce_fields_app, Hrun, Hstop.
  repeat split; assumption.
Qed.

(** X9. [varlabel] is never looked up in the table: it has no part in
    whether a call fails, in the error it fails with or in the table it
    leaves; it only selects the warnings. *)
Theorem check_data_ignores_varlabel :
  forall (w : world) (estimate varlabel varlabel' : string)
         (moerror ll hl : option string)
         (addannote annoteheaders rightannote right_annoteheaders
          : option pyarg),
    fst (check_data py_float estimate varlabel moerror ll hl addannote
                    annoteheaders rightannote right_annoteheaders w)
    = fst (check_data py_float estimate varlabel' moerror ll hl addannote
                      annoteheaders rightannote right_annoteheaders w)
    /\ frame (snd (check_data py_float estimate varlabel moerror ll hl
                              addannote annoteheaders rightannote
                              right_annoteheaders w))
       = frame (snd (check_data py_float estimate varlabel' moerror ll hl
                                addannote annoteheaders rightannote
                                right_annoteheaders w)).
Proof.
  intros w estimate varlabel varlabel' moerror ll hl a ah r rh.
  rewrite !check_data_eq.
  destruct (coerce_fields py_float (fields estimate moerror ll hl) (frame w))
    as [[[]|e] df1]; [|split; reflexivity].
  destruct (ci_ok moerror ll hl); [|split; reflexivity].
  destruct (derive estimate moerror ll hl (World df1 (warned w)))
    as [[[]|e] w2]; [|split; reflexivity].
  destruct (annotation_error _ _ _ _ _); split; reflexivity.
Qed.

(** X10. The entries of [annoteheaders] and [right_annoteheaders] are never
    inspected: a call with other headers that are list-like when the first
    ones are, and agree in length with the annotations when the first ones
    do, has the same outcome and leaves the same state. *)
Theorem check_data_headers_unread :
  forall (w : world) (estimate varlabel : string) (moerror ll hl : option string)
         (addannote annoteheaders rightannote right_annoteheaders
          annoteheaders' right_annoteheaders' : option pyarg),
    list_like_opt annoteheaders' = list_like_opt annoteheaders ->
    list_like_opt right_annoteheaders' = list_like_opt right_annoteheaders ->
    same_length addannote annoteheaders'
    = same_length addannote annoteheaders ->
    same_length rightannote right_annoteheaders'
    = same_length rightannote right_annoteheaders ->
    check_data py_float estimate varlabel moerror ll hl addannote
               annoteheaders' rightannote right_annoteheaders' w
    = check_data py_float estimate varlabel moerror ll hl addannote
                 annoteheaders rightannote right_annoteheaders w.
Proof.
  intros w estimate varlabel moerror ll hl a ah r rh ah' rh' H1 H2 H3 H4.
  rewrite !check_data_eq.
  assert (Hann : forall cols,
             annotation_error cols a ah' r rh' = annotation_error cols a ah r rh).
  { intro cols. unfold annotation_error. now rewrite H1, H2, H3, H4. }
  destruct (coerce_fields py_float (fields estimate moerror ll hl) (frame w))
    as [[[]|e] df1]; [|reflexivity].
  destruct (ci_ok moerror ll hl); [|reflexivity].
  destruct (derive estimate moerror ll hl (World df1 (warned w)))
    as [[[]|e] w2]; [|reflexivity].
  now rewrite Hann.
Qed.

(** X11. For a call that reaches lines 114-155 (its columns pass, its
    interval arguments are complete and the derivation raised nothing): the
    first annotation argument that is not list-like, in the order
    [addannote], [annoteheaders], [rightannote], [right_annoteheaders],
    gives the [TypeError] "<name> should be list-like."; with all four
    list-like, a length mismatch between [addannote] and [annoteheaders]
    gives their [AssertionError], and otherwise one between [rightannote] and
    [right_annoteheaders] gives theirs.  All of this comes before the entries
    are looked up, so it holds whether or not they name columns. *)
Theorem check_data_annotation_shape_errors :
  forall (w : world) (estimate varlabel : string) (moerror ll hl : option string)
         (addannote annoteheaders rightannote right_annoteheaders
          : option pyarg),
    all_pass py_float (frame w) estimate moerror ll hl = true ->
    ci_ok moerror ll hl = true ->
    derivable (frame w) estimate moerror ll = true ->
    (forall before name arg after,
        annotation_args addannote annoteheaders rightannote
                        right_annoteheaders
        = (before ++ (name, arg) :: after)%list ->
        forallb (fun p => list_like_opt (snd p)) before = true ->
        list_like_opt arg = false ->
        exists w',
          check_data py_float estimate varlabel moerror ll hl addannote
                     annoteheaders rightannote right_annoteheaders w
          = (Raise (TypeError (name ++ " should be list-like.")), w'))
    /\ (forallb (fun p => list_like_opt (snd p))
                (annotation_args addannote annoteheaders rightannote
                                 right_annoteheaders) = true ->
        same_length addannote annoteheaders = false ->
        exists w',
          check_data py_float estimate varlabel moerror ll hl addannote
                     annoteheaders rightannote right_annoteheaders w
          = (Raise (AssertionError
                      "addannote and annoteheaders should have same length."),
             w'))
    /\ (forallb (fun p => list_like_opt (snd p))
                (annotation_args addannote annoteheaders rightannote
                                 right_annoteheaders) = true ->
        same_length addannote annoteheaders = true ->
        same_length rightannote right_annoteheaders = false ->
        exists w',
          check_data py_float estimate varlabel moerror ll hl addannote
                     annoteheaders rightannote right_annoteheaders w
          = (Raise (AssertionError
                      "rightannote and right_annoteheaders should have same length."),
             w')).
Proof.
  intros w estimate varlabel moerror ll hl a ah r rh Hall Hci Hd.
  destruct (all_pass_prepared py_float estimate varlabel moerror ll hl
                              a ah r rh w Hall Hci Hd)
    as (df2 & _ & Heq).
  rewrite Heq. unfold annotation_error, annotation_args.
  split; [|split].
  - intros before name arg after Hsplit Hbefore Harg.
    destruct before as [|[n1 a1] [|[n2 a2] [|[n3 a3] [|[n4 a4] before]]]];
      simpl in Hsplit; inversion Hsplit; subst; simpl in Hbefore;
      repeat (apply andb_true_iff in Hbefore; destruct Hbefore as [? Hbefore]);
      repeat match goal with
        | Hx : list_like_opt ?x = _ |- context [negb (list_like_opt ?x)] =>
            rewrite Hx; simpl
        end; eauto.
    destruct before; discriminate.
  - simpl. intros Hlike Hlen.
    repeat (apply andb_true_iff in Hlike; destruct Hlike as [? Hlike]).
    repeat match goal with
      | Hx : list_like_opt ?x = _ |- context [negb (list_like_opt ?x)] =>
          rewrite Hx; simpl
      end.
    rewrite Hlen. simpl. eauto.
  - simpl. intros Hlike Hlen Hlen'.
    repeat (apply andb_true_iff in Hlike; destruct Hlike as [? Hlike]).
    repeat match goal with
      | Hx : list_like_opt ?x = _ |- context [negb (list_like_opt ?x)] =>
          rewrite Hx; simpl
      end.
    rewrite Hlen, Hlen'. simpl. eauto.
Qed.

End Outcomes.

(** ** The row count, step by step *)

Lemma triple_ret {A : Type} (I : world -> Prop) (a : A) (Q : A -> Prop) :
  Q a -> triple I (ret a) Q.
Proof.
  intros Ha w r w' Hrun Hw. inversion Hrun; subst. split; [exact Hw|].
  intros a' Heq. inversion Heq; subst. exact Ha.
Qed.

Lemma triple_raise {A : Type} (I : world -> Prop) (e : exn) (Q : A -> Prop) :
  triple I (raise e) Q.
Proof.
  intros w r w' Hrun Hw. inversion Hrun; subst. split; [exact Hw|].
  discriminate.
Qed.

Lemma triple_bind {A B : Type} (I : world -> Prop) (m : py A) (k : A -> py B)
      (Q : A -> Prop) (R : B -> Prop) :
  triple I m Q -> (forall a, Q a -> triple I (k a) R) ->
  triple I (bind m k) R.
Proof.
  intros Hm Hk w r w' Hrun Hw. unfold bind in Hrun.
  destruct (m w) as [[a|e] w1] eqn:Hmw.
  - destruct (Hm _ _ _ Hmw Hw) as [Hw1 Ha].
    exact (Hk a (Ha a eq_refl) _ _ _ Hrun Hw1).
  - inversion Hrun; subst. destruct (Hm _ _ _ Hmw Hw) as [Hw1 _].
    split; [exact Hw1 | discriminate].
Qed.

Lemma triple_weaken {A : Type} (I : world -> Prop) (m : py A)
      (Q R : A -> Prop) :
  triple I m Q -> (forall a, Q a -> R a) -> triple I m R.
Proof.
  intros Hm HQR w r w' Hrun Hw. destruct (Hm _ _ _ Hrun Hw) as [Hw' Ha].
  split; [exact Hw'|]. intros a Heq. exact (HQR a (Ha a Heq)).
Qed.

Lemma triple_when (I : world -> Prop) (cond : bool) (body : py unit) :
  triple I body (fun _ => True) -> triple I (when cond body) (fun _ => True).
Proof.
  destruct cond; simpl; intro H; [exact H | now apply triple_ret].
Qed.

Lemma triple_assert_or (I : world -> Prop) (cond : bool) (e : exn) :
  triple I (assert_or cond e) (fun _ => True).
Proof.
  destruct cond; simpl; [now apply triple_ret | apply triple_raise].
Qed.

Section Rows.

Variable n : nat.

Lemma uniform_rows_getcol (df : DataFrame) (k : string) (c : column) :
  uniform_rows n df = true -> getcol df k = Some c -> rows c = n.
Proof.
  induction df as [|[k0 c0] df IH]; simpl; [discriminate|].
  rewrite andb_true_iff. intros [H0 Hrest].
  destruct (String.eqb k0 k).
  - intro H. inversion H; subst. now apply Nat.eqb_eq.
  - now apply IH.
Qed.

Lemma uniform_rows_setcol (df : DataFrame) (k : string) (c : column) :
  uniform_rows n df = true -> rows c = n ->
  uniform_rows n (setcol df k c) = true.
Proof.
  intros Hdf Hc. induction df as [|[k0 c0] df IH]; simpl in *.
  - now rewrite Hc, Nat.eqb_refl.
  - apply andb_true_iff in Hdf. destruct Hdf as [H0 Hrest].
    destruct (String.eqb k0 k); simpl.
    + now rewrite Hc, Nat.eqb_refl, Hrest.
    + now rewrite H0, (IH Hrest).
Qed.

Lemma map2_length {A B C : Type} (f : A -> B -> C) (xs : list A) (ys : list B) :
  List.length xs = List.length ys ->
  List.length (map2 f xs ys) = List.length xs.
Proof.
  revert ys. induction xs as [|x xs IH]; intros [|y ys]; simpl;
    try reflexivity; try discriminate.
  intro H. now rewrite IH by (now inversion H).
Qed.

Lemma series_binop_rows (ff : float -> float -> float) (fz : Z -> Z -> Z)
      (fb : option (bool -> bool -> bool)) (a b d : column) :
  series_binop ff fz fb a b = Ok d -> rows a = n -> rows b = n -> rows d = n.
Proof.
  destruct a as [xs|xs|xs|xs], b as [ys|ys|ys|ys], fb as [f|]; simpl;
    try discriminate;
    intros H Ha Hb; inversion H; subst d; simpl;
    rewrite map2_length; rewrite ?length_map; congruence.
Qed.

Lemma parse_all_length (parse : string -> option float) (xs : list string)
      (vs : list float) :
  parse_all parse xs = Some vs -> List.length vs = List.length xs.
Proof.
  revert vs. induction xs as [|x xs IH]; simpl; intros vs H.
  - now inversion H.
  - destruct (parse x); [|discriminate].
    destruct (parse_all parse xs) as [vs0|]; [|discriminate].
    inversion H; subst. simpl. now rewrite (IH vs0).
Qed.

Lemma astype_float_rows (parse : string -> option float) (c c' : column) :
  astype_float parse c = Some c' -> rows c' = rows c.
Proof.
  destruct c as [xs|xs|xs|xs]; simpl.
  - intro H. now inversion H.
  - intro H. inversion H. simpl. apply length_map.
  - intro H. inversion H. simpl. apply length_map.
  - destruct (parse_all parse xs) as [vs|] eqn:Hvs; simpl; [|discriminate].
    intro H. inversion H. simpl. exact (parse_all_length _ _ _ Hvs).
Qed.

Lemma triple_getitem (k : string) :
  triple (uniform n) (getitem k) (fun c => rows c = n).
Proof.
  intros w r w' Hrun Hw. unfold getitem in Hrun.
  destruct (getcol (frame w) k) as [c|] eqn:Hc; inversion Hrun; subst r w'.
  - split; [exact Hw|]. intros a Heq. inversion Heq; subst.
    exact (uniform_rows_getcol _ _ _ Hw Hc).
  - split; [exact Hw | discriminate].
Qed.

Lemma triple_getitem_opt (k : option string) :
  triple (uniform n) (getitem_opt k) (fun c => rows c = n).
Proof. destruct k; simpl; [apply triple_getitem | apply triple_raise]. Qed.

Lemma triple_setitem (k : string) (c : column) :
  rows c = n -> triple (uniform n) (setitem k c) (fun _ => True).
Proof.
  intros Hc w r w' Hrun Hw. inversion Hrun; subst r w'. split; [|trivial].
  exact (uniform_rows_setcol _ _ _ Hw Hc).
Qed.

Lemma triple_lift_binop (ff : float -> float -> float) (fz : Z -> Z -> Z)
      (fb : option (bool -> bool -> bool)) (a b : column) :
  rows a = n -> rows b = n ->
  triple (uniform n) (lift (series_binop ff fz fb a b)) (fun d => rows d = n).
Proof.
  intros Ha Hb w r w' Hrun Hw. inversion Hrun; subst r w'. split; [exact Hw|].
  intros d Hd. exact (series_binop_rows _ _ _ _ _ _ Hd Ha Hb).
Qed.

Lemma triple_warn (msg : string) : triple (uniform n) (warn msg) (fun _ => True).
Proof. intros w r w' Hrun Hw. inversion Hrun; subst r w'. now split. Qed.

Lemma triple_ensure_numeric (py_float : string -> option float)
      (k msg : string) :
  triple (uniform n) (ensure_numeric py_float k msg) (fun _ => True).
Proof.
  unfold ensure_numeric.
  apply (triple_bind _ _ _ _ _ (triple_getitem k)). intros c Hc.
  destruct (is_numeric_dtype c); [now apply triple_ret|].
  destruct (astype_float py_float c) as [c'|] eqn:Hc';
    [|apply triple_raise].
  apply triple_setitem. now rewrite (astype_float_rows _ _ _ Hc').
Qed.

Lemma triple_ensure_numeric_opt (py_float : string -> option float)
      (k : option string) (msg : string) :
  triple (uniform n) (ensure_numeric_opt py_float k msg) (fun _ => True).
Proof.
  destruct k; simpl; [apply triple_ensure_numeric | now apply triple_ret].
Qed.

Lemma triple_check_numeric (py_float : string -> option float)
      (estimate : string) (moerror ll hl : option string) :
  triple (uniform n) (check_numeric py_float estimate moerror ll hl)
         (fun _ => True).
Proof.
  unfold check_numeric.
  repeat (eapply triple_bind;
          [first [apply triple_ensure_numeric
                 | apply triple_ensure_numeric_opt] | intros _ _]).
  apply triple_ensure_numeric_opt.
Qed.

Lemma triple_check_ci_source (moerror ll hl : option string) :
  triple (uniform n) (check_ci_source moerror ll hl) (fun _ => True).
Proof.
  unfold check_ci_source.
  eapply triple_bind; [apply triple_when, triple_assert_or | intros _ _].
  apply triple_when, triple_assert_or.
Qed.

Lemma triple_derive_block (op : column -> column -> result column)
      (name estimate : string) (k : option string) :
  (forall a b, rows a = n -> rows b = n ->
               triple (uniform n) (lift (op a b)) (fun d => rows d = n)) ->
  triple (uniform n)
         (e <- getitem estimate ;;
          l <- getitem_opt k ;;
          d <- lift (op e l) ;;
          setitem name d)
         (fun _ => True).
Proof.
  intro Hop.
  apply (triple_bind _ _ _ _ _ (triple_getitem estimate)). intros e He.
  apply (triple_bind _ _ _ _ _ (triple_getitem_opt k)). intros l Hl.
  apply (triple_bind _ _ _ _ _ (Hop e l He Hl)). intros d Hd.
  now apply triple_setitem.
Qed.

Lemma triple_derive (estimate : string) (moerror ll hl : option string) :
  triple (uniform n) (derive estimate moerror ll hl) (fun _ => True).
Proof.
  unfold derive, series_sub, series_add.
  eapply triple_bind;
    [apply triple_when, triple_derive_block; intros; now apply triple_lift_binop
    | intros _ _].
  eapply triple_bind;
    [apply triple_when, triple_derive_block; intros; now apply triple_lift_binop
    | intros _ _].
  apply triple_when, triple_derive_block; intros; now apply triple_lift_binop.
Qed.

Lemma triple_check_list_like (arg : option pyarg) (name : string) :
  triple (uniform n) (check_list_like arg name) (fun _ => True).
Proof.
  destruct arg; simpl; [apply triple_assert_or | now apply triple_ret].
Qed.

Lemma triple_check_same_length (arg headers : option pyarg) (msg : string) :
  triple (uniform n) (check_same_length arg headers msg) (fun _ => True).
Proof.
  destruct arg, headers; simpl;
    first [apply triple_assert_or | now apply triple_ret].
Qed.

Lemma triple_check_found (arg : option pyarg) :
  triple (uniform n) (check_found arg) (fun _ => True).
Proof.
  intros w r w' Hrun Hw. rewrite check_found_run in Hrun.
  destruct (first_unknown _ _); inversion Hrun; subst; split; trivial;
    discriminate.
Qed.

Lemma triple_emit_warnings (varlabel : string)
      (addannote rightannote : option pyarg) :
  triple (uniform n) (emit_warnings varlabel addannote rightannote)
         (fun _ => True).
Proof.
  intros w r w' Hrun Hw. rewrite emit_warnings_run in Hrun.
  inversion Hrun; subst r w'. now split.
Qed.

(** X12. The row count is an invariant of [check_data]: if every column of
    the table has [n] rows when the call starts, every column has [n] rows
    when it ends, derived columns included, whether it returns or raises. *)
Theorem check_data_keeps_row_count :
  forall (py_float : string -> option float) (w w' : world)
         (r : result DataFrame) (estimate varlabel : string)
         (moerror ll hl : option string)
         (addannote annoteheaders rightannote right_annoteheaders
          : option pyarg),
    check_data py_float estimate varlabel moerror ll hl addannote
               annoteheaders rightannote right_annoteheaders w = (r, w') ->
    uniform_rows n (frame w) = true ->
    uniform_rows n (frame w') = true
    /\ (forall df', r = Ok df' -> uniform_rows n df' = true).
Proof.
  intros py_float w w' r estimate varlabel moerror ll hl a ah ra rh.
  revert w r w'.
  change (triple (uniform n)
                 (check_data py_float estimate varlabel moerror ll hl a ah
                             ra rh)
                 (fun df' => uniform_rows n df' = true)).
  unfold check_data.
  repeat (eapply triple_bind;
          [first [ apply triple_check_numeric
                 | apply triple_check_ci_source
                 | apply triple_derive
                 | apply triple_check_list_like
                 | apply triple_check_same_length
                 | apply triple_check_found
                 | apply triple_emit_warnings ]
          | intros _ _]).
  intros w r w' Hrun Hw. inversion Hrun; subst r w'. split; [exact Hw|].
  intros df' Heq. now inversion Heq.
Qed.

End Rows.

(** ** Calling [check_data] again *)

(** On a frame that already holds what [derive] would compute, [derive]
    changes nothing. *)
Lemma derive_again (estimate : string) (moerror ll hl : option string)
      (df1 df' : DataFrame) (ws : list string) :
  ci_ok moerror ll hl = true ->
  derived_from estimate moerror ll hl df1 df' ->
  (forall k, In k (map fst (fields estimate moerror ll hl)) ->
             getcol df' k = getcol df1 k) ->
  (ll = None -> estimate <> "ll" /\ moerror <> Some "ll") ->
  derive estimate moerror ll hl (World df' ws) = (Ok tt, World df' ws).
Proof.
  intros Hci (_ & _ & Hmo & Hlo & Hhi) Hfield Hne.
  assert (Hest : getcol df' estimate = getcol df1 estimate)
    by (apply Hfield; simpl; tauto).
  destruct moerror as [mk|], ll as [lk|], hl as [hk|]; try discriminate Hci;
    unfold derive, when; cbn [is_none].
  - reflexivity.
  - destruct (Hhi eq_refl) as (mk' & E & M & D & Hmk & HE & HM & HD & HgD);
      [discriminate|].
    inversion Hmk; subst mk'. rewrite !bind_ret_l.
    rewrite (derive_block_exact series_add "hl" estimate mk df' ws E M D);
      [now rewrite (setcol_same _ _ _ HgD) | congruence | | exact HD].
    rewrite Hfield; [exact HM | simpl; tauto].
  - destruct (Hlo eq_refl) as (mk' & E & M & D & Hmk & HE & HM & HD & HgD).
    inversion Hmk; subst mk'. rewrite bind_ret_l.
    rewrite (bind_ok _ _ _ _ _
               (derive_block_exact series_sub "ll" estimate mk df' ws E M D
                  (eq_trans Hest HE)
                  (eq_trans (Hfield mk ltac:(simpl; tauto)) HM) HD)).
    now rewrite (setcol_same _ _ _ HgD).
  - destruct (Hlo eq_refl) as (mk' & E & M & D & Hmk & HE & HM & HD & HgD).
    inversion Hmk; subst mk'.
    destruct (Hhi eq_refl Hne)
      as (mk2 & E2 & M2 & D2 & Hmk2 & HE2 & HM2 & HD2 & HgD2).
    inversion Hmk2; subst mk2.
    assert (HE' : getcol df' estimate = Some E) by congruence.
    assert (HM' : getcol df' mk = Some M)
      by (rewrite Hfield; [exact HM | simpl; tauto]).
    rewrite HE in HE2. rewrite HM in HM2. inversion HE2; inversion HM2.
    subst E2 M2. rewrite bind_ret_l.
    rewrite (bind_ok _ _ _ _ _
               (derive_block_exact series_sub "ll" estimate mk df' ws E M D
                                   HE' HM' HD)).
    rewrite (setcol_same _ _ _ HgD).
    rewrite (derive_block_exact series_add "hl" estimate mk df' ws E M D2
                                HE' HM' HD2).
    now rewrite (setcol_same _ _ _ HgD2).
  - destruct (Hmo eq_refl) as (lk' & E & L & D & Hlk & HE & HL & HD & HgD).
    inversion Hlk; subst lk'.
    rewrite (bind_ok _ _ _ _ _
               (derive_block_exact series_sub "moerror" estimate lk df' ws
                  E L D (eq_trans Hest HE)
                  (eq_trans (Hfield lk ltac:(simpl; tauto)) HL) HD)).
    now rewrite (setcol_same _ _ _ HgD).
Qed.

Lemma field_not_derived (estimate : string) (moerror ll hl : option string)
      (df : DataFrame) (k : string) :
  forallb (fun d => negb (contains (columns df) d))
          (derived_names moerror ll hl) = true ->
  In k (columns df) -> ~ In k (derived_names moerror ll hl).
Proof.
  intros Hfresh Hk Hd. rewrite forallb_forall in Hfresh.
  specialize (Hfresh _ Hd). apply contains_In in Hk.
  rewrite Hk in Hfresh. discriminate.
Qed.

Section Again.

Variable py_float : string -> option float.

(** X13. [check_data] is idempotent on the table: calling it again with
    the same arguments on the table it returned succeeds and returns that
    very table (the derived names not having been column names of the first
    input); only the warnings are emitted a second time. *)
Theorem check_data_idempotent :
  forall (w w' : world) (df' : DataFrame) (estimate varlabel : string)
         (moerror ll hl : option string)
         (addannote annoteheaders rightannote right_annoteheaders
          : option pyarg),
    check_data py_float estimate varlabel moerror ll hl addannote
               annoteheaders rightannote right_annoteheaders w = (Ok df', w') ->
    forallb (fun d => negb (contains (columns (frame w)) d))
            (derived_names moerror ll hl) = true ->
    check_data py_float estimate varlabel moerror ll hl addannote
               annoteheaders rightannote right_annoteheaders w'
    = (Ok df',
       World df' (warned w' ++ warnings_for varlabel addannote rightannote)).
Proof.
  intros w w' df' estimate varlabel moerror ll hl a ah r rh Hrun Hfresh.
  destruct (check_data_cases py_float _ _ _ _ _ _ _ _ _ _ _ _ Hrun)
    as [(e & df1 & _ & He & _) | [(df1 & _ & _ & He & _)
       | [(df1 & _ & _ & _ & He & _)
       | (df1 & df2 & Hco & Hci & _ & Hfrom & _ & Hder
          & [(e & _ & He & _) | (Hann & He & Hw)])]]];
    try discriminate He.
  inversion He; subst df2. clear He.
  pose proof (coerce_fields_inv _ _ _ _ Hco) as Hall.
  pose proof (coerced_has_numeric py_float _ _ _ Hall Hfrom) as Hnum.
  assert (Hfield : forall k,
             In k (map fst (fields estimate moerror ll hl)) ->
             getcol df' k = getcol df1 k).
  { intros k Hin. destruct (Hnum k Hin) as (c & Hc & _).
    apply (proj1 (proj2 Hder)).
    apply (field_not_derived estimate moerror ll hl (frame w) k Hfresh).
    rewrite <- (proj1 Hfrom). exact (getcol_In _ _ _ Hc). }
  assert (Hne : ll = None -> estimate <> "ll" /\ moerror <> Some "ll").
  { intro Hl. subst ll.
    assert (Hll : ~ In "ll" (columns df1)).
    { rewrite (proj1 Hfrom). apply contains_false.
      rewrite forallb_forall in Hfresh. apply negb_true_iff, Hfresh.
      unfold derived_names. apply in_or_app. right. simpl. tauto. }
    split.
    - intros ->. destruct (Hnum "ll") as (c & Hc & _); [simpl; tauto|].
      apply Hll. exact (getcol_In _ _ _ Hc).
    - intros ->. destruct (Hnum "ll") as (c & Hc & _); [simpl; tauto|].
      apply Hll. exact (getcol_In _ _ _ Hc). }
  rewrite check_data_eq. subst w'. cbn [frame warned].
  rewrite (coerce_fields_numeric_id py_float), Hci.
  - rewrite (derive_again _ _ _ _ df1 df' _ Hci Hder Hfield Hne).
    cbn [frame warned]. now rewrite Hann.
  - intros k Hin. destruct (Hnum k Hin) as (c & Hc & Hn).
    exists c. split; [|exact Hn]. now rewrite (Hfield k Hin).
Qed.

(** X14. A table that needs nothing is returned as it is: with [moerror],
    [ll] and [hl] all supplied and the four columns numeric, a call whose
    annotations are valid returns the input table unchanged, cell for
    cell. *)
Theorem check_data_complete_table_unchanged :
  forall (w : world) (estimate varlabel mk lk hk : string)
         (addannote annoteheaders rightannote right_annoteheaders
          : option pyarg),
    forallb (numeric_at (frame w)) [estimate; mk; lk; hk] = true ->
    annotations_ok (columns (frame w)) addannote annoteheaders rightannote
                   right_annoteheaders = true ->
    check_data py_float estimate varlabel (Some mk) (Some lk) (Some hk)
               addannote annoteheaders rightannote right_annoteheaders w
    = (Ok (frame w),
       World (frame w)
             (warned w ++ warnings_for varlabel addannote rightannote)).
Proof.
  intros w estimate varlabel mk lk hk a ah r rh Hnum Hann.
  rewrite check_data_eq, (coerce_fields_numeric_id py_float).
  - simpl. apply annotation_error_none in Hann. now rewrite Hann.
  - intros k Hin. rewrite forallb_forall in Hnum.
    assert (Hk : numeric_at (frame w) k = true)
      by (apply Hnum; simpl in *; tauto).
    unfold numeric_at in Hk. unfold has_numeric.
    destruct (getcol (frame w) k) as [c|]; [eauto | discriminate].
Qed.

End Again.

(** * Further properties of [load_data] *)

(** X15. [load_data] reads one file only.  Whenever it calls
    [pd.read_csv], the URL is that of mortality.csv, the keyword arguments
    are those of the caller, and the name it was given is "mortality" in
    some letter case between leading and trailing whitespace: no other name
    reaches the network and the name cannot change the URL. *)
Theorem load_data_fetches_only_mortality :
  forall name param_dict url param_dict',
    load_data name param_dict = ReadCsv url param_dict' ->
    url = "https://raw.githubusercontent.com/lsys/pyforestplot/main/examples/data/mortality.csv"
    /\ param_dict' = param_dict
    /\ exists pre core post,
        name = pre ++ core ++ post
        /\ all_space pre = true /\ all_space post = true
        /\ lower core = "mortality".
Proof.
  intros name kw url kw' Hrun. unfold load_data in Hrun.
  destruct (contains available_data (normalize name)) eqn:Hin;
    [|discriminate].
  apply contains_In in Hin. simpl in Hin. destruct Hin as [Hnorm | []].
  inversion Hrun; subst. rewrite <- Hnorm.
  split; [reflexivity|]. split; [reflexivity|].
  unfold normalize, strip in Hnorm.
  destruct (lstrip_decompose (lower name)) as (pre & Hpre & Hpre_ws).
  destruct (rstrip_decompose (lstrip (lower name))) as (post & Hpost & Hpost_ws).
  rewrite <- Hnorm in Hpost. rewrite Hpost in Hpre.
  destruct (lower_split _ _ _ Hpre) as (pre0 & rest & Hname & Hpre0 & Hrest).
  destruct (lower_split _ _ _ Hrest) as (core & post0 & Hrest0 & Hcore & Hpost0).
  exists pre0, core, post0. subst rest.
  repeat split; try assumption.
  - now rewrite <- all_space_lower, Hpre0.
  - now rewrite <- all_space_lower, Hpost0.
Qed.

Lemma normalize_idem (name : string) :
  normalize (normalize name) = normalize name.
Proof.
  unfold normalize, strip.
  now rewrite lower_rstrip, lower_lstrip, lower_idem,
    lstrip_rstrip_lstrip, rstrip_idem.
Qed.

(** X16. Normalizing is idempotent, so [load_data] cannot tell a name from
    its normalized form: called on the name an error message reports, it
    does what it did on the name as first passed. *)
Theorem load_data_normalized_name :
  forall name param_dict,
    normalize (normalize name) = normalize name
    /\ load_data (normalize name) param_dict = load_data name param_dict.
Proof.
  intros name kw. split; [apply normalize_idem|].
  unfold load_data. now rewrite normalize_idem.
Qed.

(** * What a successful call guarantees *)

Lemma has_numeric_setcol_same (df : DataFrame) (name : string) (d : column) :
  is_numeric_dtype d = true -> has_numeric (setcol df name d) name.
Proof. intro Hd. exists d. now rewrite getcol_setcol_same. Qed.

Lemma has_numeric_at (df : DataFrame) (k : string) :
  has_numeric df k -> numeric_at df k = true.
Proof. intros (c & Hc & Hn). unfold numeric_at. now rewrite Hc. Qed.

(** After [derive], on numeric interval columns, the columns of the
    arguments and the derived columns are all there and numeric. *)
Lemma derive_numeric (estimate : string) (moerror ll hl : option string)
      (df : DataFrame) (ws : list string) :
  ci_ok moerror ll hl = true ->
  (forall k, In k (map fst (fields estimate moerror ll hl)) ->
             has_numeric df k) ->
  derivable df estimate moerror ll = true ->
  exists df2,
    derive estimate moerror ll hl (World df ws) = (Ok tt, World df2 ws)
    /\ forall k,
        In k (map fst (fields estimate moerror ll hl)
                ++ derived_names moerror ll hl)%list ->
        has_numeric df2 k.
Proof.
  intros Hci Hnum Hder.
  assert (Hest : has_numeric df estimate) by (apply Hnum; simpl; tauto).
  destruct moerror as [mk|], ll as [lk|], hl as [hk|]; try discriminate Hci;
    unfold derivable in Hder; cbn [subtrahend] in Hder;
    try apply negb_true_iff in Hder;
    unfold derive, when, derived_names; cbn [is_none app].
  - exists df. split; [reflexivity|]. intros k Hk. apply Hnum.
    now rewrite app_nil_r in Hk.
  - assert (Hm : has_numeric df mk) by (apply Hnum; simpl; tauto).
    destruct (derive_block_add "hl" estimate mk df ws Hest Hm)
      as (E & M & D & _ & _ & _ & HDn & Hrun).
    exists (setcol df "hl" D). split; [exact Hrun|].
    intros k Hk. apply in_app_or in Hk. destruct Hk as [Hk | [<- | []]].
    + now apply has_numeric_setcol, Hnum.
    + now apply has_numeric_setcol_same.
  - assert (Hm : has_numeric df mk) by (apply Hnum; simpl; tauto).
    destruct (derive_block_sub "ll" estimate mk df ws Hest Hm Hder)
      as (E & M & D & _ & _ & _ & HDn & Hrun).
    exists (setcol df "ll" D).
    split; [rewrite bind_ret_l, (bind_ok _ _ _ _ _ Hrun); reflexivity|].
    intros k Hk. apply in_app_or in Hk. destruct Hk as [Hk | [<- | []]].
    + now apply has_numeric_setcol, Hnum.
    + now apply has_numeric_setcol_same.
  - assert (Hm : has_numeric df mk) by (apply Hnum; simpl; tauto).
    destruct (derive_block_sub "ll" estimate mk df ws Hest Hm Hder)
      as (E & M & D & _ & _ & _ & HDn & Hrun).
    destruct (derive_block_add "hl" estimate mk (setcol df "ll" D) ws
                               (has_numeric_setcol _ _ _ _ HDn Hest)
                               (has_numeric_setcol _ _ _ _ HDn Hm))
      as (E' & M' & D' & _ & _ & _ & HDn' & Hrun').
    exists (setcol (setcol df "ll" D) "hl" D').
    split; [rewrite bind_ret_l, (bind_ok _ _ _ _ _ Hrun); exact Hrun'|].
    intros k Hk. apply in_app_or in Hk.
    destruct Hk as [Hk | [<- | [<- | []]]].
    + now apply has_numeric_setcol, has_numeric_setcol, Hnum.
    + now apply has_numeric_setcol, has_numeric_setcol_same.
    + now apply has_numeric_setcol_same.
  - assert (Hl : has_numeric df lk) by (apply Hnum; simpl; tauto).
    destruct (derive_block_sub "moerror" estimate lk df ws Hest Hl Hder)
      as (E & L & D & _ & _ & _ & HDn & Hrun).
    exists (setcol df "moerror" D).
    split; [rewrite (bind_ok _ _ _ _ _ Hrun); reflexivity|].
    intros k Hk. apply in_app_or in Hk. destruct Hk as [Hk | [<- | []]].
    + now apply has_numeric_setcol, Hnum.
    + now apply has_numeric_setcol_same.
Qed.

(** X17. What the caller can rely on after a successful call: the
    returned table has the estimate column and a margin-of-error, a
    lower-limit and an upper-limit column (the argument's when supplied,
    "moerror", "ll", "hl" otherwise), and all four are numeric. *)
Theorem check_data_result_is_numeric :
  forall (py_float : string -> option float) (w w' : world)
         (df' : DataFrame) (estimate varlabel : string)
         (moerror ll hl : option string)
         (addannote annoteheaders rightannote right_annoteheaders
          : option pyarg),
    check_data py_float estimate varlabel moerror ll hl addannote
               annoteheaders rightannote right_annoteheaders w = (Ok df', w') ->
    forallb (numeric_at df')
            [estimate; name_or moerror "moerror"; name_or ll "ll";
             name_or hl "hl"] = true.
Proof.
  intros py_float w w' df' estimate varlabel moerror ll hl a ah r rh Hrun.
  destruct (check_data_cases py_float _ _ _ _ _ _ _ _ _ _ _ _ Hrun)
    as [(e & df1 & _ & He & _) | [(df1 & _ & _ & He & _)
       | [(df1 & _ & _ & _ & He & _)
       | (df1 & df2 & Hco & Hci & Hd & Hfrom & Hderive & _
          & [(e & _ & He & _) | (_ & He & _)])]]];
    try discriminate He.
  inversion He; subst df2. clear He.
  pose proof (coerce_fields_inv _ _ _ _ Hco) as Hall.
  rewrite <- (coerced_from_derivable py_float _ _ _ _ _ _ Hfrom) in Hd.
  destruct (derive_numeric estimate moerror ll hl df1 (warned w) Hci
                           (coerced_has_numeric py_float _ _ _ Hall Hfrom) Hd)
    as (df2 & Hrun2 & Hnum).
  rewrite Hderive in Hrun2. inversion Hrun2; subst df2.
  apply forallb_forall. intros k Hk. apply has_numeric_at, Hnum.
  unfold derived_names.
  destruct moerror, ll, hl; simpl in *; intuition (subst; auto 10).
Qed.

(** * The further properties on sample calls *)

Lemma check_data_key_error_cause_witness :
  In "lower" (map fst (fields "est" (Some "moe") (Some "lower") None))
  /\ getcol sample_margins "lower" = None
  /\ check_numeric sample_float "est" (Some "moe") (Some "lower") None
                   (World sample_margins [])
     = (Raise (KeyError "lower"), World sample_margins []).
Proof.
  apply (check_data_key_error_cause
           sample_float (World sample_margins []) (World sample_margins [])
           "est" "var" (Some "moe") (Some "lower") None None None None None
           "lower").
  reflexivity.
Defined.

Lemma check_data_type_error_cause_witness :
  ((NotAFrame = NotAFrame /\ "Expect data as Pandas DataFrame"
                             = "Expect data as Pandas DataFrame")
   \/ (NotAFrame = TheFrame
       /\ exists k cells,
           In (k, "Expect data as Pandas DataFrame")
              (fields "est" None (Some "lo") (Some "hi"))
           /\ getcol sample_flags k = Some (Object cells)
           /\ parse_all sample_float cells = None)
   \/ (NotAFrame = TheFrame
       /\ "Expect data as Pandas DataFrame" = msg_bool_subtract
       /\ exists k,
           subtrahend None (Some "lo") = Some k
           /\ bool_at sample_flags "est" = true
           /\ bool_at sample_flags k = true)
   \/ (NotAFrame = TheFrame
       /\ exists name arg,
           In (name, Some arg) (annotation_args None None None None)
           /\ is_list_like arg = false
           /\ "Expect data as Pandas DataFrame"
              = name ++ " should be list-like."))
  /\ ((TheFrame = NotAFrame
       /\ msg_bool_subtract = "Expect data as Pandas DataFrame")
      \/ (TheFrame = TheFrame
          /\ exists k cells,
              In (k, msg_bool_subtract)
                 (fields "est" None (Some "lo") (Some "hi"))
              /\ getcol sample_flags k = Some (Object cells)
              /\ parse_all sample_float cells = None)
      \/ (TheFrame = TheFrame
          /\ msg_bool_subtract = msg_bool_subtract
          /\ exists k,
              subtrahend None (Some "lo") = Some k
              /\ bool_at sample_flags "est" = true
              /\ bool_at sample_flags k = true)
      \/ (TheFrame = TheFrame
          /\ exists name arg,
              In (name, Some arg) (annotation_args None None None None)
              /\ is_list_like arg = false
              /\ msg_bool_subtract = name ++ " should be list-like."))
  /\ ((TheFrame = NotAFrame /\ msg_ll = "Expect data as Pandas DataFrame")
      \/ (TheFrame = TheFrame
          /\ exists k cells,
              In (k, msg_ll) (fields "est" None (Some "lo") (Some "hi"))
              /\ getcol sample_bad_limits k = Some (Object cells)
              /\ parse_all sample_float cells = None)
      \/ (TheFrame = TheFrame
          /\ msg_ll = msg_bool_subtract
          /\ exists k,
              subtrahend None (Some "lo") = Some k
              /\ bool_at sample_bad_limits "est" = true
              /\ bool_at sample_bad_limits k = true)
      \/ (TheFrame = TheFrame
          /\ exists name arg,
              In (name, Some arg) (annotation_args None None None None)
              /\ is_list_like arg = false
              /\ msg_ll = name ++ " should be list-like.")).
Proof.
  split; [|split].
  - apply (check_data_type_error_cause
             sample_float NotAFrame (World sample_flags [])
             (World sample_flags [])
             "est" "var" None (Some "lo") (Some "hi") None None None None
             "Expect data as Pandas DataFrame").
    reflexivity.
  - apply (check_data_type_error_cause
             sample_float TheFrame (World sample_flags [])
             (World sample_flags [])
             "est" "var" None (Some "lo") (Some "hi") None None None None
             msg_bool_subtract).
    reflexivity.
  - apply (check_data_type_error_cause
             sample_float TheFrame (World sample_bad_limits [])
             (World sample_bad_limits [])
             "est" "var" None (Some "lo") (Some "hi") None None None None
             msg_ll).
    reflexivity.
Defined.

Lemma check_data_assertion_error_cause_witness :
  ("the field nope is not found in dataframe." = msg_need_ll_hl
   /\ Some "moe" = None /\ (@None string = None \/ @None string = None))
  \/ ("the field nope is not found in dataframe."
      = "addannote and annoteheaders should have same length."
      /\ exists a h,
          Some (PyList ["var"; "nope"]) = Some a /\ None = Some h
          /\ len a <> len h)
  \/ ("the field nope is not found in dataframe."
      = "rightannote and right_annoteheaders should have same length."
      /\ exists a h, @None pyarg = Some a /\ None = Some h /\ len a <> len h)
  \/ (exists col,
         In col (entries_opt (Some (PyList ["var"; "nope"])) ++ entries_opt None)
         /\ known (derived_columns sample_margins (Some "moe") None None) col
            = false
         /\ "the field nope is not found in dataframe."
            = "the field " ++ col ++ " is not found in dataframe.").
Proof.
  apply (check_data_assertion_error_cause
           sample_float (World sample_margins []) (World sample_complete [])
           "est" "var" (Some "moe") None None
           (Some (PyList ["var"; "nope"])) None None None
           "the field nope is not found in dataframe.").
  reflexivity.
Defined.

Lemma check_data_never_asks_for_moerror_witness :
  msg_need_ll_hl <> msg_need_moerror.
Proof.
  apply (check_data_never_asks_for_moerror
           sample_float (World sample_limits []) (World sample_limits [])
           "est" "var" None None (Some "hi") None None None None
           msg_need_ll_hl).
  reflexivity.
Defined.

Lemma check_data_failure_is_silent_witness :
  (exists emitted, ["earlier warning"] = (["earlier warning"] ++ emitted)%list)
  /\ (forall e,
         Raise (AssertionError msg_need_ll_hl) = @Raise DataFrame e ->
         ["earlier warning"] = ["earlier warning"]).
Proof.
  apply (check_data_failure_is_silent
           sample_float (World sample_limits ["earlier warning"])
           (World sample_limits ["earlier warning"])
           (Raise (AssertionError msg_need_ll_hl))
           "est" "var" None None (Some "hi")
           (Some (PyList ["var"])) None None None).
  reflexivity.
Defined.

Lemma check_data_keeps_columns_witness :
  exists w',
    check_data sample_float "est" "var" (Some "moe") None None
               None None None None (World sample_text [])
    = (Ok (frame w'), w')
    /\ columns (frame w') = ["var"; "est"; "moe"; "ll"; "hl"]
    /\ getcol (frame w') "var" = Some (Object ["age"; "sex"])
    /\ getcol (frame w') "moe" = Some (Int64 [1; 2]%Z).
Proof.
  eexists. split; [reflexivity|]. split; [reflexivity|].
  destruct (check_data_keeps_columns
              sample_float (World sample_text []) _ _ "est" "var"
              (Some "moe") None None None None None None eq_refl)
    as [_ Hkeep].
  split; apply Hkeep; try reflexivity; simpl;
    first [intuition discriminate | right; reflexivity
          | left; intuition discriminate].
Defined.

Lemma check_data_failure_leaves_witness :
  (exists e w',
      check_data sample_float "est" "var" None None (Some "hi")
                 None None None None (World sample_limits [])
      = (Raise e, w')
      /\ columns (frame w') = ["var"; "est"; "lo"; "hi"])
  /\ (exists e w',
         check_data sample_float "est" "var" (Some "moe") None None
                    (Some (PyList ["nope"])) None None None
                    (World sample_margins [])
         = (Raise e, w')
         /\ columns (frame w') = ["var"; "est"; "moe"; "ll"; "hl"]).
Proof.
  split.
  - apply (proj1 (check_data_failure_leaves
                    sample_float (World sample_limits []) "est" "var"
                    None None (Some "hi") None None None None)).
    reflexivity.
  - apply (proj2 (check_data_failure_leaves
                    sample_float (World sample_margins []) "est" "var"
                    (Some "moe") None None
                    (Some (PyList ["nope"])) None None None));
      reflexivity.
Defined.

Lemma check_data_numeric_failure_state_witness :
  exists e w',
    check_data sample_float "est" "var" None (Some "lo") (Some "hi")
               None None None None (World sample_text_bad [])
    = (Raise e, w')
    /\ getcol (frame w') "est" = Some (Float64 [1.5; 0.75]%float)
    /\ getcol (frame w') "lo" = Some (Object ["0.25"; "n/a"]).
Proof.
  destruct (check_data_numeric_failure_state
              sample_float (World sample_text_bad []) "est" "var"
              None (Some "lo") (Some "hi") None None None None
              [("est", msg_estimate)] [("hi", msg_hl)] "lo" msg_ll
              eq_refl eq_refl eq_refl)
    as (e & w' & Hrun & _ & Hget).
  exists e, w'. split; [exact Hrun|].
  split; rewrite Hget; reflexivity.
Defined.

Lemma check_data_headers_unread_witness :
  check_data sample_float "est" "var" (Some "moe") None None
             (Some (PyList ["var"])) (Some (PyList ["Variable"]))
             None (Some (PyList ["right"; "side"]))
             (World sample_margins [])
  = check_data sample_float "est" "var" (Some "moe") None None
               (Some (PyList ["var"])) (Some (PyList ["est"]))
               None (Some (PyList []))
               (World sample_margins []).
Proof.
  apply (check_data_headers_unread
           sample_float (World sample_margins []) "est" "var"
           (Some "moe") None None
           (Some (PyList ["var"])) (Some (PyList ["est"]))
           None (Some (PyList []))
           (Some (PyList ["Variable"])) (Some (PyList ["right"; "side"])));
    reflexivity.
Defined.

Lemma check_data_annotation_shape_errors_witness :
  (exists w',
      check_data sample_float "est" "var" (Some "moe") None None
                 (Some (PyStr "var")) None None None (World sample_margins [])
      = (Raise (TypeError "addannote should be list-like."), w'))
  /\ (exists w',
         check_data sample_float "est" "var" (Some "moe") None None
                    (Some (PyList ["x"; "y"])) (Some (PyList ["X"]))
                    None None (World sample_margins [])
         = (Raise (AssertionError
                     "addannote and annoteheaders should have same length."),
            w')).
Proof.
  split.
  - apply (proj1 (check_data_annotation_shape_errors
                    sample_float (World sample_margins []) "est" "var"
                    (Some "moe") None None
                    (Some (PyStr "var")) None None None
                    eq_refl eq_refl eq_refl)
                 [] "addannote" (Some (PyStr "var"))
                 [("annoteheaders", None); ("rightannote", None);
                  ("right_annoteheaders", None)]);
      reflexivity.
  - apply (proj1 (proj2 (check_data_annotation_shape_errors
                           sample_float (World sample_margins []) "est" "var"
                           (Some "moe") None None
                           (Some (PyList ["x"; "y"])) (Some (PyList ["X"]))
                           None None eq_refl eq_refl eq_refl)));
      reflexivity.
Defined.

Lemma check_data_keeps_row_count_witness :
  uniform_rows 2 sample_complete = true
  /\ (forall df', Ok sample_complete = Ok df' -> uniform_rows 2 df' = true).
Proof.
  apply (check_data_keeps_row_count
           2 sample_float (World sample_margins [])
           (World sample_complete []) (Ok sample_complete)
           "est" "var" (Some "moe") None None None None None None);
    reflexivity.
Defined.

Lemma check_data_idempotent_witness :
  check_data sample_float "est" "var" (Some "moe") None None
             (Some (PyList ["var"])) None None None
             (World sample_complete
                    [msg_duplicate "var" "addannote"])
  = (Ok sample_complete,
     World sample_complete
           [msg_duplicate "var" "addannote";
            msg_duplicate "var" "addannote"]).
Proof.
  apply (check_data_idempotent
           sample_float (World sample_margins [])
           (World sample_complete [msg_duplicate "var" "addannote"])
           sample_complete "est" "var" (Some "moe") None None
           (Some (PyList ["var"])) None None None);
    reflexivity.
Defined.

Lemma check_data_complete_table_unchanged_witness :
  check_data sample_float "est" "var" (Some "moe") (Some "ll") (Some "hl")
             None None None None (World sample_complete [])
  = (Ok sample_complete, World sample_complete []).
Proof.
  apply (check_data_complete_table_unchanged
           sample_float (World sample_complete []) "est" "var"
           "moe" "ll" "hl" None None None None);
    reflexivity.
Defined.

Lemma load_data_fetches_only_mortality_witness :
  data_url "mortality"
  = "https://raw.githubusercontent.com/lsys/pyforestplot/main/examples/data/mortality.csv"
  /\ @nil (string * string) = []
  /\ exists pre core post,
      "  Mortality " = pre ++ core ++ post
      /\ all_space pre = true /\ all_space post = true
      /\ lower core = "mortality".
Proof.
  apply (load_data_fetches_only_mortality "  Mortality " []).
  reflexivity.
Defined.

Lemma check_data_result_is_numeric_witness :
  forallb (numeric_at sample_complete) ["est"; "moe"; "ll"; "hl"] = true.
Proof.
  apply (check_data_result_is_numeric
           sample_float (World sample_margins []) (World sample_complete [])
           sample_complete "est" "var" (Some "moe") None None
           None None None None).
  reflexivity.
Defined.
